(** * bucketsearch: the paginated export loops of [main.go]

    A shallow embedding of the three commands of the client
    ([handleFiles], [handleBuckets], [handleStats]) together with the
    helpers they call ([buildURL], [doGet]), and the properties of the
    pagination loop, of the two sinks and of the stats pass-through.

    Conventions of the embedding.
    - Go's [int] and [int64] are 64-bit two's-complement integers: they
      are values of [Z], and every addition the program performs is
      followed by [wrap].
    - A Go [string] and a [[]byte] are byte sequences: both are
      [String.string], one [ascii] per byte (the literals below are
      UTF-8, as in the source file).
    - The remote API is a function from the number of requests already
      made and the request to an HTTP response: any server, stateful or
      not, is such a function.
    - The console is the list of chunks written to standard output, in
      order; a CSV writer is the list of rows handed to [w.Write], in
      order; [log.Fatalf] ends the run with [Aborted].
    - The loops are [for { ... }] loops without a bound: they are run
      with fuel, and [Running] is the outcome of a run that has not left
      the loop when the fuel is spent. *)

From Stdlib Require Import ZArith String Ascii List DecimalString DecimalPos DecimalZ Lia Bool.
From stdpp Require Import base gmap strings list fin_maps.

Set Warnings "-register-all".

Open Scope string_scope.
Open Scope list_scope.
Open Scope Z_scope.

(** ** Machine integers *)

Definition int_min : Z := - 2 ^ 63.
Definition int_max : Z := 2 ^ 63 - 1.

Definition is_int (z : Z) : Prop := int_min <= z <= int_max.

(** Two's-complement reduction to 64 bits. *)
Definition wrap (z : Z) : Z := (z + 2 ^ 63) mod 2 ^ 64 - 2 ^ 63.

(** [a + b] on [int] / [int64]. *)
Definition int_add (a b : Z) : Z := wrap (a + b).

(** [len(xs)] as an [int]. *)
Definition len {A} (xs : list A) : Z := Z.of_nat (length xs).

(** [fmt.Sprintf("%d", z)]. *)
Definition Sprintf_d (z : Z) : string := NilZero.string_of_int (Z.to_int z).

(** ** The parts of the Go library the program relies on

    [any] is the type of a value decoded by [encoding/json] into an
    [interface{}] field, [Sprint] is [fmt.Sprint] on such a value,
    [Unix_Format_RFC3339 s] is [time.Unix(s, 0).Format(time.RFC3339)] in
    the process's local time zone, and [EqualFold_hasUnicode] is the
    part of [strings.EqualFold] that runs once a byte outside ASCII has
    been met (it needs the Unicode case-folding tables). *)
Class GoLib := {
  any : Type;
  Sprint : any -> string;
  Unix_Format_RFC3339 : Z -> string;
  EqualFold_hasUnicode : string -> string -> bool;
}.

(** [strings.EqualFold]: the ASCII loop of the library function, byte by
    byte; two bytes match when they are equal or when the smaller is an
    upper-case letter and the larger its lower-case form. *)
Definition byte_val (c : ascii) : Z := Z.of_N (N_of_ascii c).

Definition ascii_fold_match (sr tr : ascii) : bool :=
  let a := byte_val sr in
  let b := byte_val tr in
  if a =? b then true
  else
    let lo := Z.min a b in
    let hi := Z.max a b in
    (65 <=? lo) && (lo <=? 90) && (hi =? lo + 97 - 65).

Fixpoint EqualFold `{GoLib} (s t : string) : bool :=
  match s, t with
  | String sr s', String tr t' =>
      if 128 <=? Z.lor (byte_val sr) (byte_val tr) then EqualFold_hasUnicode s t
      else if ascii_fold_match sr tr then EqualFold s' t'
      else false
  | EmptyString, EmptyString => true
  | _, _ => false
  end.

(** ** Data model (lines 20-61 of main.go) *)

Section Program.
Context `{GoLib}.

Record File := {
  File_ID : any;
  File_Bucket : string;
  File_BucketID : any;
  File_Name : string;
  File_URL : string;
  File_Size : Z;
  File_Type : string;
  File_LastModified : Z;
}.

Record FilesResponse := {
  Files : list File;
  Files_Meta_Results : Z;
}.

Record Bucket := {
  Bucket_ID : any;
  Bucket_Bucket : string;
  Bucket_FileCount : Z;
  Bucket_Type : string;
}.

Record BucketsResponse := {
  Buckets : list Bucket;
  Buckets_Meta_Results : Z;
}.

(** ** JSON values, as [encoding/json] builds them from the structs

    The object of a struct lists its members in field order under the
    names of the [json:"..."] tags.  A slice is an array, except that a
    nil slice is [null].  How the value is laid out as text (the
    indentation, the escapes) is the library's business. *)
Inductive JSON :=
| JNull
| JNumber (n : Z)
| JString (s : string)
| JAny (v : any)
| JArray (elems : list JSON)
| JObject (members : list (string * JSON)).

Definition marshal_File (f : File) : JSON :=
  JObject [ ("id", JAny (File_ID f));
            ("bucket", JString (File_Bucket f));
            ("bucketId", JAny (File_BucketID f));
            ("name", JString (File_Name f));
            ("url", JString (File_URL f));
            ("size", JNumber (File_Size f));
            ("type", JString (File_Type f));
            ("lastModified", JNumber (File_LastModified f)) ].

Definition marshal_Bucket (b : Bucket) : JSON :=
  JObject [ ("id", JAny (Bucket_ID b));
            ("bucket", JString (Bucket_Bucket b));
            ("fileCount", JNumber (Bucket_FileCount b));
            ("type", JString (Bucket_Type b)) ].

(** [allFiles] and [allBuckets] are declared with [var] and only ever
    grown with [append]: the slice is nil exactly as long as no record
    has been appended, so the empty list stands for the nil slice. *)
Definition marshal_slice {A} (elem : A -> JSON) (xs : list A) : JSON :=
  match xs with
  | [] => JNull
  | _ :: _ => JArray (map elem xs)
  end.

(** ** Console, requests and responses *)

(** One write to standard output: text, or the result of
    [json.MarshalIndent(v, "", "  ")]. *)
Inductive Output :=
| Text (s : string)
| JSONIndent (v : JSON).

Definition baseURL : string := "https://buckets.grayhatwarfare.com/api/v2".

(** The URL returned by [buildURL]: the endpoint and the query
    parameters it carries (before percent-encoding). *)
Record URLString := {
  url_endpoint : string;
  url_query : gmap string string;
}.

Record Request := {
  req_method : string;
  req_url : URLString;
  req_Authorization : string;
}.

Inductive HTTPResponse (B : Type) :=
| TransportError (err : string)
| Response (StatusCode : Z) (Body : B).
Arguments TransportError {B} err.
Arguments Response {B} StatusCode Body.

Inductive Result (A : Type) :=
| Ok (a : A)
| Err (err : string).
Arguments Ok {A} a.
Arguments Err {A} err.

(** A response body as [json.Unmarshal] into a [T] sees it: the decoder
    either rejects it or fills the struct with [v]. *)
Inductive Body (T : Type) :=
| Undecodable (err : string)
| JSONOf (v : T).
Arguments Undecodable {T} err.
Arguments JSONOf {T} v.

Definition Unmarshal {T} (data : Body T) : Result T :=
  match data with
  | Undecodable err => Err err
  | JSONOf v => Ok v
  end.

(** [buildURL] (lines 95-105): only the parameters with a non-empty
    value are set. *)
Definition buildURL (path : string) (params : gmap string string) : URLString :=
  {| url_endpoint := baseURL +:+ path;
     url_query := filter (λ kv, kv.2 ≠ "") params |}.

(** The request [doGet] sends. *)
Definition newRequest (apiKey : string) (urlStr : URLString) : Request :=
  {| req_method := "GET";
     req_url := urlStr;
     req_Authorization := "Bearer " +:+ apiKey |}.

(** [doGet] (lines 107-119); [n] is the number of requests made before
    this one. *)
Definition doGet {B} (client : nat -> Request -> HTTPResponse B) (n : nat)
    (apiKey : string) (urlStr : URLString) : Result B :=
  match client n (newRequest apiKey urlStr) with
  | TransportError err => Err err
  | Response code body =>
      if code =? 200 then Ok body else Err ("http " +:+ Sprintf_d code)
  end.

(** ** The loop *)

(** The variables of a pagination loop and what it has done so far. *)
Record Loop (R : Type) := mkLoop {
  offset : Z;
  total : Z;
  fetched : Z;
  all : list R;                    (* allFiles / allBuckets *)
  w : option (list (list string)); (* the csv writer; None is nil *)
  stdout : list Output;
  requests : list Request;
}.
Arguments mkLoop {R}.
Arguments offset {R}.
Arguments total {R}.
Arguments fetched {R}.
Arguments all {R}.
Arguments w {R}.
Arguments stdout {R}.
Arguments requests {R}.

Inductive Step (S : Type) :=
| Next (s : S)
| Break (s : S)
| Fatal (msg : string) (s : S).
Arguments Next {S} s.
Arguments Break {S} s.
Arguments Fatal {S} msg s.

Inductive Outcome (S : Type) :=
| Finished (s : S)
| Aborted (msg : string) (s : S)
| Running (s : S).
Arguments Finished {S} s.
Arguments Aborted {S} msg s.
Arguments Running {S} s.

(** [for { body }], with fuel. *)
Fixpoint loop {S} (body : S -> Step S) (fuel : nat) (s : S) : Outcome S :=
  match fuel with
  | O => Running s
  | Datatypes.S fuel' =>
      match body s with
      | Next s' => loop body fuel' s'
      | Break s' => Finished s'
      | Fatal msg s' => Aborted msg s'
      end
  end.

Definition outcome_state {S} (o : Outcome S) : S :=
  match o with
  | Finished s | Aborted _ s | Running s => s
  end.

Definition cr : string := String (ascii_of_nat 13) "".
Definition nl : string := String (ascii_of_nat 10) "".

(** The two [fmt.Printf] calls of lines 184-188 and 283-287. *)
Definition progress (fetched total : Z) : Output :=
  if 0 <? total
  then Text (cr +:+ "已获取 " +:+ Sprintf_d fetched +:+ " / " +:+ Sprintf_d total +:+ " 条")
  else Text (cr +:+ "已获取 " +:+ Sprintf_d fetched +:+ " 条").

(** The effective page size (lines 122-125 and 206-209). *)
Definition pageSize_of (limit : Z) : Z :=
  if (limit <=? 0) || (limit >? 1000) then 1000 else limit.

(** ** [handleFiles] (lines 121-203) *)

Definition files_header : list string :=
  ["id"; "bucket"; "bucketId"; "name"; "url"; "size"; "type"; "lastModified"].

(** The row of lines 164-173. *)
Definition file_row (file : File) : list string :=
  [ Sprint (File_ID file);
    File_Bucket file;
    Sprint (File_BucketID file);
    File_Name file;
    File_URL file;
    Sprintf_d (File_Size file);
    File_Type file;
    Unix_Format_RFC3339 (File_LastModified file) ].

Definition files_url (keywords bucket ext noext : string) (pageSize offset : Z)
    : URLString :=
  buildURL "/files"
    {[ "keywords" := keywords;
       "bucket" := bucket;
       "extensions" := ext;
       "stopextensions" := noext;
       "limit" := Sprintf_d pageSize;
       "start" := Sprintf_d offset ]}.

(** One turn of the loop of lines 143-194. *)
Definition files_body (client : nat -> Request -> HTTPResponse (Body FilesResponse))
    (apiKey keywords bucket ext noext : string) (pageSize : Z)
    (st : Loop File) : Step (Loop File) :=
  let urlStr := files_url keywords bucket ext noext pageSize (offset st) in
  let sent := requests st ++ [newRequest apiKey urlStr] in
  match doGet client (length (requests st)) apiKey urlStr with
  | Err err =>
      Fatal ("request error: " +:+ err)
        (mkLoop (offset st) (total st) (fetched st) (all st) (w st) (stdout st) sent)
  | Ok data =>
      match Unmarshal data with
      | Err err =>
          Fatal ("decode: " +:+ err)
            (mkLoop (offset st) (total st) (fetched st) (all st) (w st) (stdout st) sent)
      | Ok resp =>
          (* write/collect *)
          let w' := match w st with
                    | Some rows => Some (rows ++ map file_row (Files resp))
                    | None => None
                    end in
          let allFiles := match w st with
                          | Some _ => all st
                          | None => all st ++ Files resp
                          end in
          let fetched' := int_add (fetched st) (len (Files resp)) in
          let total' := if total st =? -1 then Files_Meta_Results resp else total st in
          let stdout' := stdout st ++ [progress fetched' total'] in
          if (len (Files resp) <? pageSize)
             || ((total' >? 0) && (int_add (offset st) pageSize >=? total'))
          then Break (mkLoop (offset st) total' fetched' allFiles w' stdout' sent)
          else Next (mkLoop (int_add (offset st) pageSize) total' fetched' allFiles w'
                       stdout' sent)
      end
  end.

(** Lines 196-202. *)
Definition files_finish (output : string) (st : Loop File) : Loop File :=
  let last := match w st with
              | Some _ => Text ("completed, saved to " +:+ output +:+ nl)
              | None => JSONIndent (marshal_slice marshal_File (all st))
              end in
  mkLoop (offset st) (total st) (fetched st) (all st) (w st)
    (stdout st ++ [Text nl; last]) (requests st).

Definition after_loop {S} (finish : S -> S) (o : Outcome S) : Outcome S :=
  match o with
  | Finished s => Finished (finish s)
  | _ => o
  end.

(** The variables on entry to the loop. *)
Definition loop_init {R} (start : Z) (w : option (list (list string))) : Loop R :=
  mkLoop start (-1) 0 [] w [] [].

(** [os_Create path] is the error of [os.Create(path)], if any. *)
Definition handleFiles (client : nat -> Request -> HTTPResponse (Body FilesResponse))
    (os_Create : string -> option string)
    (apiKey keywords bucket ext noext : string) (limit start : Z) (output : string)
    (fuel : nat) : Outcome (Loop File) :=
  let pageSize := pageSize_of limit in
  let body := files_body client apiKey keywords bucket ext noext pageSize in
  if decide (output ≠ "") then
    match os_Create output with
    | Some err => Aborted ("create csv: " +:+ err) (loop_init start None)
    | None =>
        after_loop (files_finish output)
          (loop body fuel (loop_init start (Some [files_header])))
    end
  else after_loop (files_finish output) (loop body fuel (loop_init start None)).

(** ** [handleBuckets] (lines 205-308) *)

Definition buckets_header (onlyBucket : bool) : list string :=
  if onlyBucket then ["bucket"] else ["id"; "bucket"; "fileCount"; "type"].

(** The rows of lines 260-273. *)
Definition bucket_row (onlyBucket : bool) (b : Bucket) : list string :=
  if onlyBucket then [Bucket_Bucket b]
  else [ Sprint (Bucket_ID b);
         Bucket_Bucket b;
         Sprintf_d (Bucket_FileCount b);
         Bucket_Type b ].

Definition buckets_url (keywords cloudType : string) (pageSize offset : Z)
    : URLString :=
  buildURL "/buckets"
    {[ "keywords" := keywords;
       "type" := cloudType;
       "limit" := Sprintf_d pageSize;
       "start" := Sprintf_d offset ]}.

(** The client-side filter of lines 248-257. *)
Definition filter_type (cloudType : string) (buckets : list Bucket) : list Bucket :=
  if decide (cloudType ≠ "")
  then List.filter (fun b => EqualFold (Bucket_Type b) cloudType) buckets
  else buckets.

(** One turn of the loop of lines 231-293. *)
Definition buckets_body (client : nat -> Request -> HTTPResponse (Body BucketsResponse))
    (apiKey keywords cloudType : string) (pageSize : Z) (onlyBucket : bool)
    (st : Loop Bucket) : Step (Loop Bucket) :=
  let urlStr := buckets_url keywords cloudType pageSize (offset st) in
  let sent := requests st ++ [newRequest apiKey urlStr] in
  match doGet client (length (requests st)) apiKey urlStr with
  | Err err =>
      Fatal ("request error: " +:+ err)
        (mkLoop (offset st) (total st) (fetched st) (all st) (w st) (stdout st) sent)
  | Ok data =>
      match Unmarshal data with
      | Err err =>
          Fatal ("decode: " +:+ err)
            (mkLoop (offset st) (total st) (fetched st) (all st) (w st) (stdout st) sent)
      | Ok resp =>
          let filtered := filter_type cloudType (Buckets resp) in
          let w' := match w st with
                    | Some rows => Some (rows ++ map (bucket_row onlyBucket) filtered)
                    | None => None
                    end in
          let allBuckets := match w st with
                            | Some _ => all st
                            | None => all st ++ filtered
                            end in
          let fetched' := int_add (fetched st) (len filtered) in
          let total' := if total st =? -1 then Buckets_Meta_Results resp else total st in
          let stdout' := stdout st ++ [progress fetched' total'] in
          if (len (Buckets resp) <? pageSize)
             || ((total' >? 0) && (int_add (offset st) pageSize >=? total'))
          then Break (mkLoop (offset st) total' fetched' allBuckets w' stdout' sent)
          else Next (mkLoop (int_add (offset st) pageSize) total' fetched' allBuckets w'
                       stdout' sent)
      end
  end.

(** Lines 295-307. *)
Definition buckets_finish (output : string) (onlyBucket : bool) (st : Loop Bucket)
    : Loop Bucket :=
  let last := match w st with
              | Some _ => [Text ("completed, saved to " +:+ output +:+ nl)]
              | None =>
                  if onlyBucket
                  then map (fun b => Text (Bucket_Bucket b +:+ nl)) (all st)
                  else [JSONIndent (marshal_slice marshal_Bucket (all st))]
              end in
  mkLoop (offset st) (total st) (fetched st) (all st) (w st)
    (stdout st ++ Text nl :: last) (requests st).

Definition handleBuckets (client : nat -> Request -> HTTPResponse (Body BucketsResponse))
    (os_Create : string -> option string)
    (apiKey keywords cloudType : string) (limit start : Z) (output : string)
    (onlyBucket : bool) (fuel : nat) : Outcome (Loop Bucket) :=
  let pageSize := pageSize_of limit in
  let body := buckets_body client apiKey keywords cloudType pageSize onlyBucket in
  if decide (output ≠ "") then
    match os_Create output with
    | Some err => Aborted ("create csv: " +:+ err) (loop_init start None)
    | None =>
        after_loop (buckets_finish output onlyBucket)
          (loop body fuel (loop_init start (Some [buckets_header onlyBucket])))
    end
  else after_loop (buckets_finish output onlyBucket)
         (loop body fuel (loop_init start None)).

(** ** [handleStats] (lines 310-324) *)

(** What a stats run leaves behind: the writes to standard output, the
    files [os.WriteFile] wrote in full, as (path, contents), and the
    paths on which [os.WriteFile] failed.  [os.WriteFile] opens its path
    with create and truncate before it writes, so a path on which it
    failed may be absent, untouched, empty or hold a part of the data:
    the model records the path and nothing about what is there. *)
Record StatsRun := {
  stats_stdout : list Output;
  stats_files : list (string * string);
  stats_unfinished : list string;
  stats_requests : list Request;
}.

Definition stats_url : URLString :=
  {| url_endpoint := baseURL +:+ "/stats"; url_query := ∅ |}.

(** [os_WriteFile path data] is the error of [os.WriteFile(path, data, 0644)],
    if any. *)
Definition handleStats (client : nat -> Request -> HTTPResponse string)
    (os_WriteFile : string -> string -> option string)
    (apiKey output : string) : Outcome StatsRun :=
  let sent := [newRequest apiKey stats_url] in
  match doGet client 0 apiKey stats_url with
  | Err err =>
      Aborted ("request error: " +:+ err)
        {| stats_stdout := []; stats_files := []; stats_unfinished := [];
           stats_requests := sent |}
  | Ok data =>
      if decide (output = "") then
        Finished {| stats_stdout := [Text data]; stats_files := [];
                    stats_unfinished := []; stats_requests := sent |}
      else
        match os_WriteFile output data with
        | Some err =>
            Aborted ("write file: " +:+ err)
              {| stats_stdout := []; stats_files := [];
                 stats_unfinished := [output]; stats_requests := sent |}
        | None =>
            Finished {| stats_stdout := [Text ("stats saved to " +:+ output +:+ nl)];
                        stats_files := [(output, data)];
                        stats_unfinished := [];
                        stats_requests := sent |}
        end
  end.

(** ** The loop both commands run

    [handleFiles] and [handleBuckets] repeat the same loop over different
    records.  [page_body] is that loop once, over the records [R] of an
    envelope [Resp]: [records] are the records of a page, [forward] those
    that go to the sink, [results] the reported total, [row] the CSV row
    of a record and [url_at] the URL requested at an offset. *)
Section Paginator.
Context {R Resp : Type}.
Variable client : nat -> Request -> HTTPResponse (Body Resp).
Variable apiKey : string.
Variable url_at : Z -> URLString.
Variables records forward : Resp -> list R.
Variable results : Resp -> Z.
Variable row : R -> list string.
Variable pageSize : Z.

Definition page_body (st : Loop R) : Step (Loop R) :=
  let sent := requests st ++ [newRequest apiKey (url_at (offset st))] in
  match doGet client (length (requests st)) apiKey (url_at (offset st)) with
  | Err err =>
      Fatal ("request error: " +:+ err)
        (mkLoop (offset st) (total st) (fetched st) (all st) (w st) (stdout st) sent)
  | Ok data =>
      match Unmarshal data with
      | Err err =>
          Fatal ("decode: " +:+ err)
            (mkLoop (offset st) (total st) (fetched st) (all st) (w st) (stdout st) sent)
      | Ok resp =>
          let w' := match w st with
                    | Some rows => Some (rows ++ map row (forward resp))
                    | None => None
                    end in
          let all' := match w st with
                      | Some _ => all st
                      | None => all st ++ forward resp
                      end in
          let fetched' := int_add (fetched st) (len (forward resp)) in
          let total' := if total st =? -1 then results resp else total st in
          let stdout' := stdout st ++ [progress fetched' total'] in
          if (len (records resp) <? pageSize)
             || ((total' >? 0) && (int_add (offset st) pageSize >=? total'))
          then Break (mkLoop (offset st) total' fetched' all' w' stdout' sent)
          else Next (mkLoop (int_add (offset st) pageSize) total' fetched' all' w'
                       stdout' sent)
      end
  end.

End Paginator.

(** ** The run in closed form

    What the variables of the loop hold on entry to turn [i], when turn
    [j < i] received a page of [counts j] records of which [sizes j] went
    to the sink, with reported total [reported j]. *)
Section ClosedForm.
Variable pageSize : Z.
Variable start : Z.
Variables counts sizes reported : nat -> Z.

(** The offset of request [i]. *)
Fixpoint offset_at (i : nat) : Z :=
  match i with
  | O => start
  | S j => int_add (offset_at j) pageSize
  end.

(** [total] on entry to turn [i]. *)
Fixpoint total_before (i : nat) : Z :=
  match i with
  | O => -1
  | S j => if total_before j =? -1 then reported j else total_before j
  end.

(** [fetched] on entry to turn [i]. *)
Fixpoint fetched_before (i : nat) : Z :=
  match i with
  | O => 0
  | S j => int_add (fetched_before j) (sizes j)
  end.

(** The test of lines 190 and 289 in turn [i]: a short page, or a
    positive total reached by [offset + pageSize]. *)
Definition stops (i : nat) : bool :=
  (counts i <? pageSize)
  || ((total_before (S i) >? 0)
      && (int_add (offset_at i) pageSize >=? total_before (S i))).

(** The console after [i] turns. *)
Fixpoint progress_before (i : nat) : list Output :=
  match i with
  | O => []
  | S j => progress_before j ++ [progress (fetched_before (S j)) (total_before (S j))]
  end.

End ClosedForm.

Section Trace.
Context {R Resp : Type}.
Variable apiKey : string.
Variable url_at : Z -> URLString.
Variables records forward : Resp -> list R.
Variable results : Resp -> Z.
Variable row : R -> list string.
Variable pageSize : Z.
Variable start : Z.
Variable w0 : option (list (list string)).
Variable pages : nat -> Resp.

Definition counts_of (i : nat) : Z := len (records (pages i)).
Definition sizes_of (i : nat) : Z := len (forward (pages i)).
Definition reported_of (i : nat) : Z := results (pages i).

(** Request [i] of the run. *)
Definition request_at (i : nat) : Request :=
  newRequest apiKey (url_at (offset_at pageSize start i)).

Definition requests_before (i : nat) : list Request :=
  map request_at (seq 0 i).

(** Turn [i] receives the page [pages i]: the server answers request
    [i] with status 200 and a body that decodes to it. *)
Definition serves (client : nat -> Request -> HTTPResponse (Body Resp)) (i : nat)
    : Prop :=
  client i (request_at i) = Response 200 (JSONOf (pages i)).

(** The records forwarded to the sink by the first [i] turns. *)
Definition forwarded_before (i : nat) : list R :=
  concat (map (fun j => forward (pages j)) (seq 0 i)).

(** The variables on entry to turn [i]. *)
Definition state_before (i : nat) : Loop R :=
  mkLoop (offset_at pageSize start i)
    (total_before reported_of i)
    (fetched_before sizes_of i)
    (match w0 with Some _ => [] | None => forwarded_before i end)
    (match w0 with
     | Some rows => Some (rows ++ map row (forwarded_before i))
     | None => None
     end)
    (progress_before sizes_of reported_of i)
    (requests_before i).

(** The variables when the loop is left in turn [i]. *)
Definition state_stopped (i : nat) : Loop R :=
  let st := state_before (S i) in
  mkLoop (offset_at pageSize start i) (total st) (fetched st) (all st) (w st)
    (stdout st) (requests st).

End Trace.

End Program.

Arguments TransportError {B} err.
Arguments Response {B} StatusCode Body.
Arguments Ok {A} a.
Arguments Err {A} err.
Arguments Undecodable {T} err.
Arguments JSONOf {T} v.
Arguments mkLoop {H R}.
Arguments offset {H R}.
Arguments total {H R}.
Arguments fetched {H R}.
Arguments all {H R}.
Arguments w {H R}.
Arguments stdout {H R}.
Arguments requests {H R}.
Arguments Next {S} s.
Arguments Break {S} s.
Arguments Fatal {S} msg s.
Arguments Finished {S} s.
Arguments Aborted {S} msg s.
Arguments Running {S} s.

(** The writer on entry to the loop: nil without an output path, and
    holding the header row with one. *)
Definition sink (header : list string) (output : string)
    : option (list (list string)) :=
  if decide (output ≠ "") then Some [header] else None.

(** [os.Create] succeeds on the output path, when there is one. *)
Definition creatable (os_Create : string -> option string) (output : string) : Prop :=
  output ≠ "" -> os_Create output = None.

(** The variables a turn leaves behind. *)
Definition step_state {S} (s : Step S) : S :=
  match s with
  | Next s' | Break s' | Fatal _ s' => s'
  end.

(** ** Runs of the two commands against given pages

    [pages i] is the envelope the server sends in turn [i]; the
    definitions below name, for each command, the request of turn [i],
    the fact that the server answers it with [pages i], and the outcome
    of the stop test of that turn. *)
Section Runs.
Context `{GoLib}.

Definition files_request_at (apiKey keywords bucket ext noext : string)
    (pageSize start : Z) (i : nat) : Request :=
  request_at apiKey (files_url keywords bucket ext noext pageSize) pageSize start i.

Definition files_serves (client : nat -> Request -> HTTPResponse (Body FilesResponse))
    (apiKey keywords bucket ext noext : string) (pageSize start : Z)
    (pages : nat -> FilesResponse) (i : nat) : Prop :=
  client i (files_request_at apiKey keywords bucket ext noext pageSize start i)
  = Response 200 (JSONOf (pages i)).

(** [total] after the assignment of lines 181-183 in turn [i]. *)
Definition files_total (pages : nat -> FilesResponse) (i : nat) : Z :=
  total_before (fun j => Files_Meta_Results (pages j)) (S i).

Definition files_stops (pageSize start : Z) (pages : nat -> FilesResponse) (i : nat)
    : bool :=
  stops pageSize start (fun j => len (Files (pages j)))
    (fun j => Files_Meta_Results (pages j)) i.

Definition buckets_request_at (apiKey keywords cloudType : string)
    (pageSize start : Z) (i : nat) : Request :=
  request_at apiKey (buckets_url keywords cloudType pageSize) pageSize start i.

Definition buckets_serves (client : nat -> Request -> HTTPResponse (Body BucketsResponse))
    (apiKey keywords cloudType : string) (pageSize start : Z)
    (pages : nat -> BucketsResponse) (i : nat) : Prop :=
  client i (buckets_request_at apiKey keywords cloudType pageSize start i)
  = Response 200 (JSONOf (pages i)).

(** [total] after the assignment of lines 280-282 in turn [i]. *)
Definition buckets_total (pages : nat -> BucketsResponse) (i : nat) : Z :=
  total_before (fun j => Buckets_Meta_Results (pages j)) (S i).

Definition buckets_stops (pageSize start : Z) (pages : nat -> BucketsResponse) (i : nat)
    : bool :=
  stops pageSize start (fun j => len (Buckets (pages j)))
    (fun j => Buckets_Meta_Results (pages j)) i.

End Runs.

(** ** The stop rule, in the words of the specification

    Turn [i] ends the pagination when its page has strictly fewer than
    [P] records, or when the total is known and positive and the offset
    of the turn plus [P] has reached it.  The offset of turn [i] is
    [start + i * P] and the sum [offset + P] is an [int] addition. *)
Definition stop_rule (P start : Z) (count total : nat -> Z) (i : nat) : Prop :=
  count i < P
  \/ (0 < total i /\ total i <= wrap (wrap (start + Z.of_nat i * P) + P)).

(** ** A CSV cell against a JSON value

    The value a JSON member of a declared type carries, as text: a
    string member its characters (JSON writes them between quotes), an
    integer member its decimal digits (as JSON writes them).  What JSON
    writes for a member of type [any] depends on the value decoded and
    is given with the runtime that fixes [any]. *)
Definition member_text `{GoLib} (v : JSON) : option string :=
  match v with
  | JString s => Some s
  | JNumber n => Some (Sprintf_d n)
  | _ => None
  end.

(** ** Progress lines

    The progress text in the words of the specification: the number of
    records fetched so far and, when it is known, the total. *)
Definition spec_progress (fetched : Z) (total : option Z) : string :=
  match total with
  | Some y => "fetched " +:+ Sprintf_d fetched +:+ " / " +:+ Sprintf_d y +:+ " records"
  | None => "fetched " +:+ Sprintf_d fetched +:+ " records"
  end.

(** The number of records the first [i] turns sent to the sink. *)
Fixpoint cumulative (sizes : nat -> Z) (i : nat) : Z :=
  match i with
  | O => 0
  | S j => cumulative sizes j + sizes j
  end.

(** ** Case-insensitive comparison of ASCII strings *)

Definition lower_byte (v : Z) : Z :=
  if (65 <=? v) && (v <=? 90) then v + 32 else v.

(** The bytes of a string with the letters A-Z lowered. *)
Fixpoint lower_key (s : string) : list Z :=
  match s with
  | EmptyString => []
  | String c s' => lower_byte (byte_val c) :: lower_key s'
  end.

Fixpoint is_ascii (s : string) : bool :=
  match s with
  | EmptyString => true
  | String c s' => (byte_val c <? 128) && is_ascii s'
  end.

(** ** Failed turns

    The message with which a response ends a run, if it does: [doGet]
    reports a transport error as it is and any status other than 200 as
    "http <status>", the loops pass that on as "request error: ...", and
    a body of a 200 response that [json.Unmarshal] rejects ends the run
    with "decode: ..." (lines 110-117, 152-159 and 238-245). *)
Definition fatal_reply {T} (reply : HTTPResponse (Body T)) : option string :=
  match reply with
  | TransportError err => Some ("request error: " +:+ err)
  | Response code body =>
      if code =? 200 then
        match body with
        | Undecodable err => Some ("decode: " +:+ err)
        | JSONOf _ => None
        end
      else Some ("request error: http " +:+ Sprintf_d code)
  end.

(** The variables when turn [i] fails: those on entry to the turn, and
    the request of the turn made. *)
Definition state_failed `{GoLib} {R Resp : Type} (apiKey : string)
    (url_at : Z -> URLString) (forward : Resp -> list R) (results : Resp -> Z)
    (row : R -> list string) (pageSize start : Z) (w0 : option (list (list string)))
    (pages : nat -> Resp) (i : nat) : Loop R :=
  let st := state_before apiKey url_at forward results row pageSize start w0 pages i in
  mkLoop (offset st) (total st) (fetched st) (all st) (w st) (stdout st)
    (requests_before apiKey url_at pageSize start (S i)).

(** ** The counter and the sink

    What the progress counter counts: the records appended to the slice
    in memory when there is no writer, and the data rows handed to the
    writer after the header when there is one (the slice stays empty
    then). *)
Definition sink_counts `{GoLib} {R : Type} (header : list string)
    (rowP : list string -> Prop) (st : Loop R) : Prop :=
  match w st with
  | None => fetched st = wrap (len (all st))
  | Some rows =>
      all st = []
      /\ exists data,
           rows = header :: data /\ fetched st = wrap (len data) /\ Forall rowP data
  end.

(** A run that writes CSV against the run that keeps the records in
    memory: the same variables, console and requests, and as rows the
    header and the rows of the records the other run holds. *)
Definition same_but_sink `{GoLib} {R : Type} (header : list string)
    (row : R -> list string) (csv mem : Loop R) : Prop :=
  offset csv = offset mem /\ total csv = total mem /\ fetched csv = fetched mem
  /\ stdout csv = stdout mem /\ requests csv = requests mem
  /\ all csv = [] /\ w mem = None
  /\ w csv = Some (header :: map row (all mem)).

Definition same_outcome {S} (rel : S -> S -> Prop) (o1 o2 : Outcome S) : Prop :=
  match o1, o2 with
  | Finished a, Finished b => rel a b
  | Running a, Running b => rel a b
  | Aborted m a, Aborted m' b => m = m' /\ rel a b
  | _, _ => False
  end.

(** ** Optional query parameters

    What the query of a URL holds for a parameter given the value [v]:
    nothing when the value is empty, the value otherwise. *)
Definition sent_if_set (v : string) : option string :=
  if decide (v = "") then None else Some v.

(** ** [main] (lines 63-93)

    [strings.ToLower] lowers a string of ASCII bytes byte by byte; any
    other string goes through [unicode.ToLower] rune by rune, which is
    the parameter [Map_unicode_ToLower]. *)
Definition lower_ascii (c : ascii) : ascii :=
  if (65 <=? byte_val c) && (byte_val c <=? 90)
  then ascii_of_N (N_of_ascii c + 32)
  else c.

Fixpoint map_lower_ascii (s : string) : string :=
  match s with
  | EmptyString => EmptyString
  | String c s' => String (lower_ascii c) (map_lower_ascii s')
  end.

Definition ToLower (Map_unicode_ToLower : string -> string) (s : string) : string :=
  if is_ascii s then map_lower_ascii s else Map_unicode_ToLower s.

(** The bytes of a string. *)
Fixpoint string_bytes (s : string) : list Z :=
  match s with
  | EmptyString => []
  | String c s' => byte_val c :: string_bytes s'
  end.

(** The flags after [flag.Parse], under the names of the command line. *)
Record Flags := {
  flag_apikey : string;
  flag_cmd : string;
  flag_keywords : string;
  flag_ext : string;
  flag_noext : string;
  flag_bucket : string;
  flag_limit : Z;
  flag_start : Z;
  flag_o : string;
  flag_type : string;
  flag_onlybucket : bool;
}.

(** The defaults of lines 64-74; [GHW_API_KEY] is the value of the
    environment variable. *)
Definition default_flags (GHW_API_KEY : string) : Flags :=
  {| flag_apikey := GHW_API_KEY;
     flag_cmd := "files";
     flag_keywords := "";
     flag_ext := "";
     flag_noext := "";
     flag_bucket := "";
     flag_limit := 1000;
     flag_start := 0;
     flag_o := "";
     flag_type := "";
     flag_onlybucket := false |}.

(** What the process runs against: the three endpoints of the server
    and the file system. *)
Record Machine `{GoLib} := {
  files_api : nat -> Request -> HTTPResponse (Body FilesResponse);
  buckets_api : nat -> Request -> HTTPResponse (Body BucketsResponse);
  stats_api : nat -> Request -> HTTPResponse string;
  os_Create : string -> option string;
  os_WriteFile : string -> string -> option string;
  Map_unicode_ToLower : string -> string;
}.

(** How the process ends: in [main] itself with [log.Fatalln] or
    [log.Fatalf], or with the outcome of the command it ran. *)
Inductive Exit `{GoLib} :=
| Fatal_in_main (msg : string)
| Files_ran (o : Outcome (Loop File))
| Buckets_ran (o : Outcome (Loop Bucket))
| Stats_ran (o : Outcome StatsRun).

Definition main `{GoLib} (m : Machine) (flags : Flags) (fuel : nat) : Exit :=
  if decide (flag_apikey flags = "") then Fatal_in_main ("missing api key" +:+ nl)
  else
    let cmd := ToLower (Map_unicode_ToLower m) (flag_cmd flags) in
    if decide (cmd = "files") then
      Files_ran
        (handleFiles (files_api m) (os_Create m) (flag_apikey flags)
           (flag_keywords flags) (flag_bucket flags) (flag_ext flags)
           (flag_noext flags) (flag_limit flags) (flag_start flags) (flag_o flags)
           fuel)
    else if decide (cmd = "buckets") then
      Buckets_ran
        (handleBuckets (buckets_api m) (os_Create m) (flag_apikey flags)
           (flag_keywords flags) (flag_type flags) (flag_limit flags)
           (flag_start flags) (flag_o flags) (flag_onlybucket flags) fuel)
    else if decide (cmd = "stats") then
      Stats_ran
        (handleStats (stats_api m) (os_WriteFile m) (flag_apikey flags)
           (flag_o flags))
    else Fatal_in_main ("unknown cmd " +:+ flag_cmd flags +:+ nl).

(** ** A runtime to evaluate the program on

    Identifiers that arrive as JSON strings ([fmt.Sprint] of a string is
    the string), a process whose local time zone is UTC, and type tags
    whose characters outside ASCII have no case variants. *)

Definition pad (width : nat) (s : string) : string :=
  String.concat "" (repeat "0" (width - String.length s)) +:+ s.

(** Civil date of a day number counted from 1970-01-01. *)
Definition civil_from_days (days : Z) : Z * Z * Z :=
  let z := days + 719468 in
  let era := z / 146097 in
  let doe := z - era * 146097 in
  let yoe := (doe - doe / 1460 + doe / 36524 - doe / 146096) / 365 in
  let doy := doe - (365 * yoe + yoe / 4 - yoe / 100) in
  let mp := (5 * doy + 2) / 153 in
  let d := doy - (153 * mp + 2) / 5 + 1 in
  let m := if mp <? 10 then mp + 3 else mp - 9 in
  let y := yoe + era * 400 + (if m <=? 2 then 1 else 0) in
  (y, m, d).

(** RFC 3339 in UTC, for the years 0 to 9999. *)
Definition utc_RFC3339 (sec : Z) : string :=
  let '(y, m, d) := civil_from_days (sec / 86400) in
  let s := sec mod 86400 in
  pad 4 (Sprintf_d y) +:+ "-" +:+ pad 2 (Sprintf_d m) +:+ "-" +:+ pad 2 (Sprintf_d d)
  +:+ "T" +:+ pad 2 (Sprintf_d (s / 3600)) +:+ ":" +:+ pad 2 (Sprintf_d (s / 60 mod 60))
  +:+ ":" +:+ pad 2 (Sprintf_d (s mod 60)) +:+ "Z".

Fixpoint fold_bytes (s t : string) : bool :=
  match s, t with
  | String a s', String b t' => ascii_fold_match a b && fold_bytes s' t'
  | EmptyString, EmptyString => true
  | _, _ => false
  end.

Definition utc_strings : GoLib :=
  {| any := string;
     Sprint := fun s => s;
     Unix_Format_RFC3339 := utc_RFC3339;
     EqualFold_hasUnicode := fold_bytes |}.

(** ** A runtime with identifiers as [encoding/json] decodes them

    [json.Unmarshal] stores in a field of type [any] a [string] for a
    JSON string and a [float64] for a JSON number.  [decoded] covers the
    strings and the [float64]s that hold an integer [n] of magnitude at
    most 2^53: every such integer is a [float64], and an integer literal
    in that range decodes to it. *)
Inductive decoded :=
| DString (s : string)
| DNumber (n : Z).

Definition representable (v : decoded) : Prop :=
  match v with
  | DString _ => True
  | DNumber n => Z.abs n <= 2 ^ 53
  end.

(** The digits of a decimal without its trailing zeros. *)
Fixpoint trim_zeros (digits : string) : string :=
  match digits with
  | EmptyString => EmptyString
  | String d more =>
      match trim_zeros more with
      | EmptyString => if Ascii.eqb d "0" then EmptyString else String d EmptyString
      | kept => String d kept
      end
  end.

(** [strconv]'s layout [%e] of the shortest digits: the first digit, a
    point and the other digits when there are any, then the exponent
    with its sign and at least two digits. *)
Definition fmtE (digits : string) (exp : Z) : string :=
  match digits with
  | String d more =>
      String d (match more with EmptyString => "" | _ => "." +:+ more end)
  | EmptyString => "0"
  end
  +:+ "e" +:+ (if exp <? 0 then "-" else "+") +:+ pad 2 (Sprintf_d (Z.abs exp)).

(** [fmt.Sprint] of the [float64] that holds the integer [n]: the verb
    [%v], that is [%g] with the shortest digits that read back as the
    same [float64].  For an integer of magnitude at most 2^53 these are
    its decimal digits without the trailing zeros, the decimal point
    standing after the last digit of the integer.  [%g] takes the layout
    [%e] when the exponent is below -4 or at least 6, and otherwise
    prints the integer in full. *)
Definition Sprint_float64 (n : Z) : string :=
  let digits := Sprintf_d (Z.abs n) in
  let exp := Z.of_nat (String.length digits) - 1 in
  let sign := if n <? 0 then "-" else "" in
  if (exp <? -4) || (6 <=? exp)
  then sign +:+ fmtE (trim_zeros digits) exp
  else sign +:+ digits.

Definition Sprint_decoded (v : decoded) : string :=
  match v with
  | DString s => s
  | DNumber n => Sprint_float64 n
  end.

(** The value [json.MarshalIndent] writes for a decoded identifier, as
    text: the characters of a string (written between quotes), and for a
    [float64] of magnitude below 1e21 that holds an integer the decimal
    form of the integer. *)
Definition json_text (v : decoded) : string :=
  match v with
  | DString s => s
  | DNumber n => Sprintf_d n
  end.

(** An identifier that is a string, or an integer of at most six
    digits. *)
Definition few_digits (v : decoded) : Prop :=
  match v with
  | DString _ => True
  | DNumber n => (String.length (Sprintf_d (Z.abs n)) <= 6)%nat
  end.

Definition utc_decoded : GoLib :=
  {| any := decoded;
     Sprint := Sprint_decoded;
     Unix_Format_RFC3339 := utc_RFC3339;
     EqualFold_hasUnicode := fold_bytes |}.

(** A cell shows the value of a JSON member: of a member of a declared
    type by [member_text], of a decoded identifier by [json_text]. *)
Definition same_value (member : string * @JSON utc_decoded) (cell : string) : Prop :=
  match snd member with
  | JAny a => cell = json_text a
  | v => member_text v = Some cell
  end.

(** Whether the byte [c] occurs in a string. *)
Fixpoint occurs (c : ascii) (s : string) : bool :=
  match s with
  | EmptyString => false
  | String a s' => Ascii.eqb a c || occurs c s'
  end.


Definition bucket_of_id (id : decoded) : @Bucket utc_decoded :=
  @Build_Bucket utc_decoded
    id            (* id *)
    "backups"     (* bucket *)
    7             (* fileCount *)
    "aws"         (* type *).

(** ** Sample servers and pages

    Concrete records, pages and servers over the runtime above, on which
    the program is evaluated. *)

Definition sample_file (name : string) : @File utc_strings :=
  @Build_File utc_strings
    ("f-" +:+ name)                             (* id *)
    "backups.example.com"                       (* bucket *)
    "b-1"                                       (* bucketId *)
    name                                        (* name *)
    ("https://backups.example.com/" +:+ name)   (* url *)
    2048                                        (* size *)
    "application/pdf"                           (* type *)
    1700000000                                  (* lastModified *).

Definition sample_bucket (name type : string) : @Bucket utc_strings :=
  @Build_Bucket utc_strings
    ("b-" +:+ name)   (* id *)
    name              (* bucket *)
    7                 (* fileCount *)
    type              (* type *).

(** A files server that answers every request with the same page. *)
Definition files_server (page : @FilesResponse utc_strings)
    : nat -> Request -> HTTPResponse (Body (@FilesResponse utc_strings)) :=
  fun _ _ => Response 200 (JSONOf page).

(** A buckets server that answers every request with the same page. *)
Definition buckets_server (page : @BucketsResponse utc_strings)
    : nat -> Request -> HTTPResponse (Body (@BucketsResponse utc_strings)) :=
  fun _ _ => Response 200 (JSONOf page).

(** The pages of a list in turn, and an empty page once the list is
    spent. *)
Definition files_pages (pages : list (@FilesResponse utc_strings)) (i : nat)
    : @FilesResponse utc_strings :=
  nth i pages {| Files := []; Files_Meta_Results := 0 |}.

Definition buckets_pages (pages : list (@BucketsResponse utc_strings)) (i : nat)
    : @BucketsResponse utc_strings :=
  nth i pages {| Buckets := []; Buckets_Meta_Results := 0 |}.

(** [os.Create] and [os.WriteFile] on a disk that accepts every write. *)
Definition create_ok : string -> option string := fun _ => None.
Definition write_ok : string -> string -> option string := fun _ _ => None.

(** One file and a reported total of zero: a full page when the page
    size is 1. *)
Definition page_one_file_total0 : @FilesResponse utc_strings :=
  @Build_FilesResponse utc_strings [sample_file "a.pdf"] 0.

Definition page_one_bucket_total0 : @BucketsResponse utc_strings :=
  @Build_BucketsResponse utc_strings [sample_bucket "logs" "aws"] 0.

Definition two_files (reported : Z) : @FilesResponse utc_strings :=
  @Build_FilesResponse utc_strings [sample_file "a.pdf"; sample_file "b.pdf"] reported.

Definition one_file (reported : Z) : @FilesResponse utc_strings :=
  @Build_FilesResponse utc_strings [sample_file "c.pdf"] reported.

Definition two_buckets (reported : Z) : @BucketsResponse utc_strings :=
  @Build_BucketsResponse utc_strings
    [sample_bucket "logs" "aws"; sample_bucket "media" "gcp"] reported.

Definition one_bucket (reported : Z) : @BucketsResponse utc_strings :=
  @Build_BucketsResponse utc_strings [sample_bucket "dumps" "azure"] reported.

(** Servers that send the pages of a list in turn. *)
Definition files_paged (pages : list (@FilesResponse utc_strings))
    : nat -> Request -> HTTPResponse (Body (@FilesResponse utc_strings)) :=
  fun i _ => Response 200 (JSONOf (files_pages pages i)).

Definition buckets_paged (pages : list (@BucketsResponse utc_strings))
    : nat -> Request -> HTTPResponse (Body (@BucketsResponse utc_strings)) :=
  fun i _ => Response 200 (JSONOf (buckets_pages pages i)).

(** A stats server that answers with a fixed body. *)
Definition stats_server (body : string) : nat -> Request -> HTTPResponse string :=
  fun _ _ => Response 200 body.

Definition dq : string := String (ascii_of_nat 34) "".

Definition stats_body : string :=
  "{" +:+ dq +:+ "stats" +:+ dq +:+ ":{" +:+ dq +:+ "filesCount" +:+ dq +:+ ":10}}".

Definition two_azure (reported : Z) : @BucketsResponse utc_strings :=
  @Build_BucketsResponse utc_strings
    [sample_bucket "vault" "azure"; sample_bucket "media" "Azure"] reported.

(** A page without records. *)
Definition no_files (reported : Z) : @FilesResponse utc_strings :=
  @Build_FilesResponse utc_strings [] reported.

(** The page of the example: three aws buckets and two azure ones. *)
Definition three_aws_two_azure : @BucketsResponse utc_strings :=
  @Build_BucketsResponse utc_strings
    [ sample_bucket "logs" "aws"; sample_bucket "vault" "azure";
      sample_bucket "media" "AWS"; sample_bucket "dumps" "azure";
      sample_bucket "mail" "aws" ] 5.

(** Servers that send the pages of a list in turn and answer every
    later request with a given response. *)
Definition files_broken (pages : list (@FilesResponse utc_strings))
    (reply : HTTPResponse (Body (@FilesResponse utc_strings)))
    : nat -> Request -> HTTPResponse (Body (@FilesResponse utc_strings)) :=
  fun i _ =>
    if (i <? length pages)%nat then Response 200 (JSONOf (files_pages pages i))
    else reply.

Definition buckets_broken (pages : list (@BucketsResponse utc_strings))
    (reply : HTTPResponse (Body (@BucketsResponse utc_strings)))
    : nat -> Request -> HTTPResponse (Body (@BucketsResponse utc_strings)) :=
  fun i _ =>
    if (i <? length pages)%nat then Response 200 (JSONOf (buckets_pages pages i))
    else reply.

(** A machine whose server sends one page of files, one page of buckets
    and a stats body, whose disk accepts every write, and whose commands
    have no cased letter outside ASCII. *)
Definition sample_machine : @Machine utc_strings :=
  @Build_Machine utc_strings
    (files_server (two_files 0)) (buckets_server (two_buckets 0))
    (stats_server stats_body) create_ok write_ok map_lower_ascii.

(** The default flags with a key and a command. *)
Definition sample_flags (key cmd : string) : Flags :=
  {| flag_apikey := key; flag_cmd := cmd; flag_keywords := ""; flag_ext := "";
     flag_noext := ""; flag_bucket := ""; flag_limit := 1000; flag_start := 0;
     flag_o := ""; flag_type := ""; flag_onlybucket := false |}.

(** * Properties *)

(** ** Machine arithmetic *)

Lemma wrap_is_int z : is_int (wrap z).
Proof.
  unfold is_int, wrap, int_min, int_max.
  pose proof (Z.mod_pos_bound (z + 2 ^ 63) (2 ^ 64) ltac:(lia)). lia.
Qed.

Lemma wrap_id z : is_int z -> wrap z = z.
Proof.
  unfold is_int, wrap, int_min, int_max. intros Hz.
  rewrite Z.mod_small by lia. lia.
Qed.

Lemma wrap_add_l a b : wrap (wrap a + b) = wrap (a + b).
Proof.
  unfold wrap. f_equal.
  replace ((a + 2 ^ 63) mod 2 ^ 64 - 2 ^ 63 + b + 2 ^ 63)
    with ((a + 2 ^ 63) mod 2 ^ 64 + b) by lia.
  rewrite Zplus_mod_idemp_l. f_equal. lia.
Qed.

Lemma offset_at_wrap P start i :
  is_int start -> offset_at P start i = wrap (start + Z.of_nat i * P).
Proof.
  intros Hs. induction i as [|i IH].
  - simpl. rewrite Z.add_0_r. symmetry. by apply wrap_id.
  - cbn [offset_at]. rewrite IH. unfold int_add. rewrite wrap_add_l.
    f_equal. lia.
Qed.

Lemma offset_at_exact P start i :
  is_int start -> 0 <= P -> start + Z.of_nat i * P <= int_max ->
  offset_at P start i = start + Z.of_nat i * P.
Proof.
  intros Hs HP Hmax. rewrite offset_at_wrap by done.
  apply wrap_id. unfold is_int in *. split; [|done]. nia.
Qed.

(** ** Fuel *)

Section LoopFacts.
Context {S : Type}.
Variable body : S -> Step S.

Lemma loop_Running_app n m s s' :
  loop body n s = Running s' -> loop body (n + m) s = loop body m s'.
Proof.
  revert s. induction n as [|n IH]; intros s; simpl.
  - by intros [= ->].
  - destruct (body s); try done. apply IH.
Qed.

Lemma loop_Running_step n s s' :
  loop body n s = Running s' ->
  loop body (Datatypes.S n) s = loop body 1 s'.
Proof.
  intros Hn. replace (Datatypes.S n) with (n + 1)%nat by lia.
  by apply loop_Running_app.
Qed.

Lemma loop_Finished_more n m s s' :
  loop body n s = Finished s' -> (n <= m)%nat -> loop body m s = Finished s'.
Proof.
  revert m s. induction n as [|n IH]; intros m s; simpl; [done|].
  intros Hn Hle. destruct m as [|m]; [lia|]. simpl.
  destruct (body s); try done. apply IH; [done|lia].
Qed.

End LoopFacts.

(** ** The loop in closed form *)

Section PaginatorFacts.
Context `{GoLib} {R Resp : Type}.
Variable client : nat -> Request -> HTTPResponse (Body Resp).
Variable apiKey : string.
Variable url_at : Z -> URLString.
Variables records forward : Resp -> list R.
Variable results : Resp -> Z.
Variable row : R -> list string.
Variable pageSize : Z.
Variable start : Z.
Variable w0 : option (list (list string)).
Variable pages : nat -> Resp.

Let body := page_body client apiKey url_at records forward results row pageSize.
Let before := state_before apiKey url_at forward results row pageSize start w0 pages.
Let stopped := state_stopped apiKey url_at forward results row pageSize start w0 pages.
Let req := request_at apiKey url_at pageSize start.
Let stop := stops pageSize start (counts_of records pages) (reported_of results pages).
Let served := serves apiKey url_at pageSize start pages client.

Lemma length_requests_before i :
  length (requests_before apiKey url_at pageSize start i) = i.
Proof. unfold requests_before. by rewrite length_map, length_seq. Qed.

Lemma requests_before_S i :
  requests_before apiKey url_at pageSize start (Datatypes.S i)
  = requests_before apiKey url_at pageSize start i ++ [req i].
Proof. unfold requests_before. by rewrite seq_S, map_app. Qed.

Lemma forwarded_before_S i :
  forwarded_before forward pages (Datatypes.S i)
  = forwarded_before forward pages i ++ forward (pages i).
Proof.
  unfold forwarded_before. rewrite seq_S, map_app, concat_app. simpl.
  by rewrite app_nil_r.
Qed.

Lemma before_0 : before 0%nat = loop_init start w0.
Proof.
  unfold before, state_before, loop_init. simpl.
  destruct w0; simpl; [|done]. by rewrite app_nil_r.
Qed.

Lemma page_body_at i :
  served i ->
  body (before i) = if stop i then Break (stopped i) else Next (before (Datatypes.S i)).
Proof.
  unfold served, serves, req, request_at. intros Hserve.
  unfold body, page_body, doGet. cbn [requests offset before state_before].
  rewrite length_requests_before, Hserve. cbn [Z.eqb Pos.eqb Unmarshal].
  cbn [total fetched all w stdout].
  unfold stop, stops, stopped, state_stopped, before, state_before.
  cbn [total fetched all w stdout requests offset total_before fetched_before
       progress_before offset_at].
  rewrite requests_before_S, forwarded_before_S.
  unfold counts_of, sizes_of, reported_of, req, request_at.
  destruct w0 as [rows|]; rewrite ?map_app, ?app_assoc; reflexivity.
Qed.

Lemma loop_prefix k :
  (forall i, (i < k)%nat -> served i /\ stop i = false) ->
  loop body k (loop_init start w0) = Running (before k).
Proof.
  induction k as [|k IH]; intros Hk.
  - simpl. by rewrite before_0.
  - rewrite (loop_Running_step body k _ (before k)) by (apply IH; intros; apply Hk; lia).
    destruct (Hk k ltac:(lia)) as [Hs Hn]. simpl.
    by rewrite (page_body_at k Hs), Hn.
Qed.

Lemma loop_breaks k fuel :
  (forall i, (i < k)%nat -> served i /\ stop i = false) ->
  served k -> stop k = true -> (k < fuel)%nat ->
  loop body fuel (loop_init start w0) = Finished (stopped k).
Proof.
  intros Hk Hs Ht Hfuel.
  apply (loop_Finished_more body (Datatypes.S k)); [|lia].
  rewrite (loop_Running_step body k _ (before k)) by by apply loop_prefix.
  simpl. by rewrite (page_body_at k Hs), Ht.
Qed.

Lemma loop_turn k :
  (forall i, (i < k)%nat -> served i /\ stop i = false) ->
  served k ->
  loop body (Datatypes.S k) (loop_init start w0)
  = if stop k then Finished (stopped k) else Running (before (Datatypes.S k)).
Proof.
  intros Hk Hs.
  rewrite (loop_Running_step body k _ (before k)) by by apply loop_prefix.
  simpl. rewrite (page_body_at k Hs). by destruct (stop k).
Qed.

End PaginatorFacts.

(** ** The two commands as instances of the loop *)

Section Instances.
Context `{GoLib}.

Lemma files_body_page client apiKey keywords bucket ext noext pageSize :
  files_body client apiKey keywords bucket ext noext pageSize
  = page_body client apiKey (files_url keywords bucket ext noext pageSize)
      Files Files Files_Meta_Results file_row pageSize.
Proof. reflexivity. Qed.

Lemma buckets_body_page client apiKey keywords cloudType pageSize onlyBucket :
  buckets_body client apiKey keywords cloudType pageSize onlyBucket
  = page_body client apiKey (buckets_url keywords cloudType pageSize)
      Buckets (fun resp => filter_type cloudType (Buckets resp))
      Buckets_Meta_Results (bucket_row onlyBucket) pageSize.
Proof. reflexivity. Qed.

Lemma handleFiles_loop client os_Create apiKey keywords bucket ext noext limit start
    output fuel :
  creatable os_Create output ->
  handleFiles client os_Create apiKey keywords bucket ext noext limit start output fuel
  = after_loop (files_finish output)
      (loop (files_body client apiKey keywords bucket ext noext (pageSize_of limit))
         fuel (loop_init start (sink files_header output))).
Proof.
  intros Hc. unfold handleFiles, sink. destruct (decide (output ≠ "")); [|done].
  by rewrite Hc.
Qed.

Lemma handleBuckets_loop client os_Create apiKey keywords cloudType limit start
    output onlyBucket fuel :
  creatable os_Create output ->
  handleBuckets client os_Create apiKey keywords cloudType limit start output
    onlyBucket fuel
  = after_loop (buckets_finish output onlyBucket)
      (loop (buckets_body client apiKey keywords cloudType (pageSize_of limit) onlyBucket)
         fuel (loop_init start (sink (buckets_header onlyBucket) output))).
Proof.
  intros Hc. unfold handleBuckets, sink. destruct (decide (output ≠ "")); [|done].
  by rewrite Hc.
Qed.

End Instances.

(** ** What every turn does to the list of requests *)

Section Requests.
Context `{GoLib} {R Resp : Type}.
Variable client : nat -> Request -> HTTPResponse (Body Resp).
Variable apiKey : string.
Variable url_at : Z -> URLString.
Variables records forward : Resp -> list R.
Variable results : Resp -> Z.
Variable row : R -> list string.
Variable pageSize : Z.

Let body := page_body client apiKey url_at records forward results row pageSize.

Lemma page_body_requests st :
  requests (step_state (body st))
  = requests st ++ [newRequest apiKey (url_at (offset st))].
Proof.
  unfold body, page_body.
  destruct (doGet _ _ _ _) as [data|err]; [|done].
  destruct (Unmarshal data) as [resp|err]; [|done].
  by destruct (_ || _).
Qed.

Lemma loop_requests_prefix fuel st :
  requests st `prefix_of` requests (outcome_state (loop body fuel st)).
Proof.
  revert st. induction fuel as [|fuel IH]; intros st; simpl; [done|].
  pose proof (page_body_requests st) as Hreq.
  destruct (body st) as [s'|s'|msg s']; simpl in *.
  - etrans; [|apply IH]. rewrite Hreq. by apply prefix_app_r.
  - rewrite Hreq. by apply prefix_app_r.
  - rewrite Hreq. by apply prefix_app_r.
Qed.

Lemma loop_requests_Forall (P : Request -> Prop) fuel st :
  (forall o, P (newRequest apiKey (url_at o))) ->
  Forall P (requests st) ->
  Forall P (requests (outcome_state (loop body fuel st))).
Proof.
  intros HP. revert st. induction fuel as [|fuel IH]; intros st Hst; simpl; [done|].
  pose proof (page_body_requests st) as Hreq.
  assert (Forall P (requests (step_state (body st)))) as Hnext.
  { rewrite Hreq. apply Forall_app. split; [done|]. by constructor. }
  destruct (body st) as [s'|s'|msg s']; simpl in *; auto.
Qed.

End Requests.

Lemma Sprintf_d_nonempty z : Sprintf_d z ≠ "".
Proof.
  unfold Sprintf_d. destruct z as [|p|p]; simpl; [done| |done].
  pose proof (DecimalPos.Unsigned.to_uint_nonnil p).
  by destruct (Pos.to_uint p).
Qed.

(** ** Query parameters of the requests *)

Section Query.
Context `{GoLib}.

Lemma files_url_limit keywords bucket ext noext pageSize o :
  url_query (files_url keywords bucket ext noext pageSize o) !! "limit"
  = Some (Sprintf_d pageSize).
Proof.
  unfold files_url, buildURL. simpl. apply map_lookup_filter_Some. split.
  - by simplify_map_eq.
  - apply Sprintf_d_nonempty.
Qed.

Lemma files_url_start keywords bucket ext noext pageSize o :
  url_query (files_url keywords bucket ext noext pageSize o) !! "start"
  = Some (Sprintf_d o).
Proof.
  unfold files_url, buildURL. simpl. apply map_lookup_filter_Some. split.
  - by simplify_map_eq.
  - apply Sprintf_d_nonempty.
Qed.

Lemma buckets_url_limit keywords cloudType pageSize o :
  url_query (buckets_url keywords cloudType pageSize o) !! "limit"
  = Some (Sprintf_d pageSize).
Proof.
  unfold buckets_url, buildURL. simpl. apply map_lookup_filter_Some. split.
  - by simplify_map_eq.
  - apply Sprintf_d_nonempty.
Qed.

Lemma buckets_url_start keywords cloudType pageSize o :
  url_query (buckets_url keywords cloudType pageSize o) !! "start"
  = Some (Sprintf_d o).
Proof.
  unfold buckets_url, buildURL. simpl. apply map_lookup_filter_Some. split.
  - by simplify_map_eq.
  - apply Sprintf_d_nonempty.
Qed.

Lemma requests_after_loop {R} (finish : Loop R -> Loop R) (o : Outcome (Loop R)) :
  (forall st, requests (finish st) = requests st) ->
  requests (outcome_state (after_loop finish o)) = requests (outcome_state o).
Proof. intros Hf. destruct o; simpl; auto. Qed.

Lemma handleFiles_requests_Forall (P : Request -> Prop) client os_Create apiKey
    keywords bucket ext noext limit start output fuel :
  (forall o, P (newRequest apiKey
                  (files_url keywords bucket ext noext (pageSize_of limit) o))) ->
  Forall P (requests (outcome_state
    (handleFiles client os_Create apiKey keywords bucket ext noext limit start
       output fuel))).
Proof.
  intros HP. unfold handleFiles.
  destruct (decide (output ≠ "")); [destruct (os_Create output)|]; simpl;
    try by constructor.
  all: rewrite requests_after_loop by done; rewrite files_body_page;
    by apply loop_requests_Forall.
Qed.

Lemma handleBuckets_requests_Forall (P : Request -> Prop) client os_Create apiKey
    keywords cloudType limit start output onlyBucket fuel :
  (forall o, P (newRequest apiKey
                  (buckets_url keywords cloudType (pageSize_of limit) o))) ->
  Forall P (requests (outcome_state
    (handleBuckets client os_Create apiKey keywords cloudType limit start
       output onlyBucket fuel))).
Proof.
  intros HP. unfold handleBuckets.
  destruct (decide (output ≠ "")); [destruct (os_Create output)|]; simpl;
    try by constructor.
  all: rewrite requests_after_loop by done; rewrite buckets_body_page;
    by apply loop_requests_Forall.
Qed.

End Query.

(** C4. The effective page size is the requested one when that lies in
    the inclusive range 1..1000, and exactly 1000 for every other request
    (zero and negative values included); it is the value sent as [limit]
    by every request of a files or buckets run. *)
Theorem effective_page_size (limit : Z) :
  pageSize_of limit = (if decide (1 <= limit <= 1000) then limit else 1000)
  /\ (forall (lib : GoLib) client os_Create apiKey keywords bucket ext noext start
        output fuel,
       Forall (fun r => url_query (req_url r) !! "limit"
                        = Some (Sprintf_d (pageSize_of limit)))
         (requests (outcome_state
            (handleFiles client os_Create apiKey keywords bucket ext noext limit
               start output fuel))))
  /\ (forall (lib : GoLib) client os_Create apiKey keywords cloudType start output
        onlyBucket fuel,
       Forall (fun r => url_query (req_url r) !! "limit"
                        = Some (Sprintf_d (pageSize_of limit)))
         (requests (outcome_state
            (handleBuckets client os_Create apiKey keywords cloudType limit start
               output onlyBucket fuel)))).
Proof.
  split; [|split].
  - unfold pageSize_of. destruct (decide (1 <= limit <= 1000)) as [Hin|Hout].
    + destruct (limit <=? 0) eqn:H0; [lia|].
      destruct (limit >? 1000) eqn:H1; [lia|done].
    + destruct (limit <=? 0) eqn:H0; [done|].
      destruct (limit >? 1000) eqn:H1; [done|lia].
  - intros. apply handleFiles_requests_Forall. intros o. simpl.
    apply files_url_limit.
  - intros. apply handleBuckets_requests_Forall. intros o. simpl.
    apply buckets_url_limit.
Qed.

(** ** Runs of the commands, turn by turn *)

Lemma total_before_first (reported : nat -> Z) i :
  reported 0%nat ≠ -1 -> total_before reported (S i) = reported 0%nat.
Proof.
  intros Hne. induction i as [|i IH]; [done|].
  change (total_before reported (S (S i)))
    with (if total_before reported (S i) =? -1 then reported (S i)
          else total_before reported (S i)).
  rewrite IH. destruct (reported 0%nat =? -1) eqn:E; [lia|done].
Qed.

Section Turns.
Context `{GoLib}.

Lemma handleFiles_turn client os_Create apiKey keywords bucket ext noext limit start
    output pages k :
  let P := pageSize_of limit in
  creatable os_Create output ->
  (forall i, (i < k)%nat ->
     files_serves client apiKey keywords bucket ext noext P start pages i
     /\ files_stops P start pages i = false) ->
  files_serves client apiKey keywords bucket ext noext P start pages k ->
  handleFiles client os_Create apiKey keywords bucket ext noext limit start output (S k)
  = if files_stops P start pages k
    then Finished (files_finish output
           (state_stopped apiKey (files_url keywords bucket ext noext P) Files
              Files_Meta_Results file_row P start (sink files_header output) pages k))
    else Running
           (state_before apiKey (files_url keywords bucket ext noext P) Files
              Files_Meta_Results file_row P start (sink files_header output) pages
              (S k)).
Proof.
  intros P Hc Hk Hs. rewrite handleFiles_loop by done. rewrite files_body_page.
  rewrite (loop_turn client apiKey _ Files Files Files_Meta_Results file_row P start
             (sink files_header output) pages k Hk Hs).
  change (stops P start _ _ k) with (files_stops P start pages k).
  by destruct (files_stops P start pages k).
Qed.

Lemma handleBuckets_turn client os_Create apiKey keywords cloudType limit start
    output onlyBucket pages k :
  let P := pageSize_of limit in
  creatable os_Create output ->
  (forall i, (i < k)%nat ->
     buckets_serves client apiKey keywords cloudType P start pages i
     /\ buckets_stops P start pages i = false) ->
  buckets_serves client apiKey keywords cloudType P start pages k ->
  handleBuckets client os_Create apiKey keywords cloudType limit start output
    onlyBucket (S k)
  = if buckets_stops P start pages k
    then Finished (buckets_finish output onlyBucket
           (state_stopped apiKey (buckets_url keywords cloudType P)
              (fun resp => filter_type cloudType (Buckets resp))
              Buckets_Meta_Results (bucket_row onlyBucket) P start
              (sink (buckets_header onlyBucket) output) pages k))
    else Running
           (state_before apiKey (buckets_url keywords cloudType P)
              (fun resp => filter_type cloudType (Buckets resp))
              Buckets_Meta_Results (bucket_row onlyBucket) P start
              (sink (buckets_header onlyBucket) output) pages (S k)).
Proof.
  intros P Hc Hk Hs. rewrite handleBuckets_loop by done. rewrite buckets_body_page.
  rewrite (loop_turn client apiKey _ Buckets
             (fun resp => filter_type cloudType (Buckets resp))
             Buckets_Meta_Results (bucket_row onlyBucket) P start
             (sink (buckets_header onlyBucket) output) pages k Hk Hs).
  change (stops P start _ _ k) with (buckets_stops P start pages k).
  by destruct (buckets_stops P start pages k).
Qed.

End Turns.

(** C1, as the code has it. In both loops [total] is assigned from the
    envelope whenever it still holds -1, which it does in the first turn:
    after the first turn it is the total the first envelope reported (0
    when that reported zero or nothing), and it stays that value in every
    later turn unless the value is -1 itself. *)
Theorem tracked_total_is_first_reported :
  (forall (lib : GoLib) client os_Create apiKey keywords bucket ext noext limit start
      output pages k,
     creatable os_Create output ->
     (forall i, (i <= k)%nat ->
        files_serves client apiKey keywords bucket ext noext (pageSize_of limit)
          start pages i) ->
     (forall i, (i < k)%nat -> files_stops (pageSize_of limit) start pages i = false) ->
     k = 0%nat \/ Files_Meta_Results (pages 0%nat) ≠ -1 ->
     total (outcome_state
       (handleFiles client os_Create apiKey keywords bucket ext noext limit start
          output (S k)))
     = Files_Meta_Results (pages 0%nat))
  /\ (forall (lib : GoLib) client os_Create apiKey keywords cloudType limit start
        output onlyBucket pages k,
       creatable os_Create output ->
       (forall i, (i <= k)%nat ->
          buckets_serves client apiKey keywords cloudType (pageSize_of limit) start
            pages i) ->
       (forall i, (i < k)%nat ->
          buckets_stops (pageSize_of limit) start pages i = false) ->
       k = 0%nat \/ Buckets_Meta_Results (pages 0%nat) ≠ -1 ->
       total (outcome_state
         (handleBuckets client os_Create apiKey keywords cloudType limit start output
            onlyBucket (S k)))
       = Buckets_Meta_Results (pages 0%nat)).
Proof.
  split.
  - intros lib client os_Create apiKey keywords bucket ext noext limit start output
      pages k Hc Hs Hn Hk.
    rewrite handleFiles_turn with (pages := pages);
      [|done|intros; split; [apply Hs; lia|by apply Hn]|apply Hs; lia].
    assert (total_before (reported_of Files_Meta_Results pages) (S k)
            = Files_Meta_Results (pages 0%nat)) as Ht.
    { destruct Hk as [->|Hne]; [done|].
      by apply (total_before_first (reported_of Files_Meta_Results pages) k). }
    by destruct (files_stops _ _ _ _); simpl.
  - intros lib client os_Create apiKey keywords cloudType limit start output
      onlyBucket pages k Hc Hs Hn Hk.
    rewrite handleBuckets_turn with (pages := pages);
      [|done|intros; split; [apply Hs; lia|by apply Hn]|apply Hs; lia].
    assert (total_before (reported_of Buckets_Meta_Results pages) (S k)
            = Buckets_Meta_Results (pages 0%nat)) as Ht.
    { destruct Hk as [->|Hne]; [done|].
      by apply (total_before_first (reported_of Buckets_Meta_Results pages) k). }
    by destruct (buckets_stops _ _ _ _); simpl.
Qed.

Lemma tracked_total_is_first_reported_witness :
  total (outcome_state
    (handleFiles (files_server page_one_file_total0) create_ok "key" "report" "" ""
       "" 1 0 "" 2)) = 0
  /\ total (outcome_state
       (handleBuckets (buckets_server page_one_bucket_total0) create_ok "key" "logs"
          "" 1 0 "" false 2)) = 0.
Proof.
  split.
  - apply (proj1 tracked_total_is_first_reported utc_strings
             (files_server page_one_file_total0) create_ok "key" "report" "" "" "" 1 0
             "" (fun _ => page_one_file_total0) 1%nat).
    + intros Hout. reflexivity.
    + intros i Hi. reflexivity.
    + intros i Hi. assert (i = 0%nat) as -> by lia. vm_compute. reflexivity.
    + right. vm_compute. discriminate.
  - apply (proj2 tracked_total_is_first_reported utc_strings
             (buckets_server page_one_bucket_total0) create_ok "key" "logs" "" 1 0
             "" false (fun _ => page_one_bucket_total0) 1%nat).
    + intros Hout. reflexivity.
    + intros i Hi. reflexivity.
    + intros i Hi. assert (i = 0%nat) as -> by lia. vm_compute. reflexivity.
    + right. vm_compute. discriminate.
Defined.

(** C1, as stated, fails: the first envelope reports a total of zero and
    the loop's [total] is 0 after the first turn, not the sentinel -1. *)
Lemma sentinel_overwritten_by_zero :
  Files_Meta_Results page_one_file_total0 = 0
  /\ total (outcome_state
       (handleFiles (files_server page_one_file_total0) create_ok "key" "report" ""
          "" "" 1 0 "" 1)) ≠ -1.
Proof. split; [reflexivity|]. vm_compute. discriminate. Qed.

(** ** The stop test against the stop rule *)

Lemma stops_stop_rule P start counts reported i :
  is_int start ->
  stops P start counts reported i = true
  <-> stop_rule P start counts (fun j => total_before reported (S j)) i.
Proof.
  intros Hs. unfold stops, stop_rule, int_add. rewrite offset_at_wrap by done.
  rewrite orb_true_iff, andb_true_iff, Z.ltb_lt, Z.gtb_ltb, Z.ltb_lt, Z.geb_leb,
    Z.leb_le.
  reflexivity.
Qed.

Lemma stops_false_stop_rule P start counts reported i :
  is_int start ->
  stops P start counts reported i = false
  <-> ~ stop_rule P start counts (fun j => total_before reported (S j)) i.
Proof.
  intros Hs. rewrite <- stops_stop_rule by done.
  by destruct (stops P start counts reported i).
Qed.

Section Prefixes.
Context `{GoLib}.

Lemma handleFiles_prefix client os_Create apiKey keywords bucket ext noext limit start
    output pages k :
  let P := pageSize_of limit in
  creatable os_Create output ->
  (forall i, (i < k)%nat ->
     files_serves client apiKey keywords bucket ext noext P start pages i
     /\ files_stops P start pages i = false) ->
  handleFiles client os_Create apiKey keywords bucket ext noext limit start output k
  = Running
      (state_before apiKey (files_url keywords bucket ext noext P) Files
         Files_Meta_Results file_row P start (sink files_header output) pages k).
Proof.
  intros P Hc Hk. rewrite handleFiles_loop by done. rewrite files_body_page.
  by rewrite (loop_prefix client apiKey _ Files Files Files_Meta_Results file_row P
                start (sink files_header output) pages k Hk).
Qed.

Lemma handleFiles_breaks client os_Create apiKey keywords bucket ext noext limit start
    output pages k fuel :
  let P := pageSize_of limit in
  creatable os_Create output ->
  (forall i, (i < k)%nat ->
     files_serves client apiKey keywords bucket ext noext P start pages i
     /\ files_stops P start pages i = false) ->
  files_serves client apiKey keywords bucket ext noext P start pages k ->
  files_stops P start pages k = true ->
  (k < fuel)%nat ->
  handleFiles client os_Create apiKey keywords bucket ext noext limit start output fuel
  = Finished (files_finish output
      (state_stopped apiKey (files_url keywords bucket ext noext P) Files
         Files_Meta_Results file_row P start (sink files_header output) pages k)).
Proof.
  intros P Hc Hk Hs Ht Hfuel. rewrite handleFiles_loop by done.
  rewrite files_body_page.
  by rewrite (loop_breaks client apiKey _ Files Files Files_Meta_Results file_row P
                start (sink files_header output) pages k fuel Hk Hs Ht Hfuel).
Qed.

Lemma handleBuckets_prefix client os_Create apiKey keywords cloudType limit start
    output onlyBucket pages k :
  let P := pageSize_of limit in
  creatable os_Create output ->
  (forall i, (i < k)%nat ->
     buckets_serves client apiKey keywords cloudType P start pages i
     /\ buckets_stops P start pages i = false) ->
  handleBuckets client os_Create apiKey keywords cloudType limit start output
    onlyBucket k
  = Running
      (state_before apiKey (buckets_url keywords cloudType P)
         (fun resp => filter_type cloudType (Buckets resp))
         Buckets_Meta_Results (bucket_row onlyBucket) P start
         (sink (buckets_header onlyBucket) output) pages k).
Proof.
  intros P Hc Hk. rewrite handleBuckets_loop by done. rewrite buckets_body_page.
  by rewrite (loop_prefix client apiKey _ Buckets
                (fun resp => filter_type cloudType (Buckets resp))
                Buckets_Meta_Results (bucket_row onlyBucket) P start
                (sink (buckets_header onlyBucket) output) pages k Hk).
Qed.

Lemma handleBuckets_breaks client os_Create apiKey keywords cloudType limit start
    output onlyBucket pages k fuel :
  let P := pageSize_of limit in
  creatable os_Create output ->
  (forall i, (i < k)%nat ->
     buckets_serves client apiKey keywords cloudType P start pages i
     /\ buckets_stops P start pages i = false) ->
  buckets_serves client apiKey keywords cloudType P start pages k ->
  buckets_stops P start pages k = true ->
  (k < fuel)%nat ->
  handleBuckets client os_Create apiKey keywords cloudType limit start output
    onlyBucket fuel
  = Finished (buckets_finish output onlyBucket
      (state_stopped apiKey (buckets_url keywords cloudType P)
         (fun resp => filter_type cloudType (Buckets resp))
         Buckets_Meta_Results (bucket_row onlyBucket) P start
         (sink (buckets_header onlyBucket) output) pages k)).
Proof.
  intros P Hc Hk Hs Ht Hfuel. rewrite handleBuckets_loop by done.
  rewrite buckets_body_page.
  by rewrite (loop_breaks client apiKey _ Buckets
                (fun resp => filter_type cloudType (Buckets resp))
                Buckets_Meta_Results (bucket_row onlyBucket) P start
                (sink (buckets_header onlyBucket) output) pages k fuel Hk Hs Ht Hfuel).
Qed.

Lemma files_starts apiKey keywords bucket ext noext P start n :
  map (fun r => url_query (req_url r) !! "start")
    (map (files_request_at apiKey keywords bucket ext noext P start) (seq 0 n))
  = map (fun i => Some (Sprintf_d (offset_at P start i))) (seq 0 n).
Proof.
  rewrite map_map. apply map_ext. intros i. apply files_url_start.
Qed.

Lemma buckets_starts apiKey keywords cloudType P start n :
  map (fun r => url_query (req_url r) !! "start")
    (map (buckets_request_at apiKey keywords cloudType P start) (seq 0 n))
  = map (fun i => Some (Sprintf_d (offset_at P start i))) (seq 0 n).
Proof.
  rewrite map_map. apply map_ext. intros i. apply buckets_url_start.
Qed.

End Prefixes.

Lemma pageSize_of_in_range limit : 1 <= limit <= 1000 -> pageSize_of limit = limit.
Proof.
  intros Hl. unfold pageSize_of.
  destruct (limit <=? 0) eqn:H0; [lia|]. destruct (limit >? 1000) eqn:H1; [lia|done].
Qed.

Lemma pageSize_of_bounds limit : 1 <= pageSize_of limit <= 1000.
Proof.
  unfold pageSize_of.
  destruct (limit <=? 0) eqn:H0; [simpl; lia|].
  destruct (limit >? 1000) eqn:H1; simpl; lia.
Qed.

Lemma offsets_wrapped P start n :
  is_int start ->
  map (fun i => Some (Sprintf_d (offset_at P start i))) (seq 0 n)
  = map (fun i => Some (Sprintf_d (wrap (start + Z.of_nat i * P)))) (seq 0 n).
Proof. intros Hs. apply map_ext. intros i. by rewrite offset_at_wrap. Qed.

Lemma offsets_exact P start k :
  is_int start -> 0 <= P -> start + Z.of_nat k * P <= int_max ->
  map (fun i => Some (Sprintf_d (offset_at P start i))) (seq 0 (S k))
  = map (fun i => Some (Sprintf_d (start + Z.of_nat i * P))) (seq 0 (S k)).
Proof.
  intros Hs HP Hmax. apply map_ext_in. intros i Hi%in_seq.
  rewrite offset_at_exact; [done..|]. nia.
Qed.

(** C3. For a page size P in 1..1000 and a start offset S, against any
    server: while no turn meets the stop rule the loop is still running
    and has made one request per turn; at the first turn k that meets it
    (a page of fewer than P records, or a positive known total reached by
    offset + P) the loop ends, having requested exactly the offsets
    S, S+P, ..., S+kP in that order.  The additions are [int] additions
    ([wrap]); they are the plain sums as long as S+kP fits an [int]. *)
Theorem pagination_order_and_stop :
  (forall (lib : GoLib) client os_Create apiKey keywords bucket ext noext limit start
      output pages k,
     1 <= limit <= 1000 -> is_int start -> creatable os_Create output ->
     (forall i, (i <= k)%nat ->
        files_serves client apiKey keywords bucket ext noext limit start pages i) ->
     (forall i, (i < k)%nat ->
        ~ stop_rule limit start (fun j => len (Files (pages j))) (files_total pages) i) ->
     stop_rule limit start (fun j => len (Files (pages j))) (files_total pages) k ->
     (forall fuel, (fuel <= k)%nat ->
        exists st,
          handleFiles client os_Create apiKey keywords bucket ext noext limit start
            output fuel = Running st
          /\ length (requests st) = fuel)
     /\ (forall fuel, (k < fuel)%nat ->
          exists st,
            handleFiles client os_Create apiKey keywords bucket ext noext limit start
              output fuel = Finished st
            /\ requests st
               = map (files_request_at apiKey keywords bucket ext noext limit start)
                   (seq 0 (S k))
            /\ map (fun r => url_query (req_url r) !! "start") (requests st)
               = map (fun i => Some (Sprintf_d (wrap (start + Z.of_nat i * limit))))
                   (seq 0 (S k))
            /\ (start + Z.of_nat k * limit <= int_max ->
                map (fun r => url_query (req_url r) !! "start") (requests st)
                = map (fun i => Some (Sprintf_d (start + Z.of_nat i * limit)))
                    (seq 0 (S k)))))
  /\ (forall (lib : GoLib) client os_Create apiKey keywords cloudType limit start
        output onlyBucket pages k,
       1 <= limit <= 1000 -> is_int start -> creatable os_Create output ->
       (forall i, (i <= k)%nat ->
          buckets_serves client apiKey keywords cloudType limit start pages i) ->
       (forall i, (i < k)%nat ->
          ~ stop_rule limit start (fun j => len (Buckets (pages j)))
              (buckets_total pages) i) ->
       stop_rule limit start (fun j => len (Buckets (pages j))) (buckets_total pages) k ->
       (forall fuel, (fuel <= k)%nat ->
          exists st,
            handleBuckets client os_Create apiKey keywords cloudType limit start output
              onlyBucket fuel = Running st
            /\ length (requests st) = fuel)
       /\ (forall fuel, (k < fuel)%nat ->
            exists st,
              handleBuckets client os_Create apiKey keywords cloudType limit start
                output onlyBucket fuel = Finished st
              /\ requests st
                 = map (buckets_request_at apiKey keywords cloudType limit start)
                     (seq 0 (S k))
              /\ map (fun r => url_query (req_url r) !! "start") (requests st)
                 = map (fun i => Some (Sprintf_d (wrap (start + Z.of_nat i * limit))))
                     (seq 0 (S k))
              /\ (start + Z.of_nat k * limit <= int_max ->
                  map (fun r => url_query (req_url r) !! "start") (requests st)
                  = map (fun i => Some (Sprintf_d (start + Z.of_nat i * limit)))
                      (seq 0 (S k))))).
Proof.
  split.
  - intros lib client os_Create apiKey keywords bucket ext noext limit start output
      pages k Hl Hstart Hc Hs Hn Hk.
    pose proof (pageSize_of_in_range limit Hl) as HP.
    assert (forall i, (i < k)%nat ->
              files_serves client apiKey keywords bucket ext noext (pageSize_of limit)
                start pages i
              /\ files_stops (pageSize_of limit) start pages i = false) as Hpre.
    { rewrite HP. intros i Hi. split; [apply Hs; lia|].
      apply stops_false_stop_rule; [done|]. by apply Hn. }
    split.
    + intros fuel Hfuel. eexists. split.
      * apply handleFiles_prefix with (pages := pages); [done|].
        intros i Hi. apply Hpre. lia.
      * apply length_requests_before.
    + intros fuel Hfuel. eexists. split; [|split; [|split]].
      * apply handleFiles_breaks with (pages := pages) (k := k); [done..| | |done].
        -- rewrite HP. by apply Hs.
        -- rewrite HP. by apply stops_stop_rule.
      * unfold files_finish, state_stopped, state_before; cbn [requests]; unfold requests_before. by rewrite HP.
      * unfold files_finish, state_stopped, state_before; cbn [requests]; unfold requests_before. rewrite HP.
        rewrite <- offsets_wrapped by done. apply files_starts.
      * intros Hmax. unfold files_finish, state_stopped, state_before; cbn [requests]; unfold requests_before. rewrite HP.
        rewrite <- offsets_exact by (done || lia). apply files_starts.
  - intros lib client os_Create apiKey keywords cloudType limit start output
      onlyBucket pages k Hl Hstart Hc Hs Hn Hk.
    pose proof (pageSize_of_in_range limit Hl) as HP.
    assert (forall i, (i < k)%nat ->
              buckets_serves client apiKey keywords cloudType (pageSize_of limit)
                start pages i
              /\ buckets_stops (pageSize_of limit) start pages i = false) as Hpre.
    { rewrite HP. intros i Hi. split; [apply Hs; lia|].
      apply stops_false_stop_rule; [done|]. by apply Hn. }
    split.
    + intros fuel Hfuel. eexists. split.
      * apply handleBuckets_prefix with (pages := pages); [done|].
        intros i Hi. apply Hpre. lia.
      * apply length_requests_before.
    + intros fuel Hfuel. eexists. split; [|split; [|split]].
      * apply handleBuckets_breaks with (pages := pages) (k := k); [done..| | |done].
        -- rewrite HP. by apply Hs.
        -- rewrite HP. by apply stops_stop_rule.
      * unfold buckets_finish, state_stopped, state_before; cbn [requests]; unfold requests_before. by rewrite HP.
      * unfold buckets_finish, state_stopped, state_before; cbn [requests]; unfold requests_before. rewrite HP.
        rewrite <- offsets_wrapped by done. apply buckets_starts.
      * intros Hmax. unfold buckets_finish, state_stopped, state_before; cbn [requests]; unfold requests_before. rewrite HP.
        rewrite <- offsets_exact by (done || lia). apply buckets_starts.
Qed.

(** ** The request of a turn is made whatever the answer *)

Section NextRequest.
Context `{GoLib} {R Resp : Type}.
Variable client : nat -> Request -> HTTPResponse (Body Resp).
Variable apiKey : string.
Variable url_at : Z -> URLString.
Variables records forward : Resp -> list R.
Variable results : Resp -> Z.
Variable row : R -> list string.
Variable pageSize : Z.
Variable start : Z.
Variable w0 : option (list (list string)).
Variable pages : nat -> Resp.

Let body := page_body client apiKey url_at records forward results row pageSize.

Lemma loop_S_requests_prefix fuel st :
  requests (step_state (body st))
  `prefix_of` requests (outcome_state (loop body (S fuel) st)).
Proof.
  simpl. destruct (body st) as [s'|s'|msg s']; simpl; [|done..].
  apply loop_requests_prefix.
Qed.

Lemma loop_next_request k fuel :
  (forall i, (i < k)%nat ->
     serves apiKey url_at pageSize start pages client i
     /\ stops pageSize start (counts_of records pages) (reported_of results pages) i
        = false) ->
  (k < fuel)%nat ->
  requests (outcome_state (loop body fuel (loop_init start w0))) !! k
  = Some (request_at apiKey url_at pageSize start k).
Proof.
  intros Hk Hfuel. replace fuel with (k + S (fuel - k - 1))%nat by lia.
  rewrite (loop_Running_app body k _ _
             (state_before apiKey url_at forward results row pageSize start w0 pages k))
    by by apply loop_prefix.
  eapply prefix_lookup_Some; [|apply loop_S_requests_prefix].
  unfold body. rewrite page_body_requests. cbn [requests offset state_before].
  rewrite lookup_app_r by by rewrite length_requests_before.
  by rewrite length_requests_before, Nat.sub_diag.
Qed.

End NextRequest.

Lemma stops_unknown_total P start counts reported i :
  reported 0%nat = 0 -> stops P start counts reported i = (counts i <? P).
Proof.
  intros H0. unfold stops. rewrite total_before_first by lia. rewrite H0.
  simpl. by rewrite orb_false_r.
Qed.

Section ZeroTotal.
Context `{GoLib}.

Lemma handleFiles_next_request client os_Create apiKey keywords bucket ext noext limit
    start output pages k fuel :
  creatable os_Create output ->
  (forall i, (i < k)%nat ->
     files_serves client apiKey keywords bucket ext noext (pageSize_of limit) start
       pages i
     /\ files_stops (pageSize_of limit) start pages i = false) ->
  (k < fuel)%nat ->
  requests (outcome_state
    (handleFiles client os_Create apiKey keywords bucket ext noext limit start output
       fuel)) !! k
  = Some (files_request_at apiKey keywords bucket ext noext (pageSize_of limit) start k).
Proof.
  intros Hc Hk Hfuel. rewrite handleFiles_loop by done.
  rewrite requests_after_loop by done. rewrite files_body_page.
  by apply (loop_next_request client apiKey _ Files Files Files_Meta_Results file_row
              (pageSize_of limit) start (sink files_header output) pages k fuel).
Qed.

Lemma handleBuckets_next_request client os_Create apiKey keywords cloudType limit
    start output onlyBucket pages k fuel :
  creatable os_Create output ->
  (forall i, (i < k)%nat ->
     buckets_serves client apiKey keywords cloudType (pageSize_of limit) start pages i
     /\ buckets_stops (pageSize_of limit) start pages i = false) ->
  (k < fuel)%nat ->
  requests (outcome_state
    (handleBuckets client os_Create apiKey keywords cloudType limit start output
       onlyBucket fuel)) !! k
  = Some (buckets_request_at apiKey keywords cloudType (pageSize_of limit) start k).
Proof.
  intros Hc Hk Hfuel. rewrite handleBuckets_loop by done.
  rewrite requests_after_loop by done. rewrite buckets_body_page.
  by apply (loop_next_request client apiKey _ Buckets
              (fun resp => filter_type cloudType (Buckets resp))
              Buckets_Meta_Results (bucket_row onlyBucket)
              (pageSize_of limit) start (sink (buckets_header onlyBucket) output)
              pages k fuel).
Qed.

End ZeroTotal.

(** C2. When the first envelope reports a total of 0 and its page holds
    exactly the page size of records, the loop does not stop after that
    page: the total counts as unknown and the next page is requested at
    offset start + page size.  From then on only a short page stops the
    loop: as long as the pages served are not short the loop is still
    running, and it ends at the first turn whose page is short. *)
Theorem zero_total_keeps_paging :
  (forall (lib : GoLib) client os_Create apiKey keywords bucket ext noext limit start
      output pages,
     creatable os_Create output ->
     files_serves client apiKey keywords bucket ext noext (pageSize_of limit) start
       pages 0%nat ->
     Files_Meta_Results (pages 0%nat) = 0 ->
     len (Files (pages 0%nat)) = pageSize_of limit ->
     (exists st,
        handleFiles client os_Create apiKey keywords bucket ext noext limit start
          output 1 = Running st
        /\ total st = 0 /\ offset st = int_add start (pageSize_of limit))
     /\ (forall fuel, (2 <= fuel)%nat ->
          requests (outcome_state
            (handleFiles client os_Create apiKey keywords bucket ext noext limit start
               output fuel)) !! 1%nat
          = Some (files_request_at apiKey keywords bucket ext noext
                    (pageSize_of limit) start 1))
     /\ url_query (req_url (files_request_at apiKey keywords bucket ext noext
                              (pageSize_of limit) start 1)) !! "start"
        = Some (Sprintf_d (int_add start (pageSize_of limit)))
     /\ (forall k,
          (forall i, (i < k)%nat ->
             files_serves client apiKey keywords bucket ext noext (pageSize_of limit)
               start pages i
             /\ pageSize_of limit <= len (Files (pages i))) ->
          (exists st,
             handleFiles client os_Create apiKey keywords bucket ext noext limit start
               output k = Running st
             /\ length (requests st) = k)
          /\ (files_serves client apiKey keywords bucket ext noext (pageSize_of limit)
                start pages k ->
              len (Files (pages k)) < pageSize_of limit ->
              forall fuel, (k < fuel)%nat ->
                exists st,
                  handleFiles client os_Create apiKey keywords bucket ext noext limit
                    start output fuel = Finished st
                  /\ length (requests st) = S k)))
  /\ (forall (lib : GoLib) client os_Create apiKey keywords cloudType limit start
        output onlyBucket pages,
       creatable os_Create output ->
       buckets_serves client apiKey keywords cloudType (pageSize_of limit) start
         pages 0%nat ->
       Buckets_Meta_Results (pages 0%nat) = 0 ->
       len (Buckets (pages 0%nat)) = pageSize_of limit ->
       (exists st,
          handleBuckets client os_Create apiKey keywords cloudType limit start output
            onlyBucket 1 = Running st
          /\ total st = 0 /\ offset st = int_add start (pageSize_of limit))
       /\ (forall fuel, (2 <= fuel)%nat ->
            requests (outcome_state
              (handleBuckets client os_Create apiKey keywords cloudType limit start
                 output onlyBucket fuel)) !! 1%nat
            = Some (buckets_request_at apiKey keywords cloudType (pageSize_of limit)
                      start 1))
       /\ url_query (req_url (buckets_request_at apiKey keywords cloudType
                                (pageSize_of limit) start 1)) !! "start"
          = Some (Sprintf_d (int_add start (pageSize_of limit)))
       /\ (forall k,
            (forall i, (i < k)%nat ->
               buckets_serves client apiKey keywords cloudType (pageSize_of limit)
                 start pages i
               /\ pageSize_of limit <= len (Buckets (pages i))) ->
            (exists st,
               handleBuckets client os_Create apiKey keywords cloudType limit start
                 output onlyBucket k = Running st
               /\ length (requests st) = k)
            /\ (buckets_serves client apiKey keywords cloudType (pageSize_of limit)
                  start pages k ->
                len (Buckets (pages k)) < pageSize_of limit ->
                forall fuel, (k < fuel)%nat ->
                  exists st,
                    handleBuckets client os_Create apiKey keywords cloudType limit
                      start output onlyBucket fuel = Finished st
                    /\ length (requests st) = S k))).
Proof.
  split.
  - intros lib client os_Create apiKey keywords bucket ext noext limit start output
      pages Hc Hs0 Hzero Hfull.
    assert (forall i, files_stops (pageSize_of limit) start pages i
                      = (len (Files (pages i)) <? pageSize_of limit)) as Hstop.
    { intros i. unfold files_stops. by apply stops_unknown_total. }
    assert (forall i, (i < 1)%nat ->
              files_serves client apiKey keywords bucket ext noext (pageSize_of limit)
                start pages i
              /\ files_stops (pageSize_of limit) start pages i = false) as Hfirst.
    { intros i Hi. assert (i = 0%nat) as -> by lia. split; [done|].
      rewrite Hstop. lia. }
    split; [|split; [|split]].
    + eexists. split; [by apply handleFiles_prefix with (pages := pages)|].
      split; [|done]. cbn [total state_before total_before reported_of]. done.
    + intros fuel Hfuel.
      apply handleFiles_next_request with (pages := pages); [done..|lia].
    + apply files_url_start.
    + intros k Hk.
      assert (forall i, (i < k)%nat ->
                files_serves client apiKey keywords bucket ext noext
                  (pageSize_of limit) start pages i
                /\ files_stops (pageSize_of limit) start pages i = false) as Hpre.
      { intros i Hi. destruct (Hk i Hi) as [Hsi Hlen]. split; [done|].
        rewrite Hstop. lia. }
      split.
      * eexists. split; [by apply handleFiles_prefix with (pages := pages)|].
        apply length_requests_before.
      * intros Hsk Hshort fuel Hfuel. eexists. split.
        -- apply handleFiles_breaks with (pages := pages) (k := k); [done..| |done].
           rewrite Hstop. lia.
        -- unfold files_finish, state_stopped, state_before. cbn [requests].
           apply length_requests_before.
  - intros lib client os_Create apiKey keywords cloudType limit start output
      onlyBucket pages Hc Hs0 Hzero Hfull.
    assert (forall i, buckets_stops (pageSize_of limit) start pages i
                      = (len (Buckets (pages i)) <? pageSize_of limit)) as Hstop.
    { intros i. unfold buckets_stops. by apply stops_unknown_total. }
    assert (forall i, (i < 1)%nat ->
              buckets_serves client apiKey keywords cloudType (pageSize_of limit)
                start pages i
              /\ buckets_stops (pageSize_of limit) start pages i = false) as Hfirst.
    { intros i Hi. assert (i = 0%nat) as -> by lia. split; [done|].
      rewrite Hstop. lia. }
    split; [|split; [|split]].
    + eexists. split; [by apply handleBuckets_prefix with (pages := pages)|].
      split; [|done]. cbn [total state_before total_before reported_of]. done.
    + intros fuel Hfuel.
      apply handleBuckets_next_request with (pages := pages); [done..|lia].
    + apply buckets_url_start.
    + intros k Hk.
      assert (forall i, (i < k)%nat ->
                buckets_serves client apiKey keywords cloudType
                  (pageSize_of limit) start pages i
                /\ buckets_stops (pageSize_of limit) start pages i = false) as Hpre.
      { intros i Hi. destruct (Hk i Hi) as [Hsi Hlen]. split; [done|].
        rewrite Hstop. lia. }
      split.
      * eexists. split; [by apply handleBuckets_prefix with (pages := pages)|].
        apply length_requests_before.
      * intros Hsk Hshort fuel Hfuel. eexists. split.
        -- apply handleBuckets_breaks with (pages := pages) (k := k); [done..| |done].
           rewrite Hstop. lia.
        -- unfold buckets_finish, state_stopped, state_before. cbn [requests].
           apply length_requests_before.
Qed.

Lemma is_int_0 : is_int 0.
Proof. unfold is_int, int_min, int_max. lia. Qed.

Lemma pagination_order_and_stop_witness :
  (exists st,
     handleFiles (files_paged [two_files 5; two_files 5; one_file 5]) create_ok "key"
       "report" "" "pdf" "" 2 0 "" 5 = Finished st
     /\ map (fun r => url_query (req_url r) !! "start") (requests st)
        = [Some "0"; Some "2"; Some "4"])
  /\ (exists st,
        handleBuckets (buckets_paged [two_buckets 4; two_buckets 4; one_bucket 4])
          create_ok "key" "logs" "" 2 0 "" false 5 = Finished st
        /\ map (fun r => url_query (req_url r) !! "start") (requests st)
           = [Some "0"; Some "2"]).
Proof.
  split.
  - destruct (proj1 pagination_order_and_stop utc_strings
                (files_paged [two_files 5; two_files 5; one_file 5]) create_ok "key"
                "report" "" "pdf" "" 2 0 ""
                (files_pages [two_files 5; two_files 5; one_file 5]) 2%nat)
      as [_ Hfin].
    + lia.
    + exact is_int_0.
    + intros Hout. reflexivity.
    + intros i Hi. reflexivity.
    + intros i Hi. apply stops_false_stop_rule; [exact is_int_0|].
      destruct i as [|[|i]]; [vm_compute; reflexivity..|lia].
    + apply stops_stop_rule; [exact is_int_0|]. vm_compute. reflexivity.
    + destruct (Hfin 5%nat ltac:(lia)) as (st & Hrun & _ & Hstarts & _).
      exists st. split; [exact Hrun|]. rewrite Hstarts. reflexivity.
  - destruct (proj2 pagination_order_and_stop utc_strings
                (buckets_paged [two_buckets 4; two_buckets 4; one_bucket 4]) create_ok
                "key" "logs" "" 2 0 "" false
                (buckets_pages [two_buckets 4; two_buckets 4; one_bucket 4]) 1%nat)
      as [_ Hfin].
    + lia.
    + exact is_int_0.
    + intros Hout. reflexivity.
    + intros i Hi. reflexivity.
    + intros i Hi. apply stops_false_stop_rule; [exact is_int_0|].
      destruct i as [|i]; [vm_compute; reflexivity|lia].
    + apply stops_stop_rule; [exact is_int_0|]. vm_compute. reflexivity.
    + destruct (Hfin 5%nat ltac:(lia)) as (st & Hrun & _ & Hstarts & _).
      exists st. split; [exact Hrun|]. rewrite Hstarts. reflexivity.
Defined.

Lemma zero_total_keeps_paging_witness :
  (exists st,
     handleFiles (files_paged [two_files 0; two_files 0; one_file 0]) create_ok "key"
       "report" "" "" "" 2 0 "" 9 = Finished st
     /\ length (requests st) = 3%nat)
  /\ (exists st,
        handleBuckets (buckets_paged [two_buckets 0; two_buckets 0; one_bucket 0])
          create_ok "key" "logs" "" 2 0 "" false 9 = Finished st
        /\ length (requests st) = 3%nat).
Proof.
  split.
  - destruct (proj1 zero_total_keeps_paging utc_strings
                (files_paged [two_files 0; two_files 0; one_file 0]) create_ok "key"
                "report" "" "" "" 2 0 ""
                (files_pages [two_files 0; two_files 0; one_file 0]))
      as (_ & _ & _ & Hshort).
    + intros Hout. reflexivity.
    + reflexivity.
    + reflexivity.
    + reflexivity.
    + destruct (Hshort 2%nat) as [_ Hfin].
      * intros i Hi. split; [reflexivity|].
        destruct i as [|[|i]]; [vm_compute; discriminate..|lia].
      * apply Hfin with (fuel := 9%nat); [reflexivity|vm_compute; reflexivity|lia].
  - destruct (proj2 zero_total_keeps_paging utc_strings
                (buckets_paged [two_buckets 0; two_buckets 0; one_bucket 0]) create_ok
                "key" "logs" "" 2 0 "" false
                (buckets_pages [two_buckets 0; two_buckets 0; one_bucket 0]))
      as (_ & _ & _ & Hshort).
    + intros Hout. reflexivity.
    + reflexivity.
    + reflexivity.
    + reflexivity.
    + destruct (Hshort 2%nat) as [_ Hfin].
      * intros i Hi. split; [reflexivity|].
        destruct i as [|[|i]]; [vm_compute; discriminate..|lia].
      * apply Hfin with (fuel := 9%nat); [reflexivity|vm_compute; reflexivity|lia].
Defined.

(** C8. On a successful fetch the stats command emits the response body
    as it came: without an output path the only write to standard output
    is the body itself, and with one the file written holds exactly the
    body. *)
Theorem stats_body_verbatim (lib : GoLib) client os_WriteFile apiKey output data :
  client 0%nat (newRequest apiKey stats_url) = Response 200 data ->
  (output = "" ->
   exists run,
     handleStats client os_WriteFile apiKey output = Finished run
     /\ stats_stdout run = [Text data] /\ stats_files run = [])
  /\ (output ≠ "" -> os_WriteFile output data = None ->
      exists run,
        handleStats client os_WriteFile apiKey output = Finished run
        /\ stats_files run = [(output, data)]).
Proof.
  intros Hget. unfold handleStats, doGet. rewrite Hget. simpl. split.
  - intros ->. simpl. eauto.
  - intros Hout Hwrite. destruct (decide (output = "")); [done|].
    rewrite Hwrite. eauto.
Qed.

Lemma stats_body_verbatim_witness :
  (exists run,
     handleStats (H := utc_strings) (stats_server stats_body) write_ok "key" ""
       = Finished run
     /\ stats_stdout run = [Text stats_body] /\ stats_files run = [])
  /\ (exists run,
        handleStats (H := utc_strings) (stats_server stats_body) write_ok "key"
          "stats.json" = Finished run
        /\ stats_files run = [("stats.json", stats_body)]).
Proof.
  split.
  - apply (stats_body_verbatim utc_strings (stats_server stats_body) write_ok "key" ""
             stats_body); reflexivity.
  - apply (stats_body_verbatim utc_strings (stats_server stats_body) write_ok "key"
             "stats.json" stats_body); [reflexivity|discriminate|reflexivity].
Defined.

(** ** Identifiers in a CSV cell and in the JSON output *)

Lemma occurs_app c s t : occurs c (s +:+ t) = occurs c s || occurs c t.
Proof.
  induction s as [|a s IH]; simpl; [reflexivity|].
  rewrite IH. apply orb_assoc.
Qed.

Lemma occurs_e_uint d : occurs "e" (NilEmpty.string_of_uint d) = false.
Proof. induction d; simpl; auto. Qed.

Lemma occurs_e_Sprintf_d n : occurs "e" (Sprintf_d n) = false.
Proof.
  unfold Sprintf_d, NilZero.string_of_int.
  destruct (Z.to_int n) as [d|d]; simpl; unfold NilZero.string_of_uint;
    destruct d; try reflexivity; apply occurs_e_uint.
Qed.

Lemma occurs_e_fmtE digits exp : occurs "e" (fmtE digits exp) = true.
Proof.
  unfold fmtE. rewrite occurs_app. apply orb_true_iff. right. reflexivity.
Qed.

Lemma Sprintf_d_sign n :
  Sprintf_d n = (if n <? 0 then "-" else "") +:+ Sprintf_d (Z.abs n).
Proof. destruct n; reflexivity. Qed.

(** An integer held by a [float64] prints through [fmt.Sprint] as JSON
    writes it exactly when it has at most six digits. *)
Lemma Sprint_float64_decimal n :
  Sprint_float64 n = Sprintf_d n
  <-> (String.length (Sprintf_d (Z.abs n)) <= 6)%nat.
Proof.
  unfold Sprint_float64.
  destruct (Z.ltb_spec (Z.of_nat (String.length (Sprintf_d (Z.abs n))) - 1) (-4)) as [Hlow|_];
    [lia|]. simpl.
  destruct (Z.leb_spec 6 (Z.of_nat (String.length (Sprintf_d (Z.abs n))) - 1)) as [He|Hf].
  - split; [|lia]. intros Heq.
    apply (f_equal (occurs "e")) in Heq.
    rewrite occurs_app, occurs_e_fmtE, orb_true_r, occurs_e_Sprintf_d in Heq.
    discriminate.
  - split; [lia|]. intros _. symmetry. apply Sprintf_d_sign.
Qed.

Lemma Sprint_decoded_json_text v :
  Sprint_decoded v = json_text v <-> few_digits v.
Proof.
  destruct v as [s|n]; simpl; [tauto|]. apply Sprint_float64_decimal.
Qed.




(** C10. In the buckets loop the stop test reads the length of the page
    as decoded, not of what the type filter kept.  A full page of which
    the filter keeps nothing forwards no record to the sink and leaves
    the loop only by the total rule: when the total is unknown or not
    yet reached the loop goes on to the next offset. *)
Theorem filtered_out_page_does_not_stop (lib : GoLib) client apiKey keywords cloudType
    pageSize onlyBucket (st : Loop Bucket) resp :
  client (length (requests st))
    (newRequest apiKey (buckets_url keywords cloudType pageSize (offset st)))
  = Response 200 (JSONOf resp) ->
  len (Buckets resp) = pageSize ->
  filter_type cloudType (Buckets resp) = [] ->
  let total' := if total st =? -1 then Buckets_Meta_Results resp else total st in
  let turn := buckets_body client apiKey keywords cloudType pageSize onlyBucket st in
  all (step_state turn) = all st
  /\ w (step_state turn) = w st
  /\ (turn = Break (step_state turn)
      <-> 0 < total' /\ total' <= int_add (offset st) pageSize)
  /\ (~ (0 < total' /\ total' <= int_add (offset st) pageSize) ->
      turn = Next (step_state turn)
      /\ offset (step_state turn) = int_add (offset st) pageSize).
Proof.
  intros Hget Hfull Hnone total' turn.
  unfold turn, buckets_body, doGet. rewrite Hget. simpl. rewrite Hnone, Hfull.
  rewrite Z.ltb_irrefl. simpl. fold total'.
  assert ((total' >? 0) && (int_add (offset st) pageSize >=? total') = true
          <-> 0 < total' /\ total' <= int_add (offset st) pageSize) as Hiff.
  { rewrite andb_true_iff, Z.gtb_ltb, Z.ltb_lt, Z.geb_leb, Z.leb_le. done. }
  destruct ((total' >? 0) && (int_add (offset st) pageSize >=? total')) eqn:E;
    simpl.
  - split; [destruct (w st); by rewrite ?app_nil_r|].
    split; [destruct (w st); by rewrite ?app_nil_r|].
    split; [split; [intros _; by apply Hiff|done]|].
    intros Hn. destruct Hn. by apply Hiff.
  - split; [destruct (w st); by rewrite ?app_nil_r|].
    split; [destruct (w st); by rewrite ?app_nil_r|].
    split; [split; [done|]|done].
    intros Hy. apply Hiff in Hy. done.
Qed.

Lemma filtered_out_page_does_not_stop_witness :
  buckets_body (buckets_server (two_azure 0)) "key" "" "aws" 2 false (loop_init 0 None)
  = Next (step_state
            (buckets_body (buckets_server (two_azure 0)) "key" "" "aws" 2 false
               (loop_init 0 None)))
  /\ all (step_state
            (buckets_body (buckets_server (two_azure 0)) "key" "" "aws" 2 false
               (loop_init 0 None))) = [].
Proof.
  destruct (filtered_out_page_does_not_stop utc_strings (buckets_server (two_azure 0))
              "key" "" "aws" 2 false (loop_init 0 None) (two_azure 0))
    as (Hall & _ & _ & Hnext); [reflexivity..|].
  split; [|exact Hall].
  apply Hnext. vm_compute. intros [Hpos _]. discriminate Hpos.
Defined.

(** ** The memory sink *)

Lemma sink_no_output header : sink header "" = None.
Proof. reflexivity. Qed.

Lemma creatable_no_output os_Create : creatable os_Create "".
Proof. intros Hne. by destruct Hne. Qed.

Lemma length_progress_before `{GoLib} sizes reported k :
  length (progress_before sizes reported k) = k.
Proof.
  induction k as [|k IH]; [done|].
  cbn [progress_before]. rewrite length_app, IH. simpl. lia.
Qed.

Lemma progress_before_map `{GoLib} sizes reported k :
  progress_before sizes reported k
  = map (fun i => progress (fetched_before sizes (S i)) (total_before reported (S i)))
      (seq 0 k).
Proof.
  induction k as [|k IH]; [done|].
  cbn [progress_before]. by rewrite seq_S, map_app, IH.
Qed.

(** C7, as the code has it. Without an output path a files run that
    ends writes, after the progress lines and a line break, the JSON
    encoding of the accumulated slice, pretty-printed: the array of every
    record of every page, in arrival order and with the fields of the
    envelopes, when at least one record was fetched, and [null] when none
    was, the slice being nil then.  An empty first page ends the run
    after that one request, with no record and [null] as the output. *)
Theorem json_output_lists_all_records (lib : GoLib) client os_Create apiKey keywords
    bucket ext noext limit start pages :
  (forall k fuel,
     (forall i, (i <= k)%nat ->
        files_serves client apiKey keywords bucket ext noext (pageSize_of limit)
          start pages i) ->
     (forall i, (i < k)%nat -> files_stops (pageSize_of limit) start pages i = false) ->
     files_stops (pageSize_of limit) start pages k = true ->
     (k < fuel)%nat ->
     exists st,
       handleFiles client os_Create apiKey keywords bucket ext noext limit start ""
         fuel = Finished st
       /\ all st = concat (map (fun i => Files (pages i)) (seq 0 (S k)))
       /\ drop (S k) (stdout st)
          = [Text nl;
             JSONIndent
               match all st with
               | [] => JNull
               | _ :: _ => JArray (map marshal_File (all st))
               end])
  /\ (files_serves client apiKey keywords bucket ext noext (pageSize_of limit) start
        pages 0%nat ->
      Files (pages 0%nat) = [] ->
      forall fuel, (1 <= fuel)%nat ->
        exists st,
          handleFiles client os_Create apiKey keywords bucket ext noext limit start ""
            fuel = Finished st
          /\ length (requests st) = 1%nat
          /\ all st = []
          /\ drop 1 (stdout st) = [Text nl; JSONIndent JNull]).
Proof.
  assert (forall k fuel,
     (forall i, (i <= k)%nat ->
        files_serves client apiKey keywords bucket ext noext (pageSize_of limit)
          start pages i) ->
     (forall i, (i < k)%nat -> files_stops (pageSize_of limit) start pages i = false) ->
     files_stops (pageSize_of limit) start pages k = true ->
     (k < fuel)%nat ->
     exists st,
       handleFiles client os_Create apiKey keywords bucket ext noext limit start ""
         fuel = Finished st
       /\ length (requests st) = S k
       /\ all st = concat (map (fun i => Files (pages i)) (seq 0 (S k)))
       /\ drop (S k) (stdout st)
          = [Text nl; JSONIndent (marshal_slice marshal_File (all st))]) as Hgen.
  { intros k fuel Hs Hn Hk Hfuel. eexists. split.
    - apply handleFiles_breaks with (pages := pages) (k := k);
        [apply creatable_no_output| |apply Hs; lia|done..].
      intros i Hi. split; [apply Hs; lia|by apply Hn].
    - rewrite sink_no_output.
      unfold files_finish, state_stopped, state_before. cbn [requests all stdout w].
      split; [apply length_requests_before|]. split; [done|].
      by rewrite drop_app_length' by (symmetry; apply length_progress_before). }
  split.
  - intros k fuel Hs Hn Hk Hfuel.
    destruct (Hgen k fuel Hs Hn Hk Hfuel) as (st & Hrun & _ & Hall & Hout).
    exists st. split; [done|]. split; [done|]. rewrite Hout.
    unfold marshal_slice. by destruct (all st).
  - intros Hs Hempty fuel Hfuel.
    destruct (Hgen 0%nat fuel) as (st & Hrun & Hreq & Hall & Hout).
    + intros i Hi. by assert (i = 0%nat) as -> by lia.
    + intros i Hi. lia.
    + unfold files_stops, stops. rewrite Hempty.
      pose proof (pageSize_of_bounds limit) as HP.
      assert ((@len File [] <? pageSize_of limit) = true) as ->; [|done].
      apply Z.ltb_lt. unfold len. simpl. lia.
    + lia.
    + simpl in Hall. rewrite Hempty in Hall. simpl in Hall.
      exists st. split; [done|]. split; [done|]. split; [done|].
      rewrite Hout, Hall. done.
Qed.

Lemma json_output_lists_all_records_witness :
  (exists st,
     handleFiles (files_paged [two_files 5; two_files 5; one_file 5]) create_ok "key"
       "report" "" "" "" 2 0 "" 7 = Finished st
     /\ map File_Name (all st) = ["a.pdf"; "b.pdf"; "a.pdf"; "b.pdf"; "c.pdf"])
  /\ (exists st,
        handleFiles (files_server (no_files 0)) create_ok "key" "report" "" "" "" 1000
          0 "" 7 = Finished st
        /\ drop 1 (stdout st) = [Text nl; JSONIndent JNull]).
Proof.
  split.
  - destruct (proj1 (json_output_lists_all_records utc_strings
                       (files_paged [two_files 5; two_files 5; one_file 5]) create_ok
                       "key" "report" "" "" "" 2 0
                       (files_pages [two_files 5; two_files 5; one_file 5]))
                2%nat 7%nat) as (st & Hrun & Hall & _).
    + intros i Hi. reflexivity.
    + intros i Hi. destruct i as [|[|i]]; [vm_compute; reflexivity..|lia].
    + vm_compute. reflexivity.
    + lia.
    + exists st. split; [exact Hrun|]. rewrite Hall. reflexivity.
  - destruct (proj2 (json_output_lists_all_records utc_strings
                       (files_server (no_files 0)) create_ok "key" "report" "" "" ""
                       1000 0 (fun _ => no_files 0)))
      with (fuel := 7%nat) as (st & Hrun & _ & _ & Hout).
    + reflexivity.
    + reflexivity.
    + lia.
    + exists st. split; [exact Hrun|exact Hout].
Defined.

(** C7, as stated, fails on an empty first page: the run ends at once
    with no record, and what it prints is [null], not an array. *)
Lemma empty_first_page_prints_null :
  last (stdout (outcome_state
          (handleFiles (files_server (no_files 0)) create_ok "key" "report" "" "" ""
             1000 0 "" 3)))
  = Some (JSONIndent JNull)
  /\ ~ (exists elems,
          last (stdout (outcome_state
                  (handleFiles (files_server (no_files 0)) create_ok "key" "report"
                     "" "" "" 1000 0 "" 3)))
          = Some (JSONIndent (JArray elems))).
Proof.
  assert (last (stdout (outcome_state
            (handleFiles (files_server (no_files 0)) create_ok "key" "report" "" ""
               "" 1000 0 "" 3)))
          = Some (JSONIndent JNull)) as Hlast by reflexivity.
  split; [exact Hlast|].
  intros [elems Helems]. rewrite Hlast in Helems. discriminate Helems.
Qed.

(** ** The progress counter *)

Lemma fetched_before_wrap sizes i :
  fetched_before sizes i = wrap (cumulative sizes i).
Proof.
  induction i as [|i IH]; [done|].
  cbn [fetched_before cumulative]. rewrite IH. unfold int_add. apply wrap_add_l.
Qed.

Lemma progress_before_closed `{GoLib} sizes reported k :
  progress_before sizes reported k
  = map (fun i => progress (wrap (cumulative sizes (S i))) (total_before reported (S i)))
      (seq 0 k).
Proof.
  rewrite progress_before_map. apply map_ext. intros i.
  by rewrite fetched_before_wrap.
Qed.

(** C9, as the code has it. After each page both loops write one
    progress chunk that starts with a carriage return, so that it
    overwrites the line: the text is "已获取 X / Y 条" when the tracked
    total Y is positive and "已获取 X 条" otherwise.  X is the number of
    records sent to the sink so far (as an [int64]): every record of the
    pages for files, the records the type filter kept for buckets. *)
Theorem progress_lines :
  (forall (lib : GoLib) x y,
     (0 < y ->
      progress x y
      = Text (cr +:+ "已获取 " +:+ Sprintf_d x +:+ " / " +:+ Sprintf_d y +:+ " 条"))
     /\ (y <= 0 -> progress x y = Text (cr +:+ "已获取 " +:+ Sprintf_d x +:+ " 条")))
  /\ (forall (lib : GoLib) client os_Create apiKey keywords bucket ext noext limit
        start output pages k,
       creatable os_Create output ->
       (forall i, (i <= k)%nat ->
          files_serves client apiKey keywords bucket ext noext (pageSize_of limit)
            start pages i) ->
       (forall i, (i < k)%nat ->
          files_stops (pageSize_of limit) start pages i = false) ->
       take (S k) (stdout (outcome_state
         (handleFiles client os_Create apiKey keywords bucket ext noext limit start
            output (S k))))
       = map (fun i =>
                progress
                  (wrap (cumulative (fun j => len (Files (pages j))) (S i)))
                  (files_total pages i))
           (seq 0 (S k)))
  /\ (forall (lib : GoLib) client os_Create apiKey keywords cloudType limit start
        output onlyBucket pages k,
       creatable os_Create output ->
       (forall i, (i <= k)%nat ->
          buckets_serves client apiKey keywords cloudType (pageSize_of limit) start
            pages i) ->
       (forall i, (i < k)%nat ->
          buckets_stops (pageSize_of limit) start pages i = false) ->
       take (S k) (stdout (outcome_state
         (handleBuckets client os_Create apiKey keywords cloudType limit start output
            onlyBucket (S k))))
       = map (fun i =>
                progress
                  (wrap (cumulative
                           (fun j => len (filter_type cloudType (Buckets (pages j))))
                           (S i)))
                  (buckets_total pages i))
           (seq 0 (S k))).
Proof.
  split; [|split].
  - intros lib x y. unfold progress. split; intros Hy.
    + by destruct (0 <? y) eqn:E; [|lia].
    + by destruct (0 <? y) eqn:E; [lia|].
  - intros lib client os_Create apiKey keywords bucket ext noext limit start output
      pages k Hc Hs Hn.
    rewrite handleFiles_turn with (pages := pages);
      [|done|intros; split; [apply Hs; lia|by apply Hn]|apply Hs; lia].
    rewrite <- (progress_before_closed (sizes_of Files pages)
                  (reported_of Files_Meta_Results pages) (S k)).
    destruct (files_stops _ _ _ _);
      unfold files_finish, state_stopped, state_before, outcome_state; cbn [stdout].
    + by rewrite take_app_length' by (symmetry; apply length_progress_before).
    + apply firstn_all2. by rewrite length_progress_before.
  - intros lib client os_Create apiKey keywords cloudType limit start output
      onlyBucket pages k Hc Hs Hn.
    rewrite handleBuckets_turn with (pages := pages);
      [|done|intros; split; [apply Hs; lia|by apply Hn]|apply Hs; lia].
    rewrite <- (progress_before_closed
                  (sizes_of (fun resp => filter_type cloudType (Buckets resp)) pages)
                  (reported_of Buckets_Meta_Results pages) (S k)).
    destruct (buckets_stops _ _ _ _);
      unfold buckets_finish, state_stopped, state_before, outcome_state; cbn [stdout].
    + by rewrite take_app_length' by (symmetry; apply length_progress_before).
    + apply firstn_all2. by rewrite length_progress_before.
Qed.

Lemma progress_lines_witness :
  take 2 (stdout (outcome_state
    (handleFiles (files_paged [two_files 5; two_files 5; one_file 5]) create_ok "key"
       "report" "" "" "" 2 0 "" 2)))
  = [Text (cr +:+ "已获取 2 / 5 条"); Text (cr +:+ "已获取 4 / 5 条")]
  /\ take 1 (stdout (outcome_state
       (handleBuckets (buckets_paged [two_azure 0; two_azure 0]) create_ok "key" ""
          "aws" 2 0 "" false 1)))
     = [Text (cr +:+ "已获取 0 条")].
Proof.
  split.
  - rewrite (proj1 (proj2 progress_lines) utc_strings
               (files_paged [two_files 5; two_files 5; one_file 5]) create_ok "key"
               "report" "" "" "" 2 0 ""
               (files_pages [two_files 5; two_files 5; one_file 5]) 1%nat).
    + reflexivity.
    + intros Hout. reflexivity.
    + intros i Hi. reflexivity.
    + intros i Hi. assert (i = 0%nat) as -> by lia. vm_compute. reflexivity.
  - rewrite (proj2 (proj2 progress_lines) utc_strings
               (buckets_paged [two_azure 0; two_azure 0]) create_ok "key" "" "aws" 2 0
               "" false (buckets_pages [two_azure 0; two_azure 0]) 0%nat).
    + reflexivity.
    + intros Hout. reflexivity.
    + intros i Hi. reflexivity.
    + intros i Hi. lia.
Defined.

(** C9, as stated, fails: a page of two buckets that the type filter
    drops, with a reported total of 5, is announced as "已获取 0 / 5 条".
    That is neither "fetched 2 / 5 records", two records having been
    fetched, nor the same words around the counter the code prints. *)
Lemma progress_text_differs :
  stdout (outcome_state
    (handleBuckets (buckets_server (two_azure 5)) create_ok "key" "" "aws" 2 0 ""
       false 1))
  = [Text (cr +:+ "已获取 0 / 5 条")]
  /\ len (Buckets (two_azure 5)) = 2
  /\ cr +:+ "已获取 0 / 5 条" ≠ spec_progress 2 (Some 5)
  /\ cr +:+ "已获取 0 / 5 条" ≠ cr +:+ spec_progress 2 (Some 5)
  /\ cr +:+ "已获取 0 / 5 条" ≠ cr +:+ spec_progress 0 (Some 5).
Proof.
  split; [reflexivity|]. split; [reflexivity|].
  split; [|split]; vm_compute; discriminate.
Qed.

(** ** [strings.EqualFold] on ASCII strings *)

Lemma byte_val_nonneg c : 0 <= byte_val c.
Proof. unfold byte_val. lia. Qed.

Lemma ascii_fold_match_lower a b :
  ascii_fold_match a b = true <-> lower_byte (byte_val a) = lower_byte (byte_val b).
Proof.
  unfold ascii_fold_match, lower_byte.
  generalize (byte_val a) (byte_val b). intros x y.
  destruct (x =? y) eqn:Exy.
  - apply Z.eqb_eq in Exy. subst. done.
  - apply Z.eqb_neq in Exy.
    rewrite !andb_true_iff, !Z.leb_le, Z.eqb_eq.
    destruct ((65 <=? x) && (x <=? 90)) eqn:Ex, ((65 <=? y) && (y <=? 90)) eqn:Ey;
      rewrite ?andb_true_iff, ?andb_false_iff, ?Z.leb_le, ?Z.leb_gt in Ex, Ey; lia.
Qed.

Lemma lor_below_128 x y : 0 <= x < 128 -> 0 <= y < 128 -> Z.lor x y < 128.
Proof.
  intros Hx Hy.
  assert (0 <= Z.lor x y) as Hnn by (apply Z.lor_nonneg; lia).
  destruct (decide (Z.lor x y = 0)) as [->|Hne]; [lia|].
  change 128 with (2 ^ 7). apply Z.log2_lt_pow2; [lia|].
  rewrite Z.log2_lor by lia.
  assert (forall v, 0 <= v < 128 -> Z.log2 v < 7) as Hlog.
  { intros v Hv. destruct (decide (v = 0)) as [->|]; [done|].
    apply Z.log2_lt_pow2; [lia|]. change (2 ^ 7) with 128. lia. }
  pose proof (Hlog x Hx). pose proof (Hlog y Hy). lia.
Qed.

Lemma EqualFold_ascii `{GoLib} s t :
  is_ascii s = true -> is_ascii t = true ->
  EqualFold s t = true <-> lower_key s = lower_key t.
Proof.
  revert t. induction s as [|a s IH]; intros [|b t]; simpl; try done.
  rewrite !andb_true_iff, !Z.ltb_lt. intros [Ha Hs] [Hb Ht].
  pose proof (byte_val_nonneg a). pose proof (byte_val_nonneg b).
  pose proof (lor_below_128 (byte_val a) (byte_val b) ltac:(lia) ltac:(lia)) as Hlor.
  destruct (128 <=? Z.lor (byte_val a) (byte_val b)) eqn:E; [lia|].
  destruct (ascii_fold_match a b) eqn:Em.
  - apply ascii_fold_match_lower in Em. rewrite IH by done.
    split; [intros ->; by rewrite Em|by intros [= _ ->]].
  - split; [done|]. intros [= Hl _]. apply ascii_fold_match_lower in Hl. congruence.
Qed.

(** ** The type filter *)

Lemma filter_type_set `{GoLib} cloudType buckets :
  cloudType ≠ "" ->
  filter_type cloudType buckets
  = List.filter (fun b => EqualFold (Bucket_Type b) cloudType) buckets.
Proof. intros Hne. unfold filter_type. by destruct (decide (cloudType ≠ "")). Qed.

Lemma sink_output header output : output ≠ "" -> sink header output = Some [header].
Proof. intros Hne. unfold sink. by destruct (decide (output ≠ "")). Qed.

(** C5. With a type filter the buckets command sends to its sink, page
    after page and in arrival order, exactly the buckets whose type tag
    [strings.EqualFold] matches with the filter; on ASCII tags that is
    equality once the letters A-Z are lowered.  The memory sink holds
    those buckets and names-only mode prints their names, one per line;
    the CSV writer receives the header and one row for each of them. *)
Theorem type_filter_forwards_matches (lib : GoLib) client os_Create apiKey keywords
    cloudType limit start output onlyBucket pages k fuel :
  cloudType ≠ "" ->
  creatable os_Create output ->
  (forall i, (i <= k)%nat ->
     buckets_serves client apiKey keywords cloudType (pageSize_of limit) start pages i) ->
  (forall i, (i < k)%nat -> buckets_stops (pageSize_of limit) start pages i = false) ->
  buckets_stops (pageSize_of limit) start pages k = true ->
  (k < fuel)%nat ->
  (forall tag, is_ascii tag = true -> is_ascii cloudType = true ->
     EqualFold tag cloudType = true <-> lower_key tag = lower_key cloudType)
  /\ exists st,
       handleBuckets client os_Create apiKey keywords cloudType limit start output
         onlyBucket fuel = Finished st
       /\ (output = "" ->
           all st
           = concat (map (fun i =>
                            List.filter (fun b => EqualFold (Bucket_Type b) cloudType)
                              (Buckets (pages i)))
                       (seq 0 (S k)))
           /\ (onlyBucket = true ->
               drop (S k) (stdout st)
               = Text nl :: map (fun b => Text (Bucket_Bucket b +:+ nl)) (all st)))
       /\ (output ≠ "" ->
           w st
           = Some (buckets_header onlyBucket
                   :: map (bucket_row onlyBucket)
                        (concat (map (fun i =>
                                        List.filter
                                          (fun b => EqualFold (Bucket_Type b) cloudType)
                                          (Buckets (pages i)))
                                   (seq 0 (S k)))))).
Proof.
  intros Htype Hc Hs Hn Hk Hfuel. split; [intros tag; apply EqualFold_ascii|].
  eexists. split.
  - apply handleBuckets_breaks with (pages := pages) (k := k);
      [done| |apply Hs; lia|done..].
    intros i Hi. split; [apply Hs; lia|by apply Hn].
  - assert (forwarded_before (fun resp => filter_type cloudType (Buckets resp)) pages
              (S k)
            = concat (map (fun i =>
                             List.filter (fun b => EqualFold (Bucket_Type b) cloudType)
                               (Buckets (pages i)))
                        (seq 0 (S k)))) as Hkept.
    { unfold forwarded_before. f_equal. apply map_ext. intros i.
      by apply filter_type_set. }
    split.
    + intros ->. rewrite sink_no_output.
      unfold buckets_finish, state_stopped, state_before. cbn [all w stdout].
      split; [done|]. intros ->.
      by rewrite drop_app_length' by (symmetry; apply length_progress_before).
    + intros Hout. rewrite (sink_output _ _ Hout).
      unfold buckets_finish, state_stopped, state_before. cbn [all w stdout].
      by rewrite Hkept.
Qed.

Lemma type_filter_forwards_matches_witness :
  exists st,
    handleBuckets (buckets_server three_aws_two_azure) create_ok "key" "" "aws" 10 0 ""
      true 4 = Finished st
    /\ drop 1 (stdout st)
       = [Text nl; Text ("logs" +:+ nl); Text ("media" +:+ nl); Text ("mail" +:+ nl)].
Proof.
  destruct (type_filter_forwards_matches utc_strings (buckets_server three_aws_two_azure)
              create_ok "key" "" "aws" 10 0 "" true (fun _ => three_aws_two_azure)
              0%nat 4%nat) as (_ & st & Hrun & Hmem & _).
  - discriminate.
  - intros Hout. reflexivity.
  - intros i Hi. reflexivity.
  - intros i Hi. lia.
  - vm_compute. reflexivity.
  - lia.
  - exists st. split; [exact Hrun|].
    destruct (Hmem eq_refl) as [Hall Hnames].
    rewrite (Hnames eq_refl), Hall. reflexivity.
Defined.

(** * Further properties of the program *)

(** ** A turn that fails *)

Section FailedTurn.
Context `{GoLib} {R Resp : Type}.
Variable client : nat -> Request -> HTTPResponse (Body Resp).
Variable apiKey : string.
Variable url_at : Z -> URLString.
Variables records forward : Resp -> list R.
Variable results : Resp -> Z.
Variable row : R -> list string.
Variable pageSize : Z.
Variable start : Z.
Variable w0 : option (list (list string)).
Variable pages : nat -> Resp.

Let body := page_body client apiKey url_at records forward results row pageSize.
Let before := state_before apiKey url_at forward results row pageSize start w0 pages.
Let failed := state_failed apiKey url_at forward results row pageSize start w0 pages.

Lemma page_body_fails i msg :
  fatal_reply (client i (request_at apiKey url_at pageSize start i)) = Some msg ->
  body (before i) = Fatal msg (failed i).
Proof.
  unfold request_at, body, page_body, doGet, fatal_reply.
  cbn [requests offset before state_before]. rewrite length_requests_before.
  destruct (client i _) as [err|code data].
  - intros [= <-]. unfold failed, state_failed.
    cbn [offset total fetched all w stdout state_before]. by rewrite requests_before_S.
  - destruct (code =? 200).
    + destruct data as [err|v]; [|done]. intros [= <-]. cbn [Unmarshal].
      unfold failed, state_failed.
      cbn [offset total fetched all w stdout state_before].
      by rewrite requests_before_S.
    + intros [= <-]. unfold failed, state_failed.
      cbn [offset total fetched all w stdout state_before].
      rewrite requests_before_S.
      replace ("request error: " +:+ ("http " +:+ Sprintf_d code))
        with ("request error: http " +:+ Sprintf_d code) by reflexivity.
      done.
Qed.

Lemma loop_aborts k fuel msg :
  (forall i, (i < k)%nat ->
     serves apiKey url_at pageSize start pages client i
     /\ stops pageSize start (counts_of records pages) (reported_of results pages) i
        = false) ->
  fatal_reply (client k (request_at apiKey url_at pageSize start k)) = Some msg ->
  (k < fuel)%nat ->
  loop body fuel (loop_init start w0) = Aborted msg (failed k).
Proof.
  intros Hk Hfail Hfuel. replace fuel with (k + S (fuel - k - 1))%nat by lia.
  rewrite (loop_Running_app body k _ _ (before k)) by by apply loop_prefix.
  simpl. by rewrite (page_body_fails k msg Hfail).
Qed.

End FailedTurn.

(** X1. A transport error, a status other than 200 or an undecodable
    body in turn k, after k pages that did not stop the loop, aborts a
    files or buckets run with the corresponding message.  The failing
    request has been made; the console holds the k progress chunks and
    nothing else (no JSON, no completion line); the records of the k
    pages are in the slice, never printed, or their rows are with the
    writer after the header. *)
Theorem failed_turn_aborts :
  (forall (lib : GoLib) client os_Create apiKey keywords bucket ext noext limit start
      output pages k msg fuel,
     creatable os_Create output ->
     (forall i, (i < k)%nat ->
        files_serves client apiKey keywords bucket ext noext (pageSize_of limit)
          start pages i
        /\ files_stops (pageSize_of limit) start pages i = false) ->
     fatal_reply (client k (files_request_at apiKey keywords bucket ext noext
                              (pageSize_of limit) start k)) = Some msg ->
     (k < fuel)%nat ->
     exists st,
       handleFiles client os_Create apiKey keywords bucket ext noext limit start
         output fuel = Aborted msg st
       /\ requests st
          = map (files_request_at apiKey keywords bucket ext noext (pageSize_of limit)
                   start) (seq 0 (S k))
       /\ stdout st
          = map (fun i =>
                   progress (wrap (cumulative (fun j => len (Files (pages j))) (S i)))
                     (files_total pages i))
              (seq 0 k)
       /\ (output = "" ->
           w st = None /\ all st = concat (map (fun i => Files (pages i)) (seq 0 k)))
       /\ (output ≠ "" ->
           all st = []
           /\ w st = Some (files_header
                           :: map file_row
                                (concat (map (fun i => Files (pages i)) (seq 0 k))))))
  /\ (forall (lib : GoLib) client os_Create apiKey keywords cloudType limit start
        output onlyBucket pages k msg fuel,
       creatable os_Create output ->
       (forall i, (i < k)%nat ->
          buckets_serves client apiKey keywords cloudType (pageSize_of limit) start
            pages i
          /\ buckets_stops (pageSize_of limit) start pages i = false) ->
       fatal_reply (client k (buckets_request_at apiKey keywords cloudType
                                (pageSize_of limit) start k)) = Some msg ->
       (k < fuel)%nat ->
       exists st,
         handleBuckets client os_Create apiKey keywords cloudType limit start output
           onlyBucket fuel = Aborted msg st
         /\ requests st
            = map (buckets_request_at apiKey keywords cloudType (pageSize_of limit)
                     start) (seq 0 (S k))
         /\ stdout st
            = map (fun i =>
                     progress
                       (wrap (cumulative
                                (fun j => len (filter_type cloudType (Buckets (pages j))))
                                (S i)))
                       (buckets_total pages i))
                (seq 0 k)
         /\ (output = "" ->
             w st = None
             /\ all st
                = concat (map (fun i => filter_type cloudType (Buckets (pages i)))
                            (seq 0 k)))
         /\ (output ≠ "" ->
             all st = []
             /\ w st = Some (buckets_header onlyBucket
                             :: map (bucket_row onlyBucket)
                                  (concat
                                     (map (fun i =>
                                             filter_type cloudType (Buckets (pages i)))
                                        (seq 0 k)))))).
Proof.
  split.
  - intros lib client os_Create apiKey keywords bucket ext noext limit start output
      pages k msg fuel Hc Hk Hfail Hfuel.
    eexists. split.
    + rewrite handleFiles_loop by done. rewrite files_body_page.
      by rewrite (loop_aborts client apiKey _ Files Files Files_Meta_Results file_row
                    (pageSize_of limit) start (sink files_header output) pages k fuel
                    msg Hk Hfail Hfuel).
    + unfold state_failed, state_before. cbn [requests stdout all w].
      split; [done|]. split.
      { apply (progress_before_closed (sizes_of Files pages)
                 (reported_of Files_Meta_Results pages) k). }
      split.
      * intros ->. by rewrite sink_no_output.
      * intros Hout. by rewrite (sink_output _ _ Hout).
  - intros lib client os_Create apiKey keywords cloudType limit start output
      onlyBucket pages k msg fuel Hc Hk Hfail Hfuel.
    eexists. split.
    + rewrite handleBuckets_loop by done. rewrite buckets_body_page.
      by rewrite (loop_aborts client apiKey _ Buckets
                    (fun resp => filter_type cloudType (Buckets resp))
                    Buckets_Meta_Results (bucket_row onlyBucket)
                    (pageSize_of limit) start
                    (sink (buckets_header onlyBucket) output) pages k fuel
                    msg Hk Hfail Hfuel).
    + unfold state_failed, state_before. cbn [requests stdout all w].
      split; [done|]. split.
      { apply (progress_before_closed
                 (sizes_of (fun resp => filter_type cloudType (Buckets resp)) pages)
                 (reported_of Buckets_Meta_Results pages) k). }
      split.
      * intros ->. by rewrite sink_no_output.
      * intros Hout. by rewrite (sink_output _ _ Hout).
Qed.

Lemma failed_turn_aborts_witness :
  (exists st,
     handleFiles
       (files_broken [two_files 9; two_files 9] (Response 503 (Undecodable "")))
       create_ok "key" "report" "" "" "" 2 0 "out.csv" 6
     = Aborted "request error: http 503" st
     /\ length (requests st) = 3%nat
     /\ option_map (@length _) (w st) = Some 5%nat)
  /\ (exists st,
        handleBuckets
          (buckets_broken [two_buckets 9] (Response 200 (Undecodable "unexpected EOF")))
          create_ok "key" "" "" 2 0 "" false 6
        = Aborted "decode: unexpected EOF" st
        /\ map Bucket_Bucket (all st) = ["logs"; "media"]
        /\ length (stdout st) = 1%nat).
Proof.
  split.
  - destruct (proj1 failed_turn_aborts utc_strings
                (files_broken [two_files 9; two_files 9] (Response 503 (Undecodable "")))
                create_ok "key" "report" "" "" "" 2 0 "out.csv"
                (files_pages [two_files 9; two_files 9]) 2%nat
                "request error: http 503" 6%nat)
      as (st & Hrun & Hreq & _ & _ & Hcsv).
    + intros Hout. reflexivity.
    + intros i Hi. destruct i as [|[|i]]; [split; [reflexivity|vm_compute; reflexivity]..|lia].
    + reflexivity.
    + lia.
    + exists st. split; [exact Hrun|]. split; [by rewrite Hreq|].
      destruct Hcsv as [_ Hw]; [discriminate|]. rewrite Hw. reflexivity.
  - destruct (proj2 failed_turn_aborts utc_strings
                (buckets_broken [two_buckets 9]
                   (Response 200 (Undecodable "unexpected EOF")))
                create_ok "key" "" "" 2 0 "" false
                (buckets_pages [two_buckets 9]) 1%nat
                "decode: unexpected EOF" 6%nat)
      as (st & Hrun & _ & Hout & Hmem & _).
    + intros Hne. reflexivity.
    + intros i Hi. destruct i as [|i]; [split; [reflexivity|vm_compute; reflexivity]|lia].
    + reflexivity.
    + lia.
    + exists st. split; [exact Hrun|]. destruct (Hmem eq_refl) as [_ Hall].
      split; [by rewrite Hall|]. by rewrite Hout.
Defined.

(** ** The counter and the sink, in every state a run can reach *)

Lemma len_app {A} (xs ys : list A) : len (xs ++ ys) = len xs + len ys.
Proof. unfold len. rewrite length_app. lia. Qed.

Lemma int_add_wrap_len {A} (xs ys : list A) :
  int_add (wrap (len xs)) (len ys) = wrap (len (xs ++ ys)).
Proof. unfold int_add. by rewrite wrap_add_l, len_app. Qed.

Section Counts.
Context `{GoLib} {R Resp : Type}.
Variable client : nat -> Request -> HTTPResponse (Body Resp).
Variable apiKey : string.
Variable url_at : Z -> URLString.
Variables records forward : Resp -> list R.
Variable results : Resp -> Z.
Variable row : R -> list string.
Variable pageSize : Z.
Variable header : list string.
Variable rowP : list string -> Prop.
Hypothesis row_ok : forall r, rowP (row r).

Let body := page_body client apiKey url_at records forward results row pageSize.

Lemma page_body_counts st :
  sink_counts header rowP st -> sink_counts header rowP (step_state (body st)).
Proof.
  unfold sink_counts, body, page_body.
  destruct (doGet _ _ _ _) as [data|err]; [|done].
  destruct (Unmarshal data) as [resp|err]; [|done].
  intros Hst.
  assert (sink_counts header rowP
            (mkLoop (offset st)
               (if total st =? -1 then results resp else total st)
               (int_add (fetched st) (len (forward resp)))
               (match w st with Some _ => all st | None => all st ++ forward resp end)
               (match w st with
                | Some rows => Some (rows ++ map row (forward resp))
                | None => None
                end)
               (stdout st) (requests st))) as Hnew.
  { unfold sink_counts. cbn [w all fetched].
    destruct (w st) as [rows|].
    - destruct Hst as (Hall & data0 & -> & Hf & Hrows). split; [done|].
      exists (data0 ++ map row (forward resp)). split; [done|]. split.
      + rewrite Hf. unfold int_add, len.
        rewrite wrap_add_l, length_app, length_map. f_equal. lia.
      + apply Forall_app. split; [done|].
        induction (forward resp) as [|r rs IHrs]; simpl; constructor; auto.
    - rewrite Hst. apply int_add_wrap_len. }
  by destruct (_ || _).
Qed.

Lemma loop_counts fuel st :
  sink_counts header rowP st ->
  sink_counts header rowP (outcome_state (loop body fuel st)).
Proof.
  revert st. induction fuel as [|fuel IH]; intros st Hst; simpl; [done|].
  pose proof (page_body_counts st Hst) as Hnext.
  destruct (body st) as [s'|s'|msg s']; simpl in *; auto.
Qed.

End Counts.

Lemma sink_counts_init `{GoLib} {R : Type} header rowP start output :
  sink_counts (R := R) header rowP (loop_init start (sink header output)).
Proof.
  unfold sink_counts, sink, loop_init. cbn [w all fetched].
  destruct (decide (output ≠ "")); [|done].
  split; [done|]. exists []. by repeat split.
Qed.

Section WriterKept.
Context `{GoLib} {R Resp : Type}.
Variable client : nat -> Request -> HTTPResponse (Body Resp).
Variable apiKey : string.
Variable url_at : Z -> URLString.
Variables records forward : Resp -> list R.
Variable results : Resp -> Z.
Variable row : R -> list string.
Variable pageSize : Z.

Let body := page_body client apiKey url_at records forward results row pageSize.

Lemma page_body_writer st :
  w (step_state (body st)) = None <-> w st = None.
Proof.
  unfold body, page_body.
  destruct (doGet _ _ _ _) as [data|err]; [|done].
  destruct (Unmarshal data) as [resp|err]; [|done].
  destruct (_ || _); simpl; by destruct (w st).
Qed.

Lemma loop_writer fuel st :
  w (outcome_state (loop body fuel st)) = None <-> w st = None.
Proof.
  revert st. induction fuel as [|fuel IH]; intros st; simpl; [done|].
  pose proof (page_body_writer st) as Hnext.
  destruct (body st) as [s'|s'|msg s']; simpl in *; [|done..].
  by rewrite IH.
Qed.

End WriterKept.

Lemma outcome_state_after_loop `{GoLib} {R} (finish : Loop R -> Loop R)
    (P : Loop R -> Prop) (o : Outcome (Loop R)) :
  (forall st, P st -> P (finish st)) ->
  P (outcome_state o) -> P (outcome_state (after_loop finish o)).
Proof. intros Hf. destruct o; simpl; auto. Qed.

(** X2. In every state a files or buckets run can reach, whatever the
    server answers and however the run ends, the progress counter is the
    number of records sent to the sink (as an [int64]): without an output
    path there is no writer and it counts the slice in memory; with one,
    the slice stays empty and the writer holds the header followed by as
    many rows as the counter says, each with as many cells as the
    header. *)
Theorem counter_counts_sink :
  (forall (lib : GoLib) client os_Create apiKey keywords bucket ext noext limit start
      output fuel,
     creatable os_Create output ->
     let st := outcome_state
                 (handleFiles client os_Create apiKey keywords bucket ext noext limit
                    start output fuel) in
     (output = "" -> w st = None /\ fetched st = wrap (len (all st)))
     /\ (output ≠ "" ->
         all st = []
         /\ exists data,
              w st = Some (files_header :: data)
              /\ fetched st = wrap (len data)
              /\ Forall (fun r => length r = length files_header) data))
  /\ (forall (lib : GoLib) client os_Create apiKey keywords cloudType limit start
        output onlyBucket fuel,
       creatable os_Create output ->
       let st := outcome_state
                   (handleBuckets client os_Create apiKey keywords cloudType limit
                      start output onlyBucket fuel) in
       (output = "" -> w st = None /\ fetched st = wrap (len (all st)))
       /\ (output ≠ "" ->
           all st = []
           /\ exists data,
                w st = Some (buckets_header onlyBucket :: data)
                /\ fetched st = wrap (len data)
                /\ Forall (fun r => length r = length (buckets_header onlyBucket))
                     data)).
Proof.
  split.
  - intros lib client os_Create apiKey keywords bucket ext noext limit start output
      fuel Hc st.
    assert (sink_counts files_header (fun r => length r = length files_header) st
            /\ (w st = None <-> sink files_header output = None)) as [Hinv Hw].
    { unfold st. rewrite handleFiles_loop by done. rewrite files_body_page.
      apply (outcome_state_after_loop (files_finish output)
               (fun st => sink_counts files_header
                            (fun r => length r = length files_header) st
                          /\ (w st = None <-> sink files_header output = None)));
        [done|].
      split.
      - apply loop_counts; [done|]. apply sink_counts_init.
      - apply loop_writer. }
    unfold sink_counts in Hinv. split.
    + intros ->. rewrite sink_no_output in Hw.
      destruct (w st); [by destruct Hw as [_ Hw]; specialize (Hw eq_refl)|done].
    + intros Hout. rewrite (sink_output _ _ Hout) in Hw.
      destruct (w st) as [rows|]; [|by destruct Hw as [Hw _]; specialize (Hw eq_refl)].
      destruct Hinv as (Hall & data & -> & Hf & Hrows). eauto.
  - intros lib client os_Create apiKey keywords cloudType limit start output
      onlyBucket fuel Hc st.
    assert (sink_counts (buckets_header onlyBucket)
              (fun r => length r = length (buckets_header onlyBucket)) st
            /\ (w st = None <-> sink (buckets_header onlyBucket) output = None))
      as [Hinv Hw].
    { unfold st. rewrite handleBuckets_loop by done. rewrite buckets_body_page.
      apply (outcome_state_after_loop (buckets_finish output onlyBucket)
               (fun st => sink_counts (buckets_header onlyBucket)
                            (fun r => length r = length (buckets_header onlyBucket)) st
                          /\ (w st = None
                              <-> sink (buckets_header onlyBucket) output = None)));
        [done|].
      split.
      - apply loop_counts; [by intros r; destruct onlyBucket|]. apply sink_counts_init.
      - apply loop_writer. }
    unfold sink_counts in Hinv. split.
    + intros ->. rewrite sink_no_output in Hw.
      destruct (w st); [by destruct Hw as [_ Hw]; specialize (Hw eq_refl)|done].
    + intros Hout. rewrite (sink_output _ _ Hout) in Hw.
      destruct (w st) as [rows|]; [|by destruct Hw as [Hw _]; specialize (Hw eq_refl)].
      destruct Hinv as (Hall & data & -> & Hf & Hrows). eauto.
Qed.

Lemma counter_counts_sink_witness :
  (exists data,
     w (outcome_state
          (handleFiles (files_paged [two_files 5; two_files 5; one_file 5]) create_ok
             "key" "report" "" "" "" 2 0 "out.csv" 7))
     = Some (files_header :: data)
     /\ fetched (outcome_state
          (handleFiles (files_paged [two_files 5; two_files 5; one_file 5]) create_ok
             "key" "report" "" "" "" 2 0 "out.csv" 7))
        = wrap (len data))
  /\ fetched (outcome_state
       (handleBuckets (buckets_paged [two_buckets 0; one_bucket 0]) create_ok "key" ""
          "aws" 2 0 "" false 7))
     = wrap (len (all (outcome_state
         (handleBuckets (buckets_paged [two_buckets 0; one_bucket 0]) create_ok "key"
            "" "aws" 2 0 "" false 7)))).
Proof.
  split.
  - destruct (proj1 counter_counts_sink utc_strings
                (files_paged [two_files 5; two_files 5; one_file 5]) create_ok
                "key" "report" "" "" "" 2 0 "out.csv" 7%nat) as [_ Hcsv].
    + intros Hout. reflexivity.
    + destruct Hcsv as (_ & data & Hw & Hf & _); [discriminate|].
      exists data. split; [exact Hw|exact Hf].
  - destruct (proj2 counter_counts_sink utc_strings
                (buckets_paged [two_buckets 0; one_bucket 0]) create_ok "key" ""
                "aws" 2 0 "" false 7%nat) as [Hmem _].
    + intros Hout. reflexivity.
    + destruct (Hmem eq_refl) as [_ Hf]. exact Hf.
Defined.

(** ** The two sinks side by side *)

Section Sinks.
Context `{GoLib} {R Resp : Type}.
Variable client : nat -> Request -> HTTPResponse (Body Resp).
Variable apiKey : string.
Variable url_at : Z -> URLString.
Variables records forward : Resp -> list R.
Variable results : Resp -> Z.
Variable row : R -> list string.
Variable pageSize : Z.
Variable header : list string.

Let body := page_body client apiKey url_at records forward results row pageSize.

Lemma page_body_same_but_sink csv mem :
  same_but_sink header row csv mem ->
  match body csv, body mem with
  | Next a, Next b => same_but_sink header row a b
  | Break a, Break b => same_but_sink header row a b
  | Fatal m a, Fatal m' b => m = m' /\ same_but_sink header row a b
  | _, _ => False
  end.
Proof.
  intros (Ho & Ht & Hf & Hs & Hr & Hall & Hwm & Hwc).
  unfold body, page_body. rewrite Ho, Hr, Ht, Hf, Hs, Hwm, Hwc, ?Hall.
  destruct (doGet _ _ _ _) as [data|err].
  - destruct (Unmarshal data) as [resp|err].
    + destruct (_ || _); unfold same_but_sink;
        cbn [offset total fetched all w stdout requests];
        rewrite ?map_app; by repeat split.
    + unfold same_but_sink; cbn [offset total fetched all w stdout requests].
      by repeat split.
  - unfold same_but_sink; cbn [offset total fetched all w stdout requests].
    by repeat split.
Qed.

Lemma loop_same_but_sink fuel csv mem :
  same_but_sink header row csv mem ->
  same_outcome (same_but_sink header row) (loop body fuel csv) (loop body fuel mem).
Proof.
  revert csv mem. induction fuel as [|fuel IH]; intros csv mem Hrel; simpl; [done|].
  pose proof (page_body_same_but_sink csv mem Hrel) as Hstep.
  destruct (body csv), (body mem); simpl; try done. by apply IH.
Qed.

End Sinks.

Lemma same_but_sink_init `{GoLib} {R : Type} header (row : R -> list string) start :
  same_but_sink header row (loop_init start (Some [header])) (loop_init start None).
Proof. by repeat split. Qed.

(** X3. Asking for a CSV file instead of JSON changes nothing in what a
    files or buckets run fetches: against the same server and with the
    same fuel, the two runs make the same requests and end the same way
    (both still running, both finished, or both aborted with the same
    message), and the rows with the writer are the header followed by the
    rows of exactly the records the JSON run holds, in the same order;
    the CSV run itself keeps no record in memory. *)
Theorem output_format_changes_no_request :
  (forall (lib : GoLib) client os_Create apiKey keywords bucket ext noext limit start
      output fuel,
     output ≠ "" -> os_Create output = None ->
     let csv := handleFiles client os_Create apiKey keywords bucket ext noext limit
                  start output fuel in
     let mem := handleFiles client os_Create apiKey keywords bucket ext noext limit
                  start "" fuel in
     match csv, mem with
     | Finished _, Finished _ | Running _, Running _ => True
     | Aborted m _, Aborted m' _ => m = m'
     | _, _ => False
     end
     /\ requests (outcome_state csv) = requests (outcome_state mem)
     /\ all (outcome_state csv) = []
     /\ w (outcome_state csv)
        = Some (files_header :: map file_row (all (outcome_state mem))))
  /\ (forall (lib : GoLib) client os_Create apiKey keywords cloudType limit start
        output onlyBucket fuel,
       output ≠ "" -> os_Create output = None ->
       let csv := handleBuckets client os_Create apiKey keywords cloudType limit start
                    output onlyBucket fuel in
       let mem := handleBuckets client os_Create apiKey keywords cloudType limit start
                    "" onlyBucket fuel in
       match csv, mem with
       | Finished _, Finished _ | Running _, Running _ => True
       | Aborted m _, Aborted m' _ => m = m'
       | _, _ => False
       end
       /\ requests (outcome_state csv) = requests (outcome_state mem)
       /\ all (outcome_state csv) = []
       /\ w (outcome_state csv)
          = Some (buckets_header onlyBucket
                  :: map (bucket_row onlyBucket) (all (outcome_state mem)))).
Proof.
  split.
  - intros lib client os_Create apiKey keywords bucket ext noext limit start output
      fuel Hout Hcreate csv mem.
    unfold csv, mem.
    rewrite handleFiles_loop by (by intros _).
    rewrite (handleFiles_loop _ _ _ _ _ _ _ _ _ "") by apply creatable_no_output.
    rewrite (sink_output _ _ Hout), sink_no_output, files_body_page.
    pose proof (loop_same_but_sink client apiKey
                  (files_url keywords bucket ext noext (pageSize_of limit))
                  Files Files Files_Meta_Results file_row (pageSize_of limit)
                  files_header fuel _ _ (same_but_sink_init files_header file_row start))
      as Hsim.
    destruct (loop _ fuel (loop_init start (Some [files_header]))) as [a|m a|a],
      (loop _ fuel (loop_init start None)) as [b|m' b|b]; simpl in Hsim; try done.
    + destruct Hsim as (_ & _ & _ & _ & Hr & Hall & _ & Hw). simpl. by repeat split.
    + destruct Hsim as (-> & _ & _ & _ & _ & Hr & Hall & _ & Hw). simpl.
      by repeat split.
    + destruct Hsim as (_ & _ & _ & _ & Hr & Hall & _ & Hw). simpl. by repeat split.
  - intros lib client os_Create apiKey keywords cloudType limit start output
      onlyBucket fuel Hout Hcreate csv mem.
    unfold csv, mem.
    rewrite handleBuckets_loop by (by intros _).
    rewrite (handleBuckets_loop _ _ _ _ _ _ _ "") by apply creatable_no_output.
    rewrite (sink_output _ _ Hout), sink_no_output, buckets_body_page.
    pose proof (loop_same_but_sink client apiKey
                  (buckets_url keywords cloudType (pageSize_of limit))
                  Buckets (fun resp => filter_type cloudType (Buckets resp))
                  Buckets_Meta_Results (bucket_row onlyBucket) (pageSize_of limit)
                  (buckets_header onlyBucket) fuel _ _
                  (same_but_sink_init (buckets_header onlyBucket)
                     (bucket_row onlyBucket) start))
      as Hsim.
    destruct (loop _ fuel (loop_init start (Some [buckets_header onlyBucket])))
      as [a|m a|a],
      (loop _ fuel (loop_init start None)) as [b|m' b|b]; simpl in Hsim; try done.
    + destruct Hsim as (_ & _ & _ & _ & Hr & Hall & _ & Hw). simpl. by repeat split.
    + destruct Hsim as (-> & _ & _ & _ & _ & Hr & Hall & _ & Hw). simpl.
      by repeat split.
    + destruct Hsim as (_ & _ & _ & _ & Hr & Hall & _ & Hw). simpl. by repeat split.
Qed.

Lemma output_format_changes_no_request_witness :
  w (outcome_state
       (handleFiles (files_paged [two_files 5; two_files 5; one_file 5]) create_ok
          "key" "report" "" "" "" 2 0 "out.csv" 7))
  = Some (files_header
          :: map file_row
               (all (outcome_state
                  (handleFiles (files_paged [two_files 5; two_files 5; one_file 5])
                     create_ok "key" "report" "" "" "" 2 0 "" 7))))
  /\ requests (outcome_state
       (handleBuckets (buckets_broken [two_buckets 9] (TransportError "timeout"))
          create_ok "key" "" "" 2 0 "names.csv" true 7))
     = requests (outcome_state
         (handleBuckets (buckets_broken [two_buckets 9] (TransportError "timeout"))
            create_ok "key" "" "" 2 0 "" true 7)).
Proof.
  split.
  - apply (proj1 output_format_changes_no_request utc_strings
             (files_paged [two_files 5; two_files 5; one_file 5]) create_ok "key"
             "report" "" "" "" 2 0 "out.csv" 7%nat); [discriminate|reflexivity].
  - apply (proj2 output_format_changes_no_request utc_strings
             (buckets_broken [two_buckets 9] (TransportError "timeout")) create_ok
             "key" "" "" 2 0 "names.csv" true 7%nat); [discriminate|reflexivity].
Defined.

(** ** Runs that end because the total is reached *)

(** The first turn at which a test holds, below a bound. *)
Lemma first_true (f : nat -> bool) (n : nat) :
  (forall i, (i < n)%nat -> f i = false)
  \/ (exists m, (m < n)%nat /\ f m = true /\ forall i, (i < m)%nat -> f i = false).
Proof.
  induction n as [|n [IH|(m & Hm & Hf & Hlt)]].
  - left. lia.
  - destruct (f n) eqn:Hn.
    + right. exists n. eauto.
    + left. intros i Hi. destruct (decide (i = n)) as [->|]; [done|]. apply IH. lia.
  - right. exists m. split; [lia|done].
Qed.

Lemma stops_when_total_reached P start counts reported n :
  is_int start -> 0 <= P -> 0 < reported 0%nat ->
  reported 0%nat <= start + (Z.of_nat n + 1) * P <= int_max ->
  stops P start counts reported n = true.
Proof.
  intros Hs HP HT Hreach. unfold stops.
  rewrite total_before_first by lia. rewrite offset_at_wrap by done.
  unfold int_add. rewrite wrap_add_l.
  rewrite wrap_id by (unfold is_int in *; unfold int_min in *; lia).
  apply orb_true_iff. right. apply andb_true_iff.
  rewrite Z.gtb_ltb, Z.ltb_lt, Z.geb_leb, Z.leb_le. lia.
Qed.

(** X4. A run whose first envelope reports a positive total T ends, as
    long as the server keeps answering: if start + N * pageSize reaches T
    (and fits an [int]) for some N >= 1, then with fuel for N turns the
    run has finished, after at most N requests. *)
Theorem known_total_terminates :
  (forall (lib : GoLib) client os_Create apiKey keywords bucket ext noext limit start
      output pages N fuel,
     creatable os_Create output -> is_int start ->
     0 < Files_Meta_Results (pages 0%nat) ->
     (forall i, (i < N)%nat ->
        files_serves client apiKey keywords bucket ext noext (pageSize_of limit)
          start pages i) ->
     (1 <= N)%nat ->
     Files_Meta_Results (pages 0%nat) <= start + Z.of_nat N * pageSize_of limit
       <= int_max ->
     (N <= fuel)%nat ->
     exists st,
       handleFiles client os_Create apiKey keywords bucket ext noext limit start
         output fuel = Finished st
       /\ (1 <= length (requests st) <= N)%nat)
  /\ (forall (lib : GoLib) client os_Create apiKey keywords cloudType limit start
        output onlyBucket pages N fuel,
       creatable os_Create output -> is_int start ->
       0 < Buckets_Meta_Results (pages 0%nat) ->
       (forall i, (i < N)%nat ->
          buckets_serves client apiKey keywords cloudType (pageSize_of limit) start
            pages i) ->
       (1 <= N)%nat ->
       Buckets_Meta_Results (pages 0%nat) <= start + Z.of_nat N * pageSize_of limit
         <= int_max ->
       (N <= fuel)%nat ->
       exists st,
         handleBuckets client os_Create apiKey keywords cloudType limit start output
           onlyBucket fuel = Finished st
         /\ (1 <= length (requests st) <= N)%nat).
Proof.
  split.
  - intros lib client os_Create apiKey keywords bucket ext noext limit start output
      pages N fuel Hc Hstart HT Hs HN Hreach Hfuel.
    pose proof (pageSize_of_bounds limit) as HP.
    destruct (first_true (files_stops (pageSize_of limit) start pages) N)
      as [Hnone|(m & Hm & Hstop & Hbefore)].
    + assert (files_stops (pageSize_of limit) start pages (N - 1) = true) as Hlast.
      { apply stops_when_total_reached; [done|lia|done|].
        replace (Z.of_nat (N - 1) + 1) with (Z.of_nat N) by lia. done. }
      rewrite Hnone in Hlast by lia. done.
    + eexists. split.
      * apply handleFiles_breaks with (pages := pages) (k := m); [done| |apply Hs; lia|done|lia].
        intros i Hi. split; [apply Hs; lia|by apply Hbefore].
      * unfold files_finish, state_stopped, state_before. cbn [requests].
        rewrite length_requests_before. lia.
  - intros lib client os_Create apiKey keywords cloudType limit start output
      onlyBucket pages N fuel Hc Hstart HT Hs HN Hreach Hfuel.
    pose proof (pageSize_of_bounds limit) as HP.
    destruct (first_true (buckets_stops (pageSize_of limit) start pages) N)
      as [Hnone|(m & Hm & Hstop & Hbefore)].
    + assert (buckets_stops (pageSize_of limit) start pages (N - 1) = true) as Hlast.
      { apply stops_when_total_reached; [done|lia|done|].
        replace (Z.of_nat (N - 1) + 1) with (Z.of_nat N) by lia. done. }
      rewrite Hnone in Hlast by lia. done.
    + eexists. split.
      * apply handleBuckets_breaks with (pages := pages) (k := m);
          [done| |apply Hs; lia|done|lia].
        intros i Hi. split; [apply Hs; lia|by apply Hbefore].
      * unfold buckets_finish, state_stopped, state_before. cbn [requests].
        rewrite length_requests_before. lia.
Qed.

Lemma known_total_terminates_witness :
  (exists st,
     handleFiles (files_server (two_files 7)) create_ok "key" "report" "" "" "" 2 0 ""
       4 = Finished st
     /\ (1 <= length (requests st) <= 4)%nat)
  /\ (exists st,
        handleBuckets (buckets_server (two_buckets 3)) create_ok "key" "" "" 2 0 ""
          false 2 = Finished st
        /\ (1 <= length (requests st) <= 2)%nat).
Proof.
  split.
  - apply (proj1 known_total_terminates utc_strings (files_server (two_files 7))
             create_ok "key" "report" "" "" "" 2 0 "" (fun _ => two_files 7) 4%nat
             4%nat).
    + intros Hout. reflexivity.
    + exact is_int_0.
    + reflexivity.
    + intros i Hi. reflexivity.
    + lia.
    + vm_compute. split; discriminate.
    + lia.
  - apply (proj2 known_total_terminates utc_strings (buckets_server (two_buckets 3))
             create_ok "key" "" "" 2 0 "" false (fun _ => two_buckets 3) 2%nat 2%nat).
    + intros Hout. reflexivity.
    + exact is_int_0.
    + reflexivity.
    + intros i Hi. reflexivity.
    + lia.
    + vm_compute. split; discriminate.
    + lia.
Defined.

(** ** An envelope that reports -1 *)

Lemma total_before_all_sentinel (reported : nat -> Z) i :
  (forall j, (j < i)%nat -> reported j = -1) -> total_before reported i = -1.
Proof.
  induction i as [|i IH]; intros Hall; [done|].
  cbn [total_before]. rewrite IH by (intros; apply Hall; lia).
  simpl. apply Hall. lia.
Qed.

Lemma total_before_late (reported : nat -> Z) m i :
  (forall j, (j < m)%nat -> reported j = -1) -> reported m ≠ -1 -> (m <= i)%nat ->
  total_before reported (S i) = reported m.
Proof.
  intros Hall Hm Hle. induction i as [|i IH].
  - assert (m = 0%nat) as -> by lia. done.
  - destruct (decide (m = S i)) as [->|Hne].
    + change (total_before reported (S (S i)))
        with (if total_before reported (S i) =? -1 then reported (S i)
              else total_before reported (S i)).
      by rewrite total_before_all_sentinel.
    + change (total_before reported (S (S i)))
        with (if total_before reported (S i) =? -1 then reported (S i)
              else total_before reported (S i)).
      rewrite IH by lia. destruct (reported m =? -1) eqn:E; [lia|done].
Qed.

(** X5. The value -1 is also the loops' sentinel: an envelope that
    reports -1 leaves [total] at the sentinel, so the total is taken from
    the first page that reports anything else and kept from then on, and
    it is still -1 while every page has reported -1. *)
Theorem total_is_first_reported_other_than_sentinel :
  (forall (lib : GoLib) client os_Create apiKey keywords bucket ext noext limit start
      output pages k,
     creatable os_Create output ->
     (forall i, (i <= k)%nat ->
        files_serves client apiKey keywords bucket ext noext (pageSize_of limit)
          start pages i) ->
     (forall i, (i < k)%nat -> files_stops (pageSize_of limit) start pages i = false) ->
     ((forall j, (j <= k)%nat -> Files_Meta_Results (pages j) = -1) ->
      total (outcome_state
        (handleFiles client os_Create apiKey keywords bucket ext noext limit start
           output (S k))) = -1)
     /\ (forall m, (m <= k)%nat ->
           (forall j, (j < m)%nat -> Files_Meta_Results (pages j) = -1) ->
           Files_Meta_Results (pages m) ≠ -1 ->
           total (outcome_state
             (handleFiles client os_Create apiKey keywords bucket ext noext limit
                start output (S k))) = Files_Meta_Results (pages m)))
  /\ (forall (lib : GoLib) client os_Create apiKey keywords cloudType limit start
        output onlyBucket pages k,
       creatable os_Create output ->
       (forall i, (i <= k)%nat ->
          buckets_serves client apiKey keywords cloudType (pageSize_of limit) start
            pages i) ->
       (forall i, (i < k)%nat ->
          buckets_stops (pageSize_of limit) start pages i = false) ->
       ((forall j, (j <= k)%nat -> Buckets_Meta_Results (pages j) = -1) ->
        total (outcome_state
          (handleBuckets client os_Create apiKey keywords cloudType limit start output
             onlyBucket (S k))) = -1)
       /\ (forall m, (m <= k)%nat ->
             (forall j, (j < m)%nat -> Buckets_Meta_Results (pages j) = -1) ->
             Buckets_Meta_Results (pages m) ≠ -1 ->
             total (outcome_state
               (handleBuckets client os_Create apiKey keywords cloudType limit start
                  output onlyBucket (S k))) = Buckets_Meta_Results (pages m))).
Proof.
  split.
  - intros lib client os_Create apiKey keywords bucket ext noext limit start output
      pages k Hc Hs Hn.
    rewrite handleFiles_turn with (pages := pages);
      [|done|intros; split; [apply Hs; lia|by apply Hn]|apply Hs; lia].
    assert (total (outcome_state
              (if files_stops (pageSize_of limit) start pages k
               then Finished (files_finish output
                      (state_stopped apiKey
                         (files_url keywords bucket ext noext (pageSize_of limit))
                         Files Files_Meta_Results file_row (pageSize_of limit) start
                         (sink files_header output) pages k))
               else Running
                      (state_before apiKey
                         (files_url keywords bucket ext noext (pageSize_of limit))
                         Files Files_Meta_Results file_row (pageSize_of limit) start
                         (sink files_header output) pages (S k))))
            = total_before (reported_of Files_Meta_Results pages) (S k)) as ->.
    { by destruct (files_stops _ _ _ _). }
    split.
    + intros Hall. apply total_before_all_sentinel. intros j Hj. apply Hall. lia.
    + intros m Hm Hall Hne.
      by apply (total_before_late (reported_of Files_Meta_Results pages) m k).
  - intros lib client os_Create apiKey keywords cloudType limit start output
      onlyBucket pages k Hc Hs Hn.
    rewrite handleBuckets_turn with (pages := pages);
      [|done|intros; split; [apply Hs; lia|by apply Hn]|apply Hs; lia].
    assert (total (outcome_state
              (if buckets_stops (pageSize_of limit) start pages k
               then Finished (buckets_finish output onlyBucket
                      (state_stopped apiKey
                         (buckets_url keywords cloudType (pageSize_of limit))
                         (fun resp => filter_type cloudType (Buckets resp))
                         Buckets_Meta_Results (bucket_row onlyBucket)
                         (pageSize_of limit) start
                         (sink (buckets_header onlyBucket) output) pages k))
               else Running
                      (state_before apiKey
                         (buckets_url keywords cloudType (pageSize_of limit))
                         (fun resp => filter_type cloudType (Buckets resp))
                         Buckets_Meta_Results (bucket_row onlyBucket)
                         (pageSize_of limit) start
                         (sink (buckets_header onlyBucket) output) pages (S k))))
            = total_before (reported_of Buckets_Meta_Results pages) (S k)) as ->.
    { by destruct (buckets_stops _ _ _ _). }
    split.
    + intros Hall. apply total_before_all_sentinel. intros j Hj. apply Hall. lia.
    + intros m Hm Hall Hne.
      by apply (total_before_late (reported_of Buckets_Meta_Results pages) m k).
Qed.

Lemma total_is_first_reported_other_than_sentinel_witness :
  total (outcome_state
    (handleFiles (files_paged [two_files (-1); two_files 40; two_files 9]) create_ok
       "key" "report" "" "" "" 2 0 "" 3)) = 40
  /\ total (outcome_state
       (handleBuckets (buckets_paged [two_buckets (-1); two_buckets (-1)]) create_ok
          "key" "" "" 2 0 "" false 2)) = -1.
Proof.
  split.
  - apply (proj2 (proj1 total_is_first_reported_other_than_sentinel utc_strings
                    (files_paged [two_files (-1); two_files 40; two_files 9]) create_ok
                    "key" "report" "" "" "" 2 0 ""
                    (files_pages [two_files (-1); two_files 40; two_files 9]) 2%nat
                    ltac:(intros Hout; reflexivity)
                    ltac:(intros i Hi; reflexivity)
                    ltac:(intros i Hi; destruct i as [|[|i]];
                          [vm_compute; reflexivity..|lia]))
             1%nat).
    + lia.
    + intros j Hj. assert (j = 0%nat) as -> by lia. reflexivity.
    + vm_compute. discriminate.
  - apply (proj1 (proj2 total_is_first_reported_other_than_sentinel utc_strings
                    (buckets_paged [two_buckets (-1); two_buckets (-1)]) create_ok
                    "key" "" "" 2 0 "" false
                    (buckets_pages [two_buckets (-1); two_buckets (-1)]) 1%nat
                    ltac:(intros Hout; reflexivity)
                    ltac:(intros i Hi; reflexivity)
                    ltac:(intros i Hi; assert (i = 0%nat) as -> by lia;
                          vm_compute; reflexivity))).
    intros j Hj. destruct j as [|[|j]]; [reflexivity..|lia].
Defined.

(** ** What a finished run leaves in the file and on the console *)

Lemma filter_type_none `{GoLib} buckets : filter_type "" buckets = buckets.
Proof. reflexivity. Qed.

(** X6. A files or buckets run with an output path that ends has handed
    to the CSV writer the header and then one row per record sent to the
    sink, page after page in arrival order, and nothing else; after the
    progress chunks the console shows a line break and
    "completed, saved to <path>". *)
Theorem csv_export_rows :
  (forall (lib : GoLib) client os_Create apiKey keywords bucket ext noext limit start
      output pages k fuel,
     output ≠ "" -> os_Create output = None ->
     (forall i, (i <= k)%nat ->
        files_serves client apiKey keywords bucket ext noext (pageSize_of limit)
          start pages i) ->
     (forall i, (i < k)%nat -> files_stops (pageSize_of limit) start pages i = false) ->
     files_stops (pageSize_of limit) start pages k = true ->
     (k < fuel)%nat ->
     exists st,
       handleFiles client os_Create apiKey keywords bucket ext noext limit start
         output fuel = Finished st
       /\ w st = Some (files_header
                       :: map file_row
                            (concat (map (fun i => Files (pages i)) (seq 0 (S k)))))
       /\ drop (S k) (stdout st)
          = [Text nl; Text ("completed, saved to " +:+ output +:+ nl)])
  /\ (forall (lib : GoLib) client os_Create apiKey keywords cloudType limit start
        output onlyBucket pages k fuel,
       output ≠ "" -> os_Create output = None ->
       (forall i, (i <= k)%nat ->
          buckets_serves client apiKey keywords cloudType (pageSize_of limit) start
            pages i) ->
       (forall i, (i < k)%nat ->
          buckets_stops (pageSize_of limit) start pages i = false) ->
       buckets_stops (pageSize_of limit) start pages k = true ->
       (k < fuel)%nat ->
       exists st,
         handleBuckets client os_Create apiKey keywords cloudType limit start output
           onlyBucket fuel = Finished st
         /\ w st = Some (buckets_header onlyBucket
                         :: map (bucket_row onlyBucket)
                              (concat (map (fun i =>
                                              filter_type cloudType (Buckets (pages i)))
                                         (seq 0 (S k)))))
         /\ drop (S k) (stdout st)
            = [Text nl; Text ("completed, saved to " +:+ output +:+ nl)]).
Proof.
  split.
  - intros lib client os_Create apiKey keywords bucket ext noext limit start output
      pages k fuel Hout Hcreate Hs Hn Hk Hfuel.
    eexists. split.
    + apply handleFiles_breaks with (pages := pages) (k := k);
        [by intros _| |apply Hs; lia|done..].
      intros i Hi. split; [apply Hs; lia|by apply Hn].
    + rewrite (sink_output _ _ Hout).
      unfold files_finish, state_stopped, state_before. cbn [w stdout].
      split; [done|].
      by rewrite drop_app_length' by (symmetry; apply length_progress_before).
  - intros lib client os_Create apiKey keywords cloudType limit start output
      onlyBucket pages k fuel Hout Hcreate Hs Hn Hk Hfuel.
    eexists. split.
    + apply handleBuckets_breaks with (pages := pages) (k := k);
        [by intros _| |apply Hs; lia|done..].
      intros i Hi. split; [apply Hs; lia|by apply Hn].
    + rewrite (sink_output _ _ Hout).
      unfold buckets_finish, state_stopped, state_before. cbn [w stdout].
      split; [done|].
      by rewrite drop_app_length' by (symmetry; apply length_progress_before).
Qed.

Lemma csv_export_rows_witness :
  (exists st,
     handleFiles (files_paged [two_files 5; two_files 5; one_file 5]) create_ok "key"
       "report" "" "" "" 2 0 "out.csv" 7 = Finished st
     /\ option_map (map (fun r => nth 3 r "")) (w st)
        = Some ["name"; "a.pdf"; "b.pdf"; "a.pdf"; "b.pdf"; "c.pdf"])
  /\ (exists st,
        handleBuckets (buckets_server three_aws_two_azure) create_ok "key" "" "aws" 10
          0 "names.csv" true 7 = Finished st
        /\ w st = Some [["bucket"]; ["logs"]; ["media"]; ["mail"]]).
Proof.
  split.
  - destruct (proj1 csv_export_rows utc_strings
                (files_paged [two_files 5; two_files 5; one_file 5]) create_ok "key"
                "report" "" "" "" 2 0 "out.csv"
                (files_pages [two_files 5; two_files 5; one_file 5]) 2%nat 7%nat)
      as (st & Hrun & Hw & _).
    + discriminate.
    + reflexivity.
    + intros i Hi. reflexivity.
    + intros i Hi. destruct i as [|[|i]]; [vm_compute; reflexivity..|lia].
    + vm_compute. reflexivity.
    + lia.
    + exists st. split; [exact Hrun|]. rewrite Hw. reflexivity.
  - destruct (proj2 csv_export_rows utc_strings (buckets_server three_aws_two_azure)
                create_ok "key" "" "aws" 10 0 "names.csv" true
                (fun _ => three_aws_two_azure) 0%nat 7%nat)
      as (st & Hrun & Hw & _).
    + discriminate.
    + reflexivity.
    + intros i Hi. reflexivity.
    + intros i Hi. lia.
    + vm_compute. reflexivity.
    + lia.
    + exists st. split; [exact Hrun|]. rewrite Hw. reflexivity.
Defined.

(** X7. A buckets run without an output path that ends holds in memory
    the buckets the type filter kept, page after page in arrival order
    (every bucket when no type was given), and prints after the progress
    chunks a line break and then, in names-only mode, one line per bucket
    with its name and nothing when there is none; otherwise the
    pretty-printed JSON array of the buckets, or [null] when there is
    none. *)
Theorem buckets_console_output (lib : GoLib) client os_Create apiKey keywords
    cloudType limit start onlyBucket pages k fuel :
  (forall i, (i <= k)%nat ->
     buckets_serves client apiKey keywords cloudType (pageSize_of limit) start pages i) ->
  (forall i, (i < k)%nat -> buckets_stops (pageSize_of limit) start pages i = false) ->
  buckets_stops (pageSize_of limit) start pages k = true ->
  (k < fuel)%nat ->
  exists st,
    handleBuckets client os_Create apiKey keywords cloudType limit start ""
      onlyBucket fuel = Finished st
    /\ all st
       = concat (map (fun i => filter_type cloudType (Buckets (pages i))) (seq 0 (S k)))
    /\ (cloudType = "" ->
        all st = concat (map (fun i => Buckets (pages i)) (seq 0 (S k))))
    /\ drop (S k) (stdout st)
       = Text nl
         :: (if onlyBucket
             then map (fun b => Text (Bucket_Bucket b +:+ nl)) (all st)
             else [JSONIndent
                     match all st with
                     | [] => JNull
                     | _ :: _ => JArray (map marshal_Bucket (all st))
                     end]).
Proof.
  intros Hs Hn Hk Hfuel. eexists. split.
  - apply handleBuckets_breaks with (pages := pages) (k := k);
      [apply creatable_no_output| |apply Hs; lia|done..].
    intros i Hi. split; [apply Hs; lia|by apply Hn].
  - rewrite sink_no_output.
    unfold buckets_finish, state_stopped, state_before. cbn [all w stdout].
    split; [done|]. split; [by intros ->|].
    rewrite drop_app_length' by (symmetry; apply length_progress_before).
    unfold marshal_slice. destruct onlyBucket; [done|].
    by destruct (forwarded_before _ _ _).
Qed.

Lemma buckets_console_output_witness :
  (exists st,
     handleBuckets (buckets_paged [two_buckets 0; one_bucket 0]) create_ok "key" "" ""
       2 0 "" true 5 = Finished st
     /\ drop 2 (stdout st)
        = [Text nl; Text ("logs" +:+ nl); Text ("media" +:+ nl); Text ("dumps" +:+ nl)])
  /\ (exists st,
        handleBuckets (buckets_server (two_azure 0)) create_ok "key" "" "aws" 10 0 ""
          false 5 = Finished st
        /\ drop 1 (stdout st) = [Text nl; JSONIndent JNull]).
Proof.
  split.
  - destruct (buckets_console_output utc_strings
                (buckets_paged [two_buckets 0; one_bucket 0]) create_ok "key" "" "" 2 0
                true (buckets_pages [two_buckets 0; one_bucket 0]) 1%nat 5%nat)
      as (st & Hrun & Hall & _ & Hout).
    + intros i Hi. reflexivity.
    + intros i Hi. assert (i = 0%nat) as -> by lia. vm_compute. reflexivity.
    + vm_compute. reflexivity.
    + lia.
    + exists st. split; [exact Hrun|]. rewrite Hout, Hall. reflexivity.
  - destruct (buckets_console_output utc_strings (buckets_server (two_azure 0))
                create_ok "key" "" "aws" 10 0 false (fun _ => two_azure 0) 0%nat 5%nat)
      as (st & Hrun & Hall & _ & Hout).
    + intros i Hi. reflexivity.
    + intros i Hi. lia.
    + vm_compute. reflexivity.
    + lia.
    + exists st. split; [exact Hrun|]. rewrite Hout, Hall. reflexivity.
Defined.

(** X8. For every bucket record the full CSV row and the JSON object
    have the same four columns in the same order.  The cells of bucket,
    fileCount and type show the value of the JSON member, and the cell
    of id is [fmt.Sprint] of the decoded value the JSON member carries.
    On identifiers as [encoding/json] decodes them (a string, or a
    number that is an integer of magnitude at most 2^53) the whole row
    shows the values of the JSON object exactly when the id is a string
    or an integer of at most six digits. *)
Theorem bucket_row_against_json_object :
  (forall (lib : GoLib) (b : Bucket),
     exists members,
       marshal_Bucket b = JObject members
       /\ map fst members = buckets_header false
       /\ Forall2
            (fun member cell =>
               if decide (fst member = "id")
               then exists a, snd member = JAny a /\ cell = Sprint a
               else member_text (snd member) = Some cell)
            members (bucket_row false b))
  /\ (forall b : @Bucket utc_decoded,
        representable (Bucket_ID b) ->
        exists members,
          marshal_Bucket b = JObject members
          /\ (Forall2 same_value members (bucket_row false b)
              <-> few_digits (Bucket_ID b))).
Proof.
  split.
  - intros lib b. eexists. split; [reflexivity|]. split; [reflexivity|].
    repeat constructor; simpl; eauto.
  - intros b _. eexists. split; [reflexivity|]. split.
    + intros Hrow. apply Forall2_cons_1 in Hrow as [Hid _].
      apply Sprint_decoded_json_text. exact Hid.
    + intros Hid. apply Sprint_decoded_json_text in Hid.
      repeat constructor. exact Hid.
Qed.

Lemma bucket_row_against_json_object_witness :
  exists members,
    marshal_Bucket (bucket_of_id (DNumber 987654)) = JObject members
    /\ (Forall2 same_value members (bucket_row false (bucket_of_id (DNumber 987654)))
        <-> few_digits (DNumber 987654)).
Proof.
  apply (proj2 bucket_row_against_json_object (bucket_of_id (DNumber 987654))).
  simpl. lia.
Defined.

(** ** The URLs *)

Lemma buildURL_lookup (path : string) (params : gmap string string) (key : string) :
  url_query (buildURL path params) !! key
  = match params !! key with
    | Some v => sent_if_set v
    | None => None
    end.
Proof.
  unfold buildURL, sent_if_set. cbn [url_query]. rewrite map_lookup_filter.
  destruct (params !! key) as [v|]; [|done]. simpl.
  destruct (decide (v = "")) as [->|Hne].
  - by rewrite option_guard_False by (simpl; auto).
  - by rewrite option_guard_True.
Qed.

(** X9. [buildURL] appends the path to the base URL and sets exactly
    the parameters whose value is not empty, each to its value: a
    parameter that is absent or empty is not in the query, and no
    parameter of the query has an empty value. *)
Theorem buildURL_query (path : string) (params : gmap string string) (key : string) :
  url_endpoint (buildURL path params) = baseURL +:+ path
  /\ url_query (buildURL path params) !! key
     = match params !! key with
       | Some v => sent_if_set v
       | None => None
       end
  /\ url_query (buildURL path params) !! key ≠ Some "".
Proof.
  split; [done|]. split; [apply buildURL_lookup|].
  rewrite buildURL_lookup. unfold sent_if_set.
  destruct (params !! key) as [v|]; [|done].
  destruct (decide (v = "")); congruence.
Qed.

Section RunRequests.
Context `{GoLib}.

Lemma files_url_query keywords bucket ext noext pageSize o key :
  url_query (files_url keywords bucket ext noext pageSize o) !! key
  = if decide (key = "keywords") then sent_if_set keywords
    else if decide (key = "bucket") then sent_if_set bucket
    else if decide (key = "extensions") then sent_if_set ext
    else if decide (key = "stopextensions") then sent_if_set noext
    else if decide (key = "limit") then Some (Sprintf_d pageSize)
    else if decide (key = "start") then Some (Sprintf_d o)
    else None.
Proof.
  unfold files_url. rewrite buildURL_lookup.
  repeat (case_decide; [subst key; simplify_map_eq; try done;
                        unfold sent_if_set;
                        by destruct (decide (_ = "")) as [E|E];
                          [destruct (Sprintf_d_nonempty _ E)|]|]).
  by simplify_map_eq.
Qed.

Lemma buckets_url_query keywords cloudType pageSize o key :
  url_query (buckets_url keywords cloudType pageSize o) !! key
  = if decide (key = "keywords") then sent_if_set keywords
    else if decide (key = "type") then sent_if_set cloudType
    else if decide (key = "limit") then Some (Sprintf_d pageSize)
    else if decide (key = "start") then Some (Sprintf_d o)
    else None.
Proof.
  unfold buckets_url. rewrite buildURL_lookup.
  repeat (case_decide; [subst key; simplify_map_eq; try done;
                        unfold sent_if_set;
                        by destruct (decide (_ = "")) as [E|E];
                          [destruct (Sprintf_d_nonempty _ E)|]|]).
  by simplify_map_eq.
Qed.

End RunRequests.

(** X10. Every request a files or buckets run makes, against any
    server and however the run ends, is a GET to the command's endpoint
    with the key as bearer token, and its query holds the filters that
    are not empty, the effective page size as [limit] and an offset as
    [start], and no other parameter: the requests of a run differ in
    [start] only. *)
Theorem requests_of_a_run :
  (forall (lib : GoLib) client os_Create apiKey keywords bucket ext noext limit start
      output fuel,
     Forall
       (fun r =>
          req_method r = "GET"
          /\ req_Authorization r = "Bearer " +:+ apiKey
          /\ url_endpoint (req_url r) = baseURL +:+ "/files"
          /\ exists o, forall key,
               url_query (req_url r) !! key
               = if decide (key = "keywords") then sent_if_set keywords
                 else if decide (key = "bucket") then sent_if_set bucket
                 else if decide (key = "extensions") then sent_if_set ext
                 else if decide (key = "stopextensions") then sent_if_set noext
                 else if decide (key = "limit") then Some (Sprintf_d (pageSize_of limit))
                 else if decide (key = "start") then Some (Sprintf_d o)
                 else None)
       (requests (outcome_state
          (handleFiles client os_Create apiKey keywords bucket ext noext limit start
             output fuel))))
  /\ (forall (lib : GoLib) client os_Create apiKey keywords cloudType limit start
        output onlyBucket fuel,
       Forall
         (fun r =>
            req_method r = "GET"
            /\ req_Authorization r = "Bearer " +:+ apiKey
            /\ url_endpoint (req_url r) = baseURL +:+ "/buckets"
            /\ exists o, forall key,
                 url_query (req_url r) !! key
                 = if decide (key = "keywords") then sent_if_set keywords
                   else if decide (key = "type") then sent_if_set cloudType
                   else if decide (key = "limit")
                        then Some (Sprintf_d (pageSize_of limit))
                   else if decide (key = "start") then Some (Sprintf_d o)
                   else None)
         (requests (outcome_state
            (handleBuckets client os_Create apiKey keywords cloudType limit start
               output onlyBucket fuel)))).
Proof.
  split.
  - intros. apply handleFiles_requests_Forall. intros o.
    repeat split. exists o. intros key. apply files_url_query.
  - intros. apply handleBuckets_requests_Forall. intros o.
    repeat split. exists o. intros key. apply buckets_url_query.
Qed.

(** ** The command line *)

Lemma byte_val_inj a b : byte_val a = byte_val b -> a = b.
Proof.
  unfold byte_val. intros Hab%N2Z.inj.
  rewrite <- (ascii_N_embedding a), <- (ascii_N_embedding b). by rewrite Hab.
Qed.

Lemma byte_val_lower_ascii c : byte_val (lower_ascii c) = lower_byte (byte_val c).
Proof.
  unfold lower_ascii, lower_byte.
  destruct ((65 <=? byte_val c) && (byte_val c <=? 90)) eqn:E; [|done].
  apply andb_true_iff in E as [Hlo%Z.leb_le Hhi%Z.leb_le].
  unfold byte_val in *. rewrite N_ascii_embedding by lia. lia.
Qed.

Lemma string_bytes_inj s t : string_bytes s = string_bytes t -> s = t.
Proof.
  revert t. induction s as [|a s IH]; intros [|b t]; simpl; try done.
  intros [= Hab Hst]. f_equal; [by apply byte_val_inj|by apply IH].
Qed.

Lemma string_bytes_map_lower s : string_bytes (map_lower_ascii s) = lower_key s.
Proof.
  induction s as [|c s IH]; [done|]. simpl. by rewrite byte_val_lower_ascii, IH.
Qed.

Lemma ToLower_ascii unicode s t :
  is_ascii s = true -> ToLower unicode s = t <-> lower_key s = string_bytes t.
Proof.
  intros Hs. unfold ToLower. rewrite Hs, <- string_bytes_map_lower. split.
  - by intros ->.
  - apply string_bytes_inj.
Qed.

(** X11. [main] refuses to run without an API key, whatever the
    command.  With a key, a command written in ASCII selects its handler
    by its letters, in any case: files, buckets or stats, each called with
    the flags that concern it; every other ASCII command ends the process
    with "unknown cmd" and the command as it was typed. *)
Theorem main_dispatch (lib : GoLib) (m : Machine) (flags : Flags) (fuel : nat) :
  (flag_apikey flags = "" ->
   main m flags fuel = Fatal_in_main ("missing api key" +:+ nl))
  /\ (flag_apikey flags ≠ "" -> is_ascii (flag_cmd flags) = true ->
      (lower_key (flag_cmd flags) = lower_key "files" ->
       main m flags fuel
       = Files_ran
           (handleFiles (files_api m) (os_Create m) (flag_apikey flags)
              (flag_keywords flags) (flag_bucket flags) (flag_ext flags)
              (flag_noext flags) (flag_limit flags) (flag_start flags) (flag_o flags)
              fuel))
      /\ (lower_key (flag_cmd flags) = lower_key "buckets" ->
          main m flags fuel
          = Buckets_ran
              (handleBuckets (buckets_api m) (os_Create m) (flag_apikey flags)
                 (flag_keywords flags) (flag_type flags) (flag_limit flags)
                 (flag_start flags) (flag_o flags) (flag_onlybucket flags) fuel))
      /\ (lower_key (flag_cmd flags) = lower_key "stats" ->
          main m flags fuel
          = Stats_ran
              (handleStats (stats_api m) (os_WriteFile m) (flag_apikey flags)
                 (flag_o flags)))
      /\ (lower_key (flag_cmd flags) ≠ lower_key "files" ->
          lower_key (flag_cmd flags) ≠ lower_key "buckets" ->
          lower_key (flag_cmd flags) ≠ lower_key "stats" ->
          main m flags fuel
          = Fatal_in_main ("unknown cmd " +:+ flag_cmd flags +:+ nl))).
Proof.
  split.
  - intros Hkey. unfold main. by destruct (decide (flag_apikey flags = "")).
  - intros Hkey Hascii. unfold main.
    destruct (decide (flag_apikey flags = "")) as [|_]; [done|].
    pose proof (ToLower_ascii (Map_unicode_ToLower m) (flag_cmd flags) "files" Hascii)
      as Hfiles.
    pose proof (ToLower_ascii (Map_unicode_ToLower m) (flag_cmd flags) "buckets" Hascii)
      as Hbuckets.
    pose proof (ToLower_ascii (Map_unicode_ToLower m) (flag_cmd flags) "stats" Hascii)
      as Hstats.
    change (string_bytes "files") with (lower_key "files") in Hfiles.
    change (string_bytes "buckets") with (lower_key "buckets") in Hbuckets.
    change (string_bytes "stats") with (lower_key "stats") in Hstats.
    split; [|split; [|split]].
    + intros Hc. apply Hfiles in Hc. by rewrite Hc.
    + intros Hc. apply Hbuckets in Hc. by rewrite Hc.
    + intros Hc. apply Hstats in Hc. by rewrite Hc.
    + intros Hnf Hnb Hns.
      destruct (decide (_ = "files")) as [E|_]; [by apply Hfiles in E|].
      destruct (decide (_ = "buckets")) as [E|_]; [by apply Hbuckets in E|].
      destruct (decide (_ = "stats")) as [E|_]; [by apply Hstats in E|].
      done.
Qed.

Lemma main_dispatch_witness :
  main sample_machine (sample_flags "" "stats") 3
  = Fatal_in_main ("missing api key" +:+ nl)
  /\ main sample_machine (sample_flags "key" "Stats") 3
     = Stats_ran (handleStats (stats_server stats_body) write_ok "key" "")
  /\ main sample_machine (sample_flags "key" "file") 3
     = Fatal_in_main ("unknown cmd file" +:+ nl).
Proof.
  split; [|split].
  - apply (proj1 (main_dispatch utc_strings sample_machine (sample_flags "" "stats")
                    3%nat)).
    reflexivity.
  - destruct (proj2 (main_dispatch utc_strings sample_machine
                       (sample_flags "key" "Stats") 3%nat))
      as (_ & _ & Hstats & _); [discriminate|reflexivity|].
    apply Hstats. reflexivity.
  - destruct (proj2 (main_dispatch utc_strings sample_machine
                       (sample_flags "key" "file") 3%nat))
      as (_ & _ & _ & Hother); [discriminate|reflexivity|].
    apply Hother; vm_compute; discriminate.
Defined.

(** ** Failures outside the loop *)

(** X12. The stats command makes one request, a GET of the stats
    endpoint without any parameter and with the key as bearer token.
    [os.WriteFile] is called only with an output path and after a
    response with status 200.  When the request fails in transport or
    its status is not 200 the command aborts with "request error: ..."
    having written nothing to standard output and called [os.WriteFile]
    on no path.  When [os.WriteFile] fails the command aborts with
    "write file: ..." having written nothing to standard output, no
    "stats saved" line either; the output path is the one path the
    failed call may have created, emptied or written in part. *)
Theorem stats_failure_aborts (lib : GoLib) client os_WriteFile apiKey output :
  let request := newRequest apiKey stats_url in
  let run := outcome_state (handleStats client os_WriteFile apiKey output) in
  stats_requests run = [request]
  /\ req_method request = "GET"
  /\ req_Authorization request = "Bearer " +:+ apiKey
  /\ url_endpoint (req_url request) = baseURL +:+ "/stats"
  /\ url_query (req_url request) = ∅
  /\ (stats_files run ≠ [] \/ stats_unfinished run ≠ [] ->
      output ≠ "" /\ exists data, client 0%nat request = Response 200 data)
  /\ (forall err,
        client 0%nat request = TransportError err ->
        handleStats client os_WriteFile apiKey output
        = Aborted ("request error: " +:+ err)
            {| stats_stdout := []; stats_files := []; stats_unfinished := [];
               stats_requests := [request] |})
  /\ (forall code body,
        client 0%nat request = Response code body -> code ≠ 200 ->
        handleStats client os_WriteFile apiKey output
        = Aborted ("request error: http " +:+ Sprintf_d code)
            {| stats_stdout := []; stats_files := []; stats_unfinished := [];
               stats_requests := [request] |})
  /\ (forall data err,
        client 0%nat request = Response 200 data -> output ≠ "" ->
        os_WriteFile output data = Some err ->
        handleStats client os_WriteFile apiKey output
        = Aborted ("write file: " +:+ err)
            {| stats_stdout := []; stats_files := []; stats_unfinished := [output];
               stats_requests := [request] |}).
Proof.
  intros request run. subst run. unfold handleStats, doGet. fold request.
  split.
  { destruct (client 0%nat request) as [err|code data]; [done|].
    destruct (code =? 200); [|done].
    destruct (decide (output = "")); [done|].
    by destruct (os_WriteFile output data). }
  do 4 (split; [reflexivity|]).
  split.
  { destruct (client 0%nat request) as [err|code data]; [simpl; tauto|].
    destruct (code =? 200) eqn:E; [|simpl; tauto].
    apply Z.eqb_eq in E. subst code.
    destruct (decide (output = "")); [simpl; tauto|].
    intros _. eauto. }
  repeat split.
  - intros err ->. done.
  - intros code body -> Hcode. destruct (code =? 200) eqn:E; [lia|]. done.
  - intros data err -> Hout Hwrite. simpl.
    destruct (decide (output = "")); [done|]. by rewrite Hwrite.
Qed.

Lemma stats_failure_aborts_witness :
  handleStats (H := utc_strings) (fun _ _ => Response 429 "slow down") write_ok "key"
    "stats.json"
  = Aborted "request error: http 429"
      {| stats_stdout := []; stats_files := []; stats_unfinished := [];
         stats_requests := [newRequest "key" stats_url] |}
  /\ handleStats (H := utc_strings) (stats_server stats_body)
       (fun _ _ => Some "permission denied") "key" "stats.json"
     = Aborted "write file: permission denied"
         {| stats_stdout := []; stats_files := []; stats_unfinished := ["stats.json"];
            stats_requests := [newRequest "key" stats_url] |}.
Proof.
  split.
  - destruct (stats_failure_aborts utc_strings
                (fun _ _ => Response 429 "slow down") write_ok "key" "stats.json")
      as (_ & _ & _ & _ & _ & _ & _ & Hstatus & _).
    apply (Hstatus 429 "slow down"); [reflexivity|discriminate].
  - destruct (stats_failure_aborts utc_strings (stats_server stats_body)
                (fun _ _ => Some "permission denied") "key" "stats.json")
      as (_ & _ & _ & _ & _ & _ & _ & _ & Hwrite).
    apply (Hwrite stats_body "permission denied");
      [reflexivity|discriminate|reflexivity].
Defined.

(** X13. The output file is created before the first request: when
    [os.Create] fails, a files or buckets run aborts with "create csv:"
    and the error, having made no request and printed nothing. *)
Theorem create_failure_fetches_nothing :
  (forall (lib : GoLib) client os_Create apiKey keywords bucket ext noext limit start
      output err fuel,
     output ≠ "" -> os_Create output = Some err ->
     exists st,
       handleFiles client os_Create apiKey keywords bucket ext noext limit start
         output fuel = Aborted ("create csv: " +:+ err) st
       /\ requests st = [] /\ stdout st = [] /\ w st = None /\ all st = [])
  /\ (forall (lib : GoLib) client os_Create apiKey keywords cloudType limit start
        output onlyBucket err fuel,
       output ≠ "" -> os_Create output = Some err ->
       exists st,
         handleBuckets client os_Create apiKey keywords cloudType limit start output
           onlyBucket fuel = Aborted ("create csv: " +:+ err) st
         /\ requests st = [] /\ stdout st = [] /\ w st = None /\ all st = []).
Proof.
  split.
  - intros lib client os_Create apiKey keywords bucket ext noext limit start output
      err fuel Hout Hcreate.
    unfold handleFiles. destruct (decide (output ≠ "")); [|done].
    rewrite Hcreate. eexists. by repeat split.
  - intros lib client os_Create apiKey keywords cloudType limit start output
      onlyBucket err fuel Hout Hcreate.
    unfold handleBuckets. destruct (decide (output ≠ "")); [|done].
    rewrite Hcreate. eexists. by repeat split.
Qed.

Lemma create_failure_fetches_nothing_witness :
  (exists st,
     handleFiles (files_server (two_files 0)) (fun _ => Some "read-only file system")
       "key" "report" "" "" "" 2 0 "out.csv" 5
     = Aborted "create csv: read-only file system" st
     /\ requests st = [])
  /\ (exists st,
        handleBuckets (buckets_server (two_buckets 0))
          (fun _ => Some "read-only file system") "key" "" "" 2 0 "out.csv" true 5
        = Aborted "create csv: read-only file system" st
        /\ requests st = []).
Proof.
  split.
  - destruct (proj1 create_failure_fetches_nothing utc_strings
                (files_server (two_files 0)) (fun _ => Some "read-only file system")
                "key" "report" "" "" "" 2 0 "out.csv" "read-only file system" 5%nat)
      as (st & Hrun & Hreq & _); [discriminate|reflexivity|].
    exists st. split; [exact Hrun|exact Hreq].
  - destruct (proj2 create_failure_fetches_nothing utc_strings
                (buckets_server (two_buckets 0))
                (fun _ => Some "read-only file system")
                "key" "" "" 2 0 "out.csv" true "read-only file system" 5%nat)
      as (st & Hrun & Hreq & _); [discriminate|reflexivity|].
    exists st. split; [exact Hrun|exact Hreq].
Defined.

(** ** Runs that never end, pages never asked twice *)

(** X14. Nothing bounds the loop but its stop test: against a server
    that keeps sending pages that are not short, a run whose tracked
    total never becomes positive (zero, negative or still the sentinel)
    is still running after any number of turns, having made one request
    per turn. *)
Theorem unknown_total_never_ends :
  (forall (lib : GoLib) client os_Create apiKey keywords bucket ext noext limit start
      output pages,
     creatable os_Create output ->
     (forall i,
        files_serves client apiKey keywords bucket ext noext (pageSize_of limit)
          start pages i
        /\ pageSize_of limit <= len (Files (pages i))
        /\ files_total pages i <= 0) ->
     forall fuel,
       exists st,
         handleFiles client os_Create apiKey keywords bucket ext noext limit start
           output fuel = Running st
         /\ length (requests st) = fuel)
  /\ (forall (lib : GoLib) client os_Create apiKey keywords cloudType limit start
        output onlyBucket pages,
       creatable os_Create output ->
       (forall i,
          buckets_serves client apiKey keywords cloudType (pageSize_of limit) start
            pages i
          /\ pageSize_of limit <= len (Buckets (pages i))
          /\ buckets_total pages i <= 0) ->
       forall fuel,
         exists st,
           handleBuckets client os_Create apiKey keywords cloudType limit start output
             onlyBucket fuel = Running st
           /\ length (requests st) = fuel).
Proof.
  split.
  - intros lib client os_Create apiKey keywords bucket ext noext limit start output
      pages Hc Hall fuel.
    eexists. split.
    + apply handleFiles_prefix with (pages := pages); [done|].
      intros i _. destruct (Hall i) as (Hs & Hlen & Htot). split; [done|].
      unfold files_stops, stops. unfold files_total in Htot.
      apply orb_false_iff. split; [lia|]. apply andb_false_iff. left. lia.
    + apply length_requests_before.
  - intros lib client os_Create apiKey keywords cloudType limit start output
      onlyBucket pages Hc Hall fuel.
    eexists. split.
    + apply handleBuckets_prefix with (pages := pages); [done|].
      intros i _. destruct (Hall i) as (Hs & Hlen & Htot). split; [done|].
      unfold buckets_stops, stops. unfold buckets_total in Htot.
      apply orb_false_iff. split; [lia|]. apply andb_false_iff. left. lia.
    + apply length_requests_before.
Qed.

Lemma unknown_total_never_ends_witness :
  (exists st,
     handleFiles (files_server (two_files (-7))) create_ok "key" "report" "" "" "" 2 0
       "" 50 = Running st
     /\ length (requests st) = 50%nat)
  /\ (exists st,
        handleBuckets (buckets_server (two_buckets (-1))) create_ok "key" "" "" 2 0 ""
          false 50 = Running st
        /\ length (requests st) = 50%nat).
Proof.
  split.
  - apply (proj1 unknown_total_never_ends utc_strings (files_server (two_files (-7)))
             create_ok "key" "report" "" "" "" 2 0 "" (fun _ => two_files (-7))).
    + intros Hout. reflexivity.
    + intros i. split; [reflexivity|]. split; [vm_compute; discriminate|].
      unfold files_total. rewrite total_before_first; vm_compute; discriminate.
  - apply (proj2 unknown_total_never_ends utc_strings
             (buckets_server (two_buckets (-1))) create_ok "key" "" "" 2 0 "" false
             (fun _ => two_buckets (-1))).
    + intros Hout. reflexivity.
    + intros i. split; [reflexivity|]. split; [vm_compute; discriminate|].
      unfold buckets_total. rewrite total_before_all_sentinel; [lia|].
      intros j Hj. reflexivity.
Defined.

(** X15. The client-side type filter only drops buckets: what it keeps
    is a part of the page in the page's order, a bucket is kept exactly
    when no type was asked for or its tag matches the type, and filtering
    what was kept changes nothing. *)
Theorem filter_type_keeps_part_of_page (lib : GoLib) (cloudType : string)
    (buckets : list Bucket) :
  filter_type cloudType buckets `sublist_of` buckets
  /\ len (filter_type cloudType buckets) <= len buckets
  /\ (forall b,
        In b (filter_type cloudType buckets)
        <-> In b buckets
            /\ (cloudType = "" \/ EqualFold (Bucket_Type b) cloudType = true))
  /\ filter_type cloudType (filter_type cloudType buckets)
     = filter_type cloudType buckets.
Proof.
  unfold filter_type. destruct (decide (cloudType ≠ "")) as [Hne|He].
  - assert (List.filter (fun b => EqualFold (Bucket_Type b) cloudType) buckets
            `sublist_of` buckets) as Hsub.
    { induction buckets as [|b bs IH]; simpl; [done|].
      destruct (EqualFold (Bucket_Type b) cloudType);
        [by apply sublist_skip|by apply sublist_cons]. }
    split; [done|]. split; [apply sublist_length in Hsub; unfold len; lia|].
    split.
    + intros b. rewrite filter_In. split; [intros [? ?]; auto|].
      intros [Hin [Hempty|Hmatch]]; [done|auto].
    + clear Hsub. induction buckets as [|b bs IH]; simpl; [done|].
      destruct (EqualFold (Bucket_Type b) cloudType) eqn:E; simpl; [|exact IH].
      by rewrite E, IH.
  - split; [reflexivity|]. split; [lia|]. split; [|done].
    intros b. split; [intros Hin; split; [done|]|by intros [? _]].
    left. by destruct (decide (cloudType = "")) as [|Hn]; [|destruct He].
Qed.

Lemma Sprintf_d_inj a b : Sprintf_d a = Sprintf_d b -> a = b.
Proof.
  unfold Sprintf_d. intros Hab.
  assert (forall z, NilZero.int_of_string (NilZero.string_of_int (Z.to_int z))
                    = Some (Z.to_int z)) as Hround.
  { intros z. apply NilZero.isi.
    - destruct z as [|p|p]; simpl; try done.
      intros [= Hp]. by apply (DecimalPos.Unsigned.to_uint_nonnil p).
    - destruct z as [|p|p]; simpl; try done.
      intros [= Hp]. by apply (DecimalPos.Unsigned.to_uint_nonnil p). }
  apply (f_equal NilZero.int_of_string) in Hab. rewrite !Hround in Hab.
  injection Hab as Hab. apply (f_equal Z.of_int) in Hab.
  by rewrite !DecimalZ.of_to in Hab.
Qed.

Lemma offset_at_lt P start i j k :
  is_int start -> 1 <= P -> start + Z.of_nat k * P <= int_max ->
  (i < j <= k)%nat -> offset_at P start i < offset_at P start j.
Proof.
  intros Hs HP Hmax Hij.
  rewrite !offset_at_exact; [nia|done|lia|nia|done|lia|nia].
Qed.

Section Distinct.
Context `{GoLib}.

Lemma requests_before_NoDup apiKey (url_at : Z -> URLString) P start k :
  (forall o, url_query (url_at o) !! "start" = Some (Sprintf_d o)) ->
  is_int start -> 1 <= P -> start + Z.of_nat k * P <= int_max ->
  NoDup (requests_before apiKey url_at P start (S k)).
Proof.
  intros Hurl Hs HP Hmax. unfold requests_before.
  apply (NoDup_fmap_2_strong (request_at apiKey url_at P start)); [|apply NoDup_seq].
  intros i j Hi%elem_of_seq Hj%elem_of_seq Heq.
  assert (offset_at P start i = offset_at P start j) as Hoff.
  { apply Sprintf_d_inj. apply (f_equal (fun r => url_query (req_url r) !! "start")) in Heq.
    unfold request_at in Heq. cbn [req_url newRequest] in Heq.
    rewrite !Hurl in Heq. by injection Heq. }
  destruct (Nat.lt_trichotomy i j) as [Hlt|[->|Hgt]]; [|done|].
  - pose proof (offset_at_lt P start i j k Hs HP Hmax ltac:(lia)). lia.
  - pose proof (offset_at_lt P start j i k Hs HP Hmax ltac:(lia)). lia.
Qed.

End Distinct.

(** X16. No page is asked for twice: as long as the offsets fit an
    [int], the requests a files or buckets run has made after k + 1
    turns are pairwise distinct, their [start] parameters being the
    decimal forms of strictly increasing offsets. *)
Theorem no_page_requested_twice :
  (forall (lib : GoLib) client os_Create apiKey keywords bucket ext noext limit start
      output pages k,
     creatable os_Create output -> is_int start ->
     start + Z.of_nat k * pageSize_of limit <= int_max ->
     (forall i, (i <= k)%nat ->
        files_serves client apiKey keywords bucket ext noext (pageSize_of limit)
          start pages i) ->
     (forall i, (i < k)%nat -> files_stops (pageSize_of limit) start pages i = false) ->
     NoDup (requests (outcome_state
       (handleFiles client os_Create apiKey keywords bucket ext noext limit start
          output (S k)))))
  /\ (forall (lib : GoLib) client os_Create apiKey keywords cloudType limit start
        output onlyBucket pages k,
       creatable os_Create output -> is_int start ->
       start + Z.of_nat k * pageSize_of limit <= int_max ->
       (forall i, (i <= k)%nat ->
          buckets_serves client apiKey keywords cloudType (pageSize_of limit) start
            pages i) ->
       (forall i, (i < k)%nat ->
          buckets_stops (pageSize_of limit) start pages i = false) ->
       NoDup (requests (outcome_state
         (handleBuckets client os_Create apiKey keywords cloudType limit start output
            onlyBucket (S k))))).
Proof.
  split.
  - intros lib client os_Create apiKey keywords bucket ext noext limit start output
      pages k Hc Hstart Hmax Hs Hn.
    pose proof (pageSize_of_bounds limit) as HP.
    rewrite handleFiles_turn with (pages := pages);
      [|done|intros; split; [apply Hs; lia|by apply Hn]|apply Hs; lia].
    assert (NoDup (requests_before apiKey
                     (files_url keywords bucket ext noext (pageSize_of limit))
                     (pageSize_of limit) start (S k))) as Hnd.
    { apply requests_before_NoDup; [|done|lia|done].
      intros o. apply files_url_start. }
    by destruct (files_stops _ _ _ _).
  - intros lib client os_Create apiKey keywords cloudType limit start output
      onlyBucket pages k Hc Hstart Hmax Hs Hn.
    pose proof (pageSize_of_bounds limit) as HP.
    rewrite handleBuckets_turn with (pages := pages);
      [|done|intros; split; [apply Hs; lia|by apply Hn]|apply Hs; lia].
    assert (NoDup (requests_before apiKey
                     (buckets_url keywords cloudType (pageSize_of limit))
                     (pageSize_of limit) start (S k))) as Hnd.
    { apply requests_before_NoDup; [|done|lia|done].
      intros o. apply buckets_url_start. }
    by destruct (buckets_stops _ _ _ _).
Qed.

Lemma no_page_requested_twice_witness :
  NoDup (requests (outcome_state
    (handleFiles (files_server (two_files 0)) create_ok "key" "report" "" "" "" 2 0 ""
       6)))
  /\ NoDup (requests (outcome_state
       (handleBuckets (buckets_paged [two_buckets 9; two_buckets 9; one_bucket 9])
          create_ok "key" "" "" 2 0 "" false 3))).
Proof.
  split.
  - apply (proj1 no_page_requested_twice utc_strings (files_server (two_files 0))
             create_ok "key" "report" "" "" "" 2 0 "" (fun _ => two_files 0) 5%nat).
    + intros Hout. reflexivity.
    + exact is_int_0.
    + vm_compute. discriminate.
    + intros i Hi. reflexivity.
    + intros i Hi. unfold files_stops. rewrite stops_unknown_total by reflexivity.
      reflexivity.
  - apply (proj2 no_page_requested_twice utc_strings
             (buckets_paged [two_buckets 9; two_buckets 9; one_bucket 9])
             create_ok "key" "" "" 2 0 "" false
             (buckets_pages [two_buckets 9; two_buckets 9; one_bucket 9]) 2%nat).
    + intros Hout. reflexivity.
    + exact is_int_0.
    + vm_compute. discriminate.
    + intros i Hi. reflexivity.
    + intros i Hi. destruct i as [|[|i]]; [vm_compute; reflexivity..|lia].
Defined.
